(** * joule-profiler-benchmark: a shallow embedding and its properties

    The notebook [joule-profiler-benchmark.py] sweeps the RAPL polling
    frequency of an external profiler, collects one CSV table per run and
    reduces the trials to one row per requested frequency.

    Numbers.  Python [int]s are [Z].  Python [float]s and polars [Float64]
    cells are values of [num]: a finite value is carried as an exact rational
    ([Qc]), next to the IEEE special values [+inf], [-inf] and [NaN] that a
    float division can produce.  Rounding to 53 bits and the sign of zero are
    not part of [num]: where a property depends on them, the two functions
    that do arithmetic on columns, [df_aggregate] and
    [df_group_by_expected_frequency], are taken over cells of any kind
    ([frames]) and over IEEE binary64 cells ([ieee]).

    Effects.  The profiler subprocess, the temporary directory and the CSV
    file are the operating system's: they are section variables ([os],
    [mkdtemp]) read through a state ([World]) that counts the invocations and
    records what was spawned, slept and removed. *)

From Stdlib Require Import ZArith QArith Qcanon List String Ascii Bool Lia.
From Stdlib Require Import Permutation Sorted DecimalString SpecFloat.
Import ListNotations.

Local Open Scope string_scope.
Local Open Scope list_scope.
Local Open Scope Z_scope.

(** ** Exceptions and results *)

Inductive PyErr : Type :=
| ValueError (msg : string)
| TypeError (msg : string)
| ZeroDivisionError (msg : string)
| CalledProcessError (returncode : Z) (cmd : list string) (output stderr : string)
| FileNotFoundError (path : string)
| NoDataError (msg : string)
| ComputeError (msg : string)
| ColumnNotFoundError (name : string)
| DuplicateError (name : string)
| ShapeError (msg : string)
| OverflowError (msg : string).

Inductive result (A : Type) : Type :=
| Ok (a : A)
| Raise (e : PyErr).

Arguments Ok {A} a.
Arguments Raise {A} e.

Definition bind {A B : Type} (r : result A) (k : A -> result B) : result B :=
  match r with
  | Ok a => k a
  | Raise e => Raise e
  end.

Declare Scope result_scope.
Delimit Scope result_scope with result.
Notation "x <- r ;; k" := (bind r (fun x => k))
  (at level 61, r at next level, right associativity) : result_scope.

(** [mapM f l] runs [f] over [l] from the left and stops at the first
    exception. *)
Fixpoint mapM {A B : Type} (f : A -> result B) (l : list A) : result (list B) :=
  match l with
  | [] => Ok []
  | a :: l' =>
      match f a with
      | Raise e => Raise e
      | Ok b =>
          match mapM f l' with
          | Raise e => Raise e
          | Ok bs => Ok (b :: bs)
          end
      end
  end.

(** ** Numbers *)

Inductive num : Type :=
| Fin (q : Qc)
| PInf
| NInf
| NaN.

Definition Qc_of_Z (z : Z) : Qc := Q2Qc (inject_Z z).

Definition num_of_Z (z : Z) : num := Fin (Qc_of_Z z).

Definition Qc_is_zero (q : Qc) : bool := Qc_eq_bool q (Qc_of_Z 0).

Definition Qc_ltb (p q : Qc) : bool :=
  match (p ?= q)%Qc with Lt => true | _ => false end.

Definition Qc_leb (p q : Qc) : bool :=
  match (p ?= q)%Qc with Gt => false | _ => true end.

(** IEEE comparison with a float: every comparison with [NaN] is false. *)
Definition num_eqb (a b : num) : bool :=
  match a, b with
  | Fin p, Fin q => Qc_eq_bool p q
  | PInf, PInf | NInf, NInf => true
  | _, _ => false
  end.

Definition num_leb (a b : num) : bool :=
  match a, b with
  | NaN, _ | _, NaN => false
  | NInf, _ | _, PInf => true
  | Fin p, Fin q => Qc_leb p q
  | _, _ => false
  end.

Definition num_ltb (a b : num) : bool :=
  match a, b with
  | NaN, _ | _, NaN => false
  | NInf, NInf | PInf, PInf => false
  | NInf, _ | _, PInf => true
  | Fin p, Fin q => Qc_ltb p q
  | _, _ => false
  end.

(** IEEE addition: [inf + -inf] is [NaN], [NaN] absorbs. *)
Definition num_add (a b : num) : num :=
  match a, b with
  | NaN, _ | _, NaN => NaN
  | PInf, NInf | NInf, PInf => NaN
  | PInf, _ | _, PInf => PInf
  | NInf, _ | _, NInf => NInf
  | Fin p, Fin q => Fin (p + q)%Qc
  end.

(** IEEE division: a finite non-zero value over zero is an infinity of the
    sign of the numerator, [0/0] and [inf/inf] are [NaN]. *)
Definition num_div (a b : num) : num :=
  match a, b with
  | NaN, _ | _, NaN => NaN
  | Fin p, Fin q =>
      if Qc_is_zero q then
        match (p ?= Qc_of_Z 0)%Qc with
        | Gt => PInf
        | Lt => NInf
        | Eq => NaN
        end
      else Fin (p / q)%Qc
  | Fin _, (PInf | NInf) => Fin (Qc_of_Z 0)
  | PInf, Fin q => if Qc_ltb q (Qc_of_Z 0) then NInf else PInf
  | NInf, Fin q => if Qc_ltb q (Qc_of_Z 0) then PInf else NInf
  | (PInf | NInf), (PInf | NInf) => NaN
  end.

(** ** Python values: [None], [int], [float] *)

Inductive pyval : Type :=
| PyNone
| PyInt (z : Z)
| PyFloat (x : num).

(** [bool(v)]: [None], [0] and [0.0] are falsy; [nan] is truthy. *)
Definition truthy (v : pyval) : bool :=
  match v with
  | PyNone => false
  | PyInt z => negb (z =? 0)
  | PyFloat x => negb (num_eqb x (num_of_Z 0))
  end.

(** [v == 0]: [None == 0] is [False]. *)
Definition py_eq_zero (v : pyval) : bool :=
  match v with
  | PyNone => false
  | PyInt z => z =? 0
  | PyFloat x => num_eqb x (num_of_Z 0)
  end.

(** [v <= 0]: ordering [None] against an [int] is a [TypeError]. *)
Definition py_le_zero (v : pyval) : result bool :=
  match v with
  | PyNone =>
      Raise (TypeError "'<=' not supported between instances of 'NoneType' and 'int'")
  | PyInt z => Ok (z <=? 0)
  | PyFloat x => Ok (num_leb x (num_of_Z 0))
  end.

(** [1 / v]: true division always gives a [float]; a zero divisor is a
    [ZeroDivisionError]. *)
Definition py_one_over (v : pyval) : result pyval :=
  match v with
  | PyNone =>
      Raise (TypeError "unsupported operand type(s) for /: 'int' and 'NoneType'")
  | PyInt z =>
      if z =? 0 then Raise (ZeroDivisionError "division by zero")
      else Ok (PyFloat (num_div (num_of_Z 1) (num_of_Z z)))
  | PyFloat x =>
      if num_eqb x (num_of_Z 0) then Raise (ZeroDivisionError "float division by zero")
      else Ok (PyFloat (num_div (num_of_Z 1) x))
  end.

(** [range(start, stop, step)], with the length CPython computes for it. *)
Definition range_length (lo hi step : Z) : Z :=
  if lo <? hi then (hi - lo - 1) / step + 1 else 0.

Definition range (start stop step : Z) : result (list Z) :=
  if step =? 0 then Raise (ValueError "range() arg 3 must not be zero")
  else
    let len := if 0 <? step then range_length start stop step
               else range_length stop start (- step) in
    Ok (map (fun i => start + Z.of_nat i * step) (seq 0 (Z.to_nat len))).

(** ** The frequency sweep *)

(** [yield_every]: the values the generator yields, in order, or the
    exception its first [next] raises. *)
Definition yield_every (step n : Z) : result (list Z) :=
  range 0 (n * step + 1) step.

(** [hz_to_s]: [0 if not hz or hz <= 0 else 1 / hz]; [or] does not evaluate
    its right operand when the left one is true. *)
Definition hz_to_s (hz : pyval) : result pyval :=
  if negb (truthy hz) then Ok (PyInt 0)
  else
    (nonpos <- py_le_zero hz ;;
     if (nonpos : bool) then Ok (PyInt 0) else py_one_over hz)%result.

(** ** Tables: the part of polars the notebook uses

    A [DataFrame] is an ordered list of named columns, a column ([Series])
    a list of cells, a cell a number or [null].  polars keeps the column
    names distinct and the columns of one length ([wf]).  Only numeric
    columns are followed; the textual [command] column of the profiler's
    file is dropped by [df_removed_unused_columns] before any arithmetic. *)

Definition cell : Type := option num.
Definition Series : Type := list cell.
Definition DataFrame : Type := list (string * Series).

Definition cell_of_Z (z : Z) : cell := Some (num_of_Z z).

Definition cell_of_pyval (v : pyval) : cell :=
  match v with
  | PyNone => None
  | PyInt z => Some (num_of_Z z)
  | PyFloat x => Some x
  end.

Definition num_eq_dec (a b : num) : {a = b} + {a <> b}.
Proof. decide equality. apply Qc_eq_dec. Defined.

Definition cell_eq_dec (a b : cell) : {a = b} + {a <> b}.
Proof. decide equality. apply num_eq_dec. Defined.

Definition cell_eqb (a b : cell) : bool :=
  if cell_eq_dec a b then true else false.

Definition Series_eq_dec : forall a b : Series, {a = b} + {a <> b} :=
  list_eq_dec cell_eq_dec.

Definition DataFrame_eq_dec (a b : DataFrame) : {a = b} + {a <> b}.
Proof. apply list_eq_dec. decide equality; [apply Series_eq_dec | apply string_dec]. Defined.

Definition PyErr_eq_dec (a b : PyErr) : {a = b} + {a <> b}.
Proof.
  decide equality;
    try apply string_dec; try apply Z.eq_dec; apply list_eq_dec, string_dec.
Defined.

Definition result_eq_dec {A : Type} (dec : forall a b : A, {a = b} + {a <> b})
  (x y : result A) : {x = y} + {x <> y}.
Proof. decide equality. apply PyErr_eq_dec. Defined.

(** Reading an equation or a disequation off a decision procedure that is
    run on closed terms. *)
Definition decides {P : Prop} (d : {P} + {~ P}) : bool :=
  if d then true else false.

Definition mem (n : string) (l : list string) : bool :=
  existsb (String.eqb n) l.

Fixpoint first_dup (l : list string) : option string :=
  match l with
  | [] => None
  | n :: l' => if mem n l' then Some n else first_dup l'
  end.

Definition map2 {A B C : Type} (f : A -> B -> C) (l1 : list A) (l2 : list B) : list C :=
  map (fun ab => f (fst ab) (snd ab)) (combine l1 l2).

Definition columns (df : DataFrame) : list string := map fst df.

Definition height (df : DataFrame) : nat :=
  match df with
  | [] => O
  | (_, s) :: _ => List.length s
  end.

Definition wf (df : DataFrame) : Prop :=
  NoDup (columns df) /\ Forall (fun c => List.length (snd c) = height df) df.

Fixpoint get_column (name : string) (df : DataFrame) : result Series :=
  match df with
  | [] => Raise (ColumnNotFoundError name)
  | (n, s) :: df' => if String.eqb n name then Ok s else get_column name df'
  end.

(** The cell of column [name] in row [i]. *)
Definition cell_at (df : DataFrame) (name : string) (i : nat) : option cell :=
  match get_column name df with
  | Ok s => nth_error s i
  | Raise _ => None
  end.

(** Row [i] as the list of its cells, in column order, and all rows. *)
Definition row (df : DataFrame) (i : nat) : list cell :=
  map (fun c => nth i (snd c) None) df.

Definition rows (df : DataFrame) : list (list cell) :=
  map (row df) (seq 0 (height df)).

(** [df[idx]]: the rows of [df] taken in the order of the indices [idx]. *)
Definition take (idx : list nat) (df : DataFrame) : DataFrame :=
  map (fun c => (fst c, map (fun i => nth i (snd c) None) idx)) df.

Module pl.

(** Arithmetic and comparison on cells: [null] propagates. *)
Definition cell_div (a b : cell) : cell :=
  match a, b with
  | Some x, Some y => Some (num_div x y)
  | _, _ => None
  end.

Definition cell_eq (a b : cell) : option bool :=
  match a, b with
  | Some x, Some y => Some (num_eqb x y)
  | _, _ => None
  end.

(** [when(p).then(a).otherwise(b)]: [a] where [p] is true, [b] where it
    is false or [null]. *)
Definition choose (p : option bool) (a b : cell) : cell :=
  match p with
  | Some true => a
  | _ => b
  end.

Inductive Expr : Type :=
| col (name : string)
| lit (v : cell)
| Div (a b : Expr)
| when_then_otherwise (p : Pred) (a b : Expr)
| alias (e : Expr) (name : string)
with Pred : Type :=
| Eq (a b : Expr).

(** The name a result column gets: that of the leftmost leaf, unless
    [alias] renames it. *)
Fixpoint output_name (e : Expr) : string :=
  match e with
  | col name => name
  | lit _ => "literal"
  | Div a _ => output_name a
  | when_then_otherwise _ a _ => output_name a
  | alias _ name => name
  end.

(** A literal is broadcast to the height of the frame. *)
Fixpoint eval (e : Expr) (df : DataFrame) : result Series :=
  match e with
  | col name => get_column name df
  | lit v => Ok (repeat v (height df))
  | Div a b =>
      (x <- eval a df ;; y <- eval b df ;; Ok (map2 cell_div x y))%result
  | when_then_otherwise p a b =>
      (c <- eval_pred p df ;; x <- eval a df ;; y <- eval b df ;;
       Ok (map2 (fun ci xy => choose ci (fst xy) (snd xy)) c (combine x y)))%result
  | alias e' _ => eval e' df
  end
with eval_pred (p : Pred) (df : DataFrame) : result (list (option bool)) :=
  match p with
  | Eq a b =>
      (x <- eval a df ;; y <- eval b df ;; Ok (map2 cell_eq x y))%result
  end.

(** [df.select(names)] *)
Definition select (names : list string) (df : DataFrame) : result DataFrame :=
  match first_dup names with
  | Some n => Raise (DuplicateError n)
  | None => mapM (fun n => (s <- get_column n df ;; Ok (n, s))%result) names
  end.

(** [df.drop(names)]: every name must be a column. *)
Definition drop (names : list string) (df : DataFrame) : result DataFrame :=
  (_ <- mapM (fun n => get_column n df) names ;;
   Ok (filter (fun c => negb (mem (fst c) names)) df))%result.

(** A new column replaces the column of its name, or is appended. *)
Definition upsert (df : DataFrame) (c : string * Series) : DataFrame :=
  if mem (fst c) (columns df)
  then map (fun d => if String.eqb (fst d) (fst c) then c else d) df
  else df ++ [c].

(** [df.with_columns(exprs)]: all expressions are evaluated on [df]. *)
Definition with_columns (exprs : list Expr) (df : DataFrame) : result DataFrame :=
  match first_dup (map output_name exprs) with
  | Some n => Raise (DuplicateError n)
  | None =>
      (news <- mapM (fun e => (s <- eval e df ;; Ok (output_name e, s))) exprs ;;
       Ok (fold_left upsert news df))%result
  end.

(** Aggregations: [pl.mean(c)] is the mean of the non-null cells of [c],
    [null] when there is none. *)
Inductive AggExpr : Type :=
| mean (c : string).

Fixpoint non_null (s : Series) : list num :=
  match s with
  | [] => []
  | Some x :: s' => x :: non_null s'
  | None :: s' => non_null s'
  end.

Definition sum (xs : list num) : num :=
  fold_left num_add xs (num_of_Z 0).

Definition mean_cells (s : Series) : cell :=
  match non_null s with
  | [] => None
  | xs => Some (num_div (sum xs) (num_of_Z (Z.of_nat (List.length xs))))
  end.

(** The cells of [vals] in the rows whose key is [k], in row order. *)
Definition group_values (keys vals : Series) (k : cell) : Series :=
  map snd (filter (fun kv => cell_eqb (fst kv) k) (combine keys vals)).

Record GroupBy : Type := { gb_df : DataFrame; gb_key : string }.

Definition group_by (key : string) (df : DataFrame) : GroupBy :=
  {| gb_df := df; gb_key := key |}.

(** [df.group_by(key).agg(aggs)]: one row per distinct key.  polars leaves
    the order of the groups unspecified; here they come in the order
    [nodup] gives. *)
Definition agg (aggs : list AggExpr) (g : GroupBy) : result DataFrame :=
  (keys <- get_column (gb_key g) (gb_df g) ;;
   let ks := nodup cell_eq_dec keys in
   cs <- mapM (fun a =>
                 match a with
                 | mean c =>
                     vals <- get_column c (gb_df g) ;;
                     Ok (c, map (fun k => mean_cells (group_values keys vals k)) ks)
                 end) aggs ;;
   Ok ((gb_key g, ks) :: cs))%result.

(** [pl.concat(dfs)]: vertical stacking of frames of one schema. *)
Fixpoint vstack (a b : DataFrame) : result DataFrame :=
  match a, b with
  | [], [] => Ok []
  | (n, s) :: a', (m, t) :: b' =>
      if String.eqb n m
      then (r <- vstack a' b' ;; Ok ((n, s ++ t) :: r))%result
      else Raise (ShapeError "unable to vstack, column names don't match")
  | _, _ => Raise (ShapeError "unable to append to a DataFrame of different width")
  end.

Definition concat (dfs : list DataFrame) : result DataFrame :=
  match dfs with
  | [] => Raise (ValueError "cannot concat empty list")
  | d :: ds => fold_left (fun acc x => (a <- acc ;; vstack a x)%result) ds (Ok d)
  end.

End pl.

(** ** The aggregation pipeline *)

(** [df_group_by_expected_frequency] *)
Definition df_group_by_expected_frequency (df : DataFrame) : result DataFrame :=
  pl.agg
    (map pl.mean (filter (fun c => negb (String.eqb c "expected_frequency")) (columns df)))
    (pl.group_by "expected_frequency" df).

(** [df_removed_unused_columns] *)
Definition df_removed_unused_columns (df : DataFrame) : result DataFrame :=
  pl.drop ["command"; "exit_code"] df.

Definition _MS_TO_SECONDS_RATIO : Z := 1000.
Definition _MICRO_JOULE_TO_JOULE_RATIO : Z := 1000000.

(** [df_aggregate] *)
Definition df_aggregate (df : DataFrame) : result DataFrame :=
  (df <- pl.select ["expected_frequency"; "CORE_0"; "measure_count"; "duration_ms";
                    "measure_delta"] df ;;
   df <- pl.with_columns
           [ pl.alias (pl.Div (pl.lit (cell_of_Z 1000)) (pl.col "measure_delta"))
                      "real_frequency";
             pl.alias (pl.Div (pl.col "CORE_0")
                              (pl.lit (cell_of_Z _MICRO_JOULE_TO_JOULE_RATIO)))
                      "core_energy" ] df ;;
   df <- pl.with_columns
           [ pl.alias (pl.when_then_otherwise
                         (pl.Eq (pl.col "expected_frequency") (pl.lit (cell_of_Z 0)))
                         (pl.lit (cell_of_Z 0))
                         (pl.col "real_frequency"))
                      "real_frequency" ] df ;;
   df <- pl.drop ["measure_count"; "duration_ms"] df ;;
   pl.select ("real_frequency"
                :: filter (fun c => negb (String.eqb c "real_frequency")) (columns df)) df)%result.

(** ** The operating system

    What the notebook does to the machine is recorded in a [World], the list
    of the events so far, most recent first.  How the machine answers is the
    section's variables: the directory [mkdtemp] creates, the way a spawned
    process ends ([os]) and what is found at a path ([fs]), each a function
    of the history. *)

Record CompletedProcess : Type :=
  { returncode : Z; stdout : string; stderr : string }.

(** What [pl.read_csv] meets at a path: no file, a file without data, a file
    polars cannot parse, or a table. *)
Inductive Artifact : Type :=
| Missing
| Empty
| Malformed (msg : string)
| Table (df : DataFrame).

Inductive Event : Type :=
| Mkdtemp (path : string)
| Spawn (cmd : list string) (p : CompletedProcess)
| Rmtree (path : string)
| Sleep (t : pyval).

Definition World : Type := list Event.

(** Computations that change the world and may raise. *)
Definition M (A : Type) : Type := World -> result A * World.

Definition ret {A : Type} (a : A) : M A := fun w => (Ok a, w).

Definition lift {A : Type} (r : result A) : M A := fun w => (r, w).

Definition bindM {A B : Type} (m : M A) (k : A -> M B) : M B :=
  fun w =>
    match m w with
    | (Ok a, w') => k a w'
    | (Raise e, w') => (Raise e, w')
    end.

Declare Scope M_scope.
Delimit Scope M_scope with M.
Notation "x <- m ;; k" := (bindM m (fun x => k))
  (at level 61, m at next level, right associativity) : M_scope.

(** [for a in l: acc = body(a, acc)] *)
Fixpoint forM {A S : Type} (l : list A) (body : A -> S -> M S) (acc : S) : M S :=
  match l with
  | [] => ret acc
  | a :: l' => (acc' <- body a acc ;; forM l' body acc')%M
  end.

(** [range(n)] *)
Definition range1 (n : Z) : list Z := map Z.of_nat (seq 0 (Z.to_nat n)).

Definition JOULE_PROFILER : string := "./joule-profiler/target/debug/joule-profiler".

Definition DEFAULT_NB_ITERATIONS : Z := 100.
Definition DEFAULT_NB_POLLING : Z := 30.
Definition DEFAULT_SLEEP_TIME : pyval := PyFloat (Fin (Q2Qc (1 # 100))).
Definition DEFAULT_N_BODY_VALUE : Z := 50000.
Definition DEFAULT_POLLING_FUNCTION : result (list Z) := yield_every 1000 DEFAULT_NB_POLLING.

Section OS.

Variable mkdtemp : World -> string.
Variable os : World -> list string -> CompletedProcess.
Variable fs : World -> string -> Artifact.
(** [repr] of a [float], the digits Python prints. *)
Variable float_repr : num -> string.

(** [str(v)] *)
Definition str (v : pyval) : string :=
  match v with
  | PyNone => "None"
  | PyInt z => NilZero.string_of_int (Z.to_int z)
  | PyFloat x => float_repr x
  end.

(** [with tempfile.TemporaryDirectory() as tmpdir: body]: the directory
    is removed however [body] ends. *)
Definition TemporaryDirectory {A : Type} (body : string -> M A) : M A :=
  fun w =>
    let tmpdir := mkdtemp w in
    let (r, w') := body tmpdir (Mkdtemp tmpdir :: w) in
    (r, Rmtree tmpdir :: w').

(** [subprocess.run(cmd, text=True, stdout=PIPE, stderr=PIPE, check=True)].
    The machine is taken to start every command: the [OSError] of a command
    that cannot be executed at all, after which there is no process, is not
    followed. *)
Definition subprocess_run (cmd : list string) : M CompletedProcess :=
  fun w =>
    let p := os w cmd in
    if returncode p =? 0 then (Ok p, Spawn cmd p :: w)
    else (Raise (CalledProcessError (returncode p) cmd (stdout p) (stderr p)),
          Spawn cmd p :: w).

(** [pl.read_csv(path, separator=";")] *)
Definition read_csv (path : string) : M DataFrame :=
  fun w =>
    match fs w path with
    | Missing => (Raise (FileNotFoundError path), w)
    | Empty => (Raise (NoDataError "empty CSV"), w)
    | Malformed msg => (Raise (ComputeError msg), w)
    | Table df => (Ok df, w)
    end.

(** [time.sleep(t)] *)
Definition sleep (t : pyval) : M unit :=
  fun w =>
    match t with
    | PyNone => (Raise (TypeError "'NoneType' object cannot be interpreted as an integer"), w)
    | PyInt z =>
        if z <? 0 then (Raise (ValueError "sleep length must be non-negative"), w)
        else (Ok tt, Sleep t :: w)
    | PyFloat PInf =>
        (Raise (OverflowError "timestamp too large to convert to C PyTime_t"), w)
    | PyFloat x =>
        if num_leb (num_of_Z 0) x then (Ok tt, Sleep t :: w)
        else (Raise (ValueError "sleep length must be non-negative"), w)
    end.

(** [run_joule_profiler] *)
Definition run_joule_profiler (command : list string) (rapl_polling : pyval)
    (extra_args : option (list string)) : M DataFrame :=
  let extra_args := match extra_args with Some l => l | None => [] end in
  let rapl_polling := if py_eq_zero rapl_polling then PyNone else rapl_polling in
  TemporaryDirectory (fun tmpdir =>
    let csv_path := (tmpdir ++ "/results.csv")%string in
    let cmd := ["sudo"; "-S"; JOULE_PROFILER; "simple"; "--csv"; "--jouleit-file";
                csv_path] in
    (polling_s <- lift (hz_to_s rapl_polling) ;;
     let cmd := match rapl_polling with
                | PyNone => cmd
                | _ => cmd ++ ["--rapl-polling"; str polling_s]
                end in
     let cmd := cmd ++ extra_args in
     let cmd := cmd ++ "--" :: command in
     proc <- subprocess_run cmd ;;
     read_csv csv_path)%M).

(** [generate_iters] *)
Definition generate_iters (nb_iterations : Z) (sleep_time : pyval)
    (polling_function : list pyval) (nbody_value : Z) : M DataFrame :=
  (dfs <- forM polling_function (fun polling dfs =>
      iter_dfs <- forM (range1 nb_iterations) (fun _ iter_dfs =>
          res <- run_joule_profiler ["python3"; "nbody.py"; str (PyInt nbody_value)]
                   polling None ;;
          _ <- sleep sleep_time ;;
          ret (iter_dfs ++ [res])) [] ;;
      df_polling <- lift (pl.concat iter_dfs) ;;
      df_polling <- lift (pl.with_columns
                            [pl.alias (pl.lit (cell_of_pyval polling)) "expected_frequency"]
                            df_polling) ;;
      df_polling <- lift (pl.with_columns
                            [pl.alias (pl.Div (pl.col "measure_delta")
                                              (pl.lit (cell_of_Z 1000)))
                                      "measure_delta"]
                            df_polling) ;;
      ret (dfs ++ [df_polling])) [] ;;
   lift (pl.concat dfs))%M.

End OS.

(** ** A scripted machine, to run the definitions on

    The [n]-th process ends as the [n]-th entry of a script says and leaves
    the table of that entry at the path it was given after
    [--jouleit-file]. *)

Definition spawned (w : World) : nat :=
  List.length (filter (fun e => match e with Spawn _ _ => true | _ => false end) w).

Definition script_os (script : list (CompletedProcess * Artifact)) (w : World)
    (cmd : list string) : CompletedProcess :=
  fst (nth (spawned w) script ({| returncode := 127; stdout := ""; stderr := "not found" |},
                               Missing)).

Definition script_fs (script : list (CompletedProcess * Artifact)) (w : World)
    (path : string) : Artifact :=
  match spawned w with
  | O => Missing
  | S n => snd (nth n script ({| returncode := 127; stdout := ""; stderr := "" |}, Missing))
  end.

Definition script_mkdtemp (w : World) : string :=
  ("/tmp/tmp" ++ NilZero.string_of_uint (Nat.to_uint (spawned w)))%string.

Definition script_repr (x : num) : string :=
  match x with
  | Fin q => (NilZero.string_of_int (Z.to_int (Qnum q)) ++ "/"
              ++ NilZero.string_of_uint (Pos.to_uint (Qden q)))%string
  | PInf => "inf"
  | NInf => "-inf"
  | NaN => "nan"
  end.

Definition raw_table (core delta : Z) : DataFrame :=
  [ ("CORE_0", [cell_of_Z core]); ("measure_delta", [cell_of_Z delta]);
    ("measure_count", [cell_of_Z 10]); ("duration_ms", [cell_of_Z 20]) ].

Definition exit_ok : CompletedProcess :=
  {| returncode := 0; stdout := ""; stderr := "" |}.

Definition exit_failed : CompletedProcess :=
  {| returncode := 1; stdout := ""; stderr := "rapl: permission denied" |}.

(** The table [df_aggregate] returns, from the columns it selects. *)
Definition real_frequency_of (ef md : Series) : Series :=
  let h := List.length ef in
  map2 (fun ci xy => pl.choose ci (fst xy) (snd xy))
       (map2 pl.cell_eq ef (repeat (cell_of_Z 0) h))
       (combine (repeat (cell_of_Z 0) h)
                (map2 pl.cell_div (repeat (cell_of_Z 1000) h) md)).

Definition core_energy_of (ef c0 : Series) : Series :=
  map2 pl.cell_div c0 (repeat (cell_of_Z 1000000) (List.length ef)).

Definition aggregated (ef c0 md : Series) : DataFrame :=
  [ ("real_frequency", real_frequency_of ef md);
    ("expected_frequency", ef);
    ("CORE_0", c0);
    ("measure_delta", md);
    ("core_energy", core_energy_of ef c0) ].

(** The sequence [0, step, 2*step, ..., n*step]. *)
Definition multiples (step : Z) (n : nat) : list Z :=
  map (fun i => Z.of_nat i * step) (seq 0 (S n)).

Definition qcell (a : Z) (b : positive) : cell := Some (Fin (Q2Qc (a # b))).

Definition sample_grouped : DataFrame :=
  [ ("expected_frequency", [cell_of_Z 0; cell_of_Z 1000; cell_of_Z 2000]);
    ("CORE_0", [cell_of_Z 2500000; cell_of_Z 3000000; cell_of_Z 3500000]);
    ("measure_count", [cell_of_Z 0; cell_of_Z 400; cell_of_Z 500]);
    ("duration_ms", [cell_of_Z 1000; cell_of_Z 1000; cell_of_Z 1000]);
    ("measure_delta", [cell_of_Z 7; cell_of_Z 2; cell_of_Z 0]) ].

Definition sample_aggregated : DataFrame :=
  [ ("real_frequency", [cell_of_Z 0; cell_of_Z 500; Some PInf]);
    ("expected_frequency", [cell_of_Z 0; cell_of_Z 1000; cell_of_Z 2000]);
    ("CORE_0", [cell_of_Z 2500000; cell_of_Z 3000000; cell_of_Z 3500000]);
    ("measure_delta", [cell_of_Z 7; cell_of_Z 2; cell_of_Z 0]);
    ("core_energy", [qcell 5 2; cell_of_Z 3; qcell 7 2]) ].

(** Three trials, two of them at 1000 Hz. *)
Definition sample_trials : DataFrame :=
  [ ("CORE_0", [cell_of_Z 2000000; cell_of_Z 2500000; cell_of_Z 3500000]);
    ("measure_delta", [cell_of_Z 1; cell_of_Z 2; cell_of_Z 5]);
    ("measure_count", [cell_of_Z 9; cell_of_Z 10; cell_of_Z 12]);
    ("duration_ms", [cell_of_Z 40; cell_of_Z 50; cell_of_Z 60]);
    ("expected_frequency", [cell_of_Z 1000; cell_of_Z 0; cell_of_Z 1000]) ].

(** The sweep [0, 1000, 2000] with three trials each and a
    [measure_delta] of 2 ms throughout. *)
Definition scenario_trials : DataFrame :=
  [ ("CORE_0", map cell_of_Z [1000000; 2000000; 3000000; 4000000; 4000000; 4000000;
                               5000000; 6000000; 7000000]);
    ("measure_delta", repeat (cell_of_Z 2) 9);
    ("measure_count", repeat (cell_of_Z 10) 9);
    ("duration_ms", repeat (cell_of_Z 20) 9);
    ("expected_frequency", map cell_of_Z [0; 0; 0; 1000; 1000; 1000; 2000; 2000; 2000]) ].

Definition scenario_aggregated : DataFrame :=
  [ ("real_frequency", map cell_of_Z [0; 500; 500]);
    ("expected_frequency", map cell_of_Z [0; 1000; 2000]);
    ("CORE_0", map cell_of_Z [2000000; 4000000; 6000000]);
    ("measure_delta", map cell_of_Z [2; 2; 2]);
    ("core_energy", map cell_of_Z [2; 4; 6]) ].

(** Two trials at 1000 Hz whose [measure_delta] is [0]. *)
Definition zero_delta_trials : DataFrame :=
  [ ("CORE_0", [cell_of_Z 2500000; cell_of_Z 3500000]);
    ("measure_delta", [cell_of_Z 0; cell_of_Z 0]);
    ("measure_count", [cell_of_Z 1; cell_of_Z 1]);
    ("duration_ms", [cell_of_Z 40; cell_of_Z 60]);
    ("expected_frequency", [cell_of_Z 1000; cell_of_Z 1000]) ].

Definition zero_delta_aggregated : DataFrame :=
  [ ("real_frequency", [Some PInf]);
    ("expected_frequency", [cell_of_Z 1000]);
    ("CORE_0", [cell_of_Z 3000000]);
    ("measure_delta", [cell_of_Z 0]);
    ("core_energy", [cell_of_Z 3]) ].

(** The table [df_group_by_expected_frequency] returns, from the key
    column [keys] of [df]. *)
Definition series (c : string) (df : DataFrame) : Series :=
  match get_column c df with
  | Ok s => s
  | Raise _ => []
  end.

Definition others (df : DataFrame) : list string :=
  filter (fun c => negb (String.eqb c "expected_frequency")) (columns df).

Definition group_means (keys : Series) (df : DataFrame) (k : cell) : list cell :=
  map (fun c => pl.mean_cells (pl.group_values keys (series c df) k)) (others df).

Definition grouped (keys : Series) (df : DataFrame) : DataFrame :=
  ("expected_frequency", nodup cell_eq_dec keys)
    :: map (fun c => (c, map (fun k => pl.mean_cells (pl.group_values keys (series c df) k))
                             (nodup cell_eq_dec keys)))
           (others df).

(** Two results of the grouping agree when they raise the same exception
    or are tables of the same columns and the same rows, in any order. *)
Definition same_groups (r r' : result DataFrame) : Prop :=
  match r, r' with
  | Ok g, Ok g' => columns g = columns g' /\ Permutation (rows g) (rows g')
  | Raise e, Raise e' => e = e'
  | _, _ => False
  end.

(** The notebook's pipeline on a table of trials. *)
Definition group_then_aggregate (df : DataFrame) : result DataFrame :=
  (g <- df_group_by_expected_frequency df ;; df_aggregate g)%result.

(** The command line of one invocation: the fixed part, what
    [run_joule_profiler] adds for the polling ([flag]), the extra arguments
    and the workload. *)
Definition profiler_cmd (csv_path : string) (flag extra_args command : list string)
    : list string :=
  ["sudo"; "-S"; JOULE_PROFILER; "simple"; "--csv"; "--jouleit-file"; csv_path]
    ++ flag ++ extra_args ++ "--" :: command.

Definition or_empty (extra_args : option (list string)) : list string :=
  match extra_args with
  | Some l => l
  | None => []
  end.

(** A sweep over 0 Hz and 1000 Hz with two trials each on the scripted
    machine, and one invocation on it. *)
Definition scripted_collect (script : list (CompletedProcess * Artifact)) : M DataFrame :=
  generate_iters script_mkdtemp (script_os script) (script_fs script) script_repr
    2 (PyInt 0) [PyInt 0; PyInt 1000] 500.

Definition scripted_run (script : list (CompletedProcess * Artifact)) (f : pyval)
    : M DataFrame :=
  run_joule_profiler script_mkdtemp (script_os script) (script_fs script) script_repr
    ["python3"; "nbody.py"; "500"] f None.

Definition failing_script : list (CompletedProcess * Artifact) :=
  [ (exit_ok, Table (raw_table 5 2000)); (exit_ok, Table (raw_table 7 4000));
    (exit_ok, Table (raw_table 9 2000)); (exit_failed, Missing) ].

Definition failing_cmd : list string :=
  profiler_cmd "/tmp/tmp3/results.csv" ["--rapl-polling"; "1/1000"] []
    ["python3"; "nbody.py"; "500"].

(** A requested frequency below zero. *)
Definition py_negative (v : pyval) : bool :=
  match v with
  | PyNone => false
  | PyInt z => z <? 0
  | PyFloat x => num_ltb x (num_of_Z 0)
  end.

(** The two ways [run_joule_profiler] fails: the exception of
    [subprocess.run] for a non-zero exit status, and those of [pl.read_csv]
    for an output file that is not there or cannot be read. *)
Definition invocation_error (r : result DataFrame) : Prop :=
  exists rc cmd out err, r = Raise (CalledProcessError rc cmd out err).

Definition output_error (r : result DataFrame) : Prop :=
  (exists path, r = Raise (FileNotFoundError path))
  \/ (exists msg, r = Raise (NoDataError msg))
  \/ (exists msg, r = Raise (ComputeError msg)).

(** Events in which every spawned process exited with status 0. *)
Definition clean (new : World) : Prop :=
  forall cmd p, In (Spawn cmd p) new -> returncode p = 0.

(** Events that end with a process of non-zero status, followed by nothing
    but the removal of its directory, with the result being the exception
    raised for that process. *)
Definition aborted_by {A : Type} (r : result A) (new : World) : Prop :=
  exists tmp cmd p older,
    new = Rmtree tmp :: Spawn cmd p :: older
    /\ clean older
    /\ returncode p <> 0
    /\ r = Raise (CalledProcessError (returncode p) cmd (stdout p) (stderr p)).

Definition fail_fast {A : Type} (m : M A) : Prop :=
  forall w, exists new,
    snd (m w) = new ++ w /\ (clean new \/ aborted_by (fst (m w)) new).

(** ** The rest of the notebook *)

(** [fibo]: [0], then the values of [b] over [n] turns of
    [a, b = b, a + b] from [a, b = 1, 1]. *)
Fixpoint fibo_loop (k : nat) (a b : Z) : list Z :=
  match k with
  | O => []
  | S k' => b :: fibo_loop k' b (a + b)
  end.

Definition fibo (n : Z) : list Z :=
  0 :: fibo_loop (List.length (range1 n)) 1 1.

(** The Fibonacci numbers [0, 1, 1, 2, 3, 5, ...]. *)
Fixpoint fib (n : nat) : Z :=
  match n with
  | O => 0
  | S m =>
      match m with
      | O => 1
      | S k => fib m + fib k
      end
  end.

(** A value that is not below zero. *)
Definition py_nonneg (v : pyval) : bool :=
  match v with
  | PyNone => false
  | PyInt z => 0 <=? z
  | PyFloat x => num_leb (num_of_Z 0) x
  end.

(** The cells that follow a collection: the unused columns are removed,
    the trials grouped and the groups aggregated. *)
Definition high_frequency_df_agg (high_frequency_iters : DataFrame) : result DataFrame :=
  (before_groups <- df_removed_unused_columns high_frequency_iters ;;
   high_frequency_df <- df_group_by_expected_frequency before_groups ;;
   df_aggregate high_frequency_df)%result.

Definition is_ok {A : Type} (r : result A) : Prop := exists a, r = Ok a.

(** [tr m T]: from every world [w], [m] adds events [new] to the trace and
    ends with a result [r] such that [T w new r]. *)
Definition tr {A : Type} (m : M A) (T : World -> World -> result A -> Prop) : Prop :=
  forall w, exists new, snd (m w) = new ++ w /\ T w new (fst (m w)).

(** Properties of a run that hold of nothing done, pass through an
    exception and through one step after another. *)
Record sequential (T : forall A : Type, World -> World -> result A -> Prop) : Prop :=
  { seq_nil : forall A w (r : result A), T A w [] r;
    seq_raise : forall A B w n e, T A w n (Raise e) -> T B w n (Raise e);
    seq_app : forall A B w n1 (a : A) n2 (r : result B),
        T A w n1 (Ok a) -> T B (n1 ++ w) n2 r -> T B w (n2 ++ n1) r }.

(** At most [b] processes are spawned, and exactly [b] when the result is a
    value. *)
Definition spawns_exactly {A : Type} (b : nat) (w new : World) (r : result A) : Prop :=
  (spawned new <= b)%nat /\ (is_ok r -> spawned new = b).

(** When the result is a value, every process spawned exited with status 0
    and left a table at the path [results.csv] of the directory created just
    before it. *)
Definition all_succeeded (fs : World -> string -> Artifact)
    (A : Type) (w new : World) (r : result A) : Prop :=
  is_ok r ->
  forall pre cmd p older,
    new = pre ++ Spawn cmd p :: older ->
    returncode p = 0
    /\ exists tmp rest df,
         older ++ w = Mkdtemp tmp :: rest
         /\ fs (Spawn cmd p :: older ++ w) (tmp ++ "/results.csv")%string = Table df.

(** [returns Q m]: every value [m] returns satisfies [Q]. *)
Definition returns {A : Type} (Q : A -> Prop) (m : M A) : Prop :=
  forall w a w', m w = (Ok a, w') -> Q a.

(** A frame whose [expected_frequency] column holds only cells of [vals]. *)
Definition tagged (vals : list cell) (df : DataFrame) : Prop :=
  exists s, get_column "expected_frequency" df = Ok s /\ Forall (fun v => In v vals) s.

(** A script on which the four invocations of [scripted_collect] succeed. *)
Definition passing_script : list (CompletedProcess * Artifact) :=
  [ (exit_ok, Table (raw_table 5 2000)); (exit_ok, Table (raw_table 7 4000));
    (exit_ok, Table (raw_table 9 2000)); (exit_ok, Table (raw_table 11 6000)) ].

(** The three trials of [sample_trials] as the profiler's files give them,
    with the columns [command] and [exit_code] (the text of [command] is
    not followed: its cells are left [null]). *)
Definition raw_trials : DataFrame :=
  ("command", [None; None; None])
    :: ("exit_code", [cell_of_Z 0; cell_of_Z 0; cell_of_Z 0])
    :: sample_trials.

Definition unused_columns : list string := ["command"; "exit_code"].

Definition selected_columns : list string :=
  ["expected_frequency"; "CORE_0"; "measure_count"; "duration_ms"; "measure_delta"].

Definition aggregated_columns : list string :=
  ["real_frequency"; "expected_frequency"; "CORE_0"; "measure_delta"; "core_energy"].

(** ** Tables over any kind of cell

    Which arithmetic a column has is polars' business: the notebook's
    [df_aggregate] and [df_group_by_expected_frequency] are the same code on
    exact and on rounded numbers.  [frames] has the part of polars the two
    functions use, and the two functions, once more, over a type [V] of
    cells whose operations are the variables of the section: the literal of
    an [int], the quotient, the comparison, the key by which [group_by]
    tells the groups apart and the mean [pl.mean] takes of the cells of a
    group, given in row order.  [ieee] below instantiates them with IEEE
    binary64, the arithmetic of a [Float64] column. *)

Module frames.
Section Cells.

Variable V : Type.
Variable null : V.
Variable of_int : Z -> V.
Variable div : V -> V -> V.
Variable eq : V -> V -> option bool.
Variable K : Type.
Variable K_eq_dec : forall a b : K, {a = b} + {a <> b}.
Variable key_of : V -> K.
Variable mean_cells : list V -> V.

Definition Series : Type := list V.
Definition DataFrame : Type := list (string * Series).

Definition columns (df : DataFrame) : list string := map fst df.

Definition height (df : DataFrame) : nat :=
  match df with
  | [] => O
  | (_, s) :: _ => List.length s
  end.

Definition wf (df : DataFrame) : Prop :=
  NoDup (columns df) /\ Forall (fun c => List.length (snd c) = height df) df.

Fixpoint get_column (name : string) (df : DataFrame) : result Series :=
  match df with
  | [] => Raise (ColumnNotFoundError name)
  | (n, s) :: df' => if String.eqb n name then Ok s else get_column name df'
  end.

Definition cell_at (df : DataFrame) (name : string) (i : nat) : option V :=
  match get_column name df with
  | Ok s => nth_error s i
  | Raise _ => None
  end.

Definition row (df : DataFrame) (i : nat) : list V :=
  map (fun c => nth i (snd c) null) df.

Definition rows (df : DataFrame) : list (list V) :=
  map (row df) (seq 0 (height df)).

(** [df[idx]]: the rows of [df] taken in the order of the indices [idx]. *)
Definition take (idx : list nat) (df : DataFrame) : DataFrame :=
  map (fun c => (fst c, map (fun i => nth i (snd c) null) idx)) df.

Definition choose (p : option bool) (a b : V) : V :=
  match p with
  | Some true => a
  | _ => b
  end.

Inductive Expr : Type :=
| col (name : string)
| lit (v : V)
| Div (a b : Expr)
| when_then_otherwise (p : Pred) (a b : Expr)
| alias (e : Expr) (name : string)
with Pred : Type :=
| Eq (a b : Expr).

Fixpoint output_name (e : Expr) : string :=
  match e with
  | col name => name
  | lit _ => "literal"
  | Div a _ => output_name a
  | when_then_otherwise _ a _ => output_name a
  | alias _ name => name
  end.

Fixpoint eval (e : Expr) (df : DataFrame) : result Series :=
  match e with
  | col name => get_column name df
  | lit v => Ok (repeat v (height df))
  | Div a b =>
      (x <- eval a df ;; y <- eval b df ;; Ok (map2 div x y))%result
  | when_then_otherwise p a b =>
      (c <- eval_pred p df ;; x <- eval a df ;; y <- eval b df ;;
       Ok (map2 (fun ci xy => choose ci (fst xy) (snd xy)) c (combine x y)))%result
  | alias e' _ => eval e' df
  end
with eval_pred (p : Pred) (df : DataFrame) : result (list (option bool)) :=
  match p with
  | Eq a b =>
      (x <- eval a df ;; y <- eval b df ;; Ok (map2 eq x y))%result
  end.

Definition select (names : list string) (df : DataFrame) : result DataFrame :=
  match first_dup names with
  | Some n => Raise (DuplicateError n)
  | None => mapM (fun n => (s <- get_column n df ;; Ok (n, s))%result) names
  end.

Definition drop (names : list string) (df : DataFrame) : result DataFrame :=
  (_ <- mapM (fun n => get_column n df) names ;;
   Ok (filter (fun c => negb (mem (fst c) names)) df))%result.

Definition upsert (df : DataFrame) (c : string * Series) : DataFrame :=
  if mem (fst c) (columns df)
  then map (fun d => if String.eqb (fst d) (fst c) then c else d) df
  else df ++ [c].

Definition with_columns (exprs : list Expr) (df : DataFrame) : result DataFrame :=
  match first_dup (map output_name exprs) with
  | Some n => Raise (DuplicateError n)
  | None =>
      (news <- mapM (fun e => (s <- eval e df ;; Ok (output_name e, s))) exprs ;;
       Ok (fold_left upsert news df))%result
  end.

(** The cells of [vals] in the rows whose key cell has the key [k], in row
    order. *)
Definition group_values (keys vals : Series) (k : K) : Series :=
  map snd (filter (fun kv => decides (K_eq_dec (key_of (fst kv)) k)) (combine keys vals)).

Record GroupBy : Type := { gb_df : DataFrame; gb_key : string }.

Definition group_by (key : string) (df : DataFrame) : GroupBy :=
  {| gb_df := df; gb_key := key |}.

(** [df.group_by(key).agg(aggs)]: one row per distinct key, which carries
    the first key cell of its group and, for each aggregated column, the
    mean of the cells of the group in row order.  The groups come in the
    order [nodup] gives. *)
Definition agg (aggs : list pl.AggExpr) (g : GroupBy) : result DataFrame :=
  (keys <- get_column (gb_key g) (gb_df g) ;;
   let ks := nodup K_eq_dec (map key_of keys) in
   cs <- mapM (fun a =>
                 match a with
                 | pl.mean c =>
                     vals <- get_column c (gb_df g) ;;
                     Ok (c, map (fun k => mean_cells (group_values keys vals k)) ks)
                 end) aggs ;;
   Ok ((gb_key g, map (fun k => hd null (group_values keys keys k)) ks) :: cs))%result.

(** [df_group_by_expected_frequency] *)
Definition df_group_by_expected_frequency (df : DataFrame) : result DataFrame :=
  agg (map pl.mean (filter (fun c => negb (String.eqb c "expected_frequency")) (columns df)))
      (group_by "expected_frequency" df).

(** [df_aggregate] *)
Definition df_aggregate (df : DataFrame) : result DataFrame :=
  (df <- select ["expected_frequency"; "CORE_0"; "measure_count"; "duration_ms";
                 "measure_delta"] df ;;
   df <- with_columns
           [ alias (Div (lit (of_int 1000)) (col "measure_delta")) "real_frequency";
             alias (Div (col "CORE_0") (lit (of_int _MICRO_JOULE_TO_JOULE_RATIO)))
                   "core_energy" ] df ;;
   df <- with_columns
           [ alias (when_then_otherwise
                      (Eq (col "expected_frequency") (lit (of_int 0)))
                      (lit (of_int 0))
                      (col "real_frequency"))
                   "real_frequency" ] df ;;
   df <- drop ["measure_count"; "duration_ms"] df ;;
   select ("real_frequency"
             :: filter (fun c => negb (String.eqb c "real_frequency")) (columns df)) df)%result.

(** The column [c] of [df], empty when there is none, and the cells of [c]
    in the trials of the frequency of key [k], in row order: what the mean
    of that group is taken of. *)
Definition series (c : string) (df : DataFrame) : Series :=
  match get_column c df with
  | Ok s => s
  | Raise _ => []
  end.

Definition trials (df : DataFrame) (c : string) (k : K) : Series :=
  group_values (series "expected_frequency" df) (series c df) k.

Definition others (df : DataFrame) : list string :=
  filter (fun c => negb (String.eqb c "expected_frequency")) (columns df).

(** The table [df_group_by_expected_frequency] returns, from the key
    column [keys] of [df]. *)
Definition grouped (keys : Series) (df : DataFrame) : DataFrame :=
  ("expected_frequency",
   map (fun k => hd null (group_values keys keys k)) (nodup K_eq_dec (map key_of keys)))
    :: map (fun c => (c, map (fun k => mean_cells (group_values keys (series c df) k))
                             (nodup K_eq_dec (map key_of keys))))
           (others df).

(** The table [df_aggregate] returns, from the columns it selects. *)
Definition real_frequency_of (ef md : Series) : Series :=
  let h := List.length ef in
  map2 (fun ci xy => choose ci (fst xy) (snd xy))
       (map2 eq ef (repeat (of_int 0) h))
       (combine (repeat (of_int 0) h) (map2 div (repeat (of_int 1000) h) md)).

Definition core_energy_of (ef c0 : Series) : Series :=
  map2 div c0 (repeat (of_int 1000000) (List.length ef)).

Definition aggregated (ef c0 md : Series) : DataFrame :=
  [ ("real_frequency", real_frequency_of ef md);
    ("expected_frequency", ef);
    ("CORE_0", c0);
    ("measure_delta", md);
    ("core_energy", core_energy_of ef c0) ].

(** Two results of the grouping agree when they raise the same exception
    or are tables of the same columns and the same rows, the groups in any
    order. *)
Definition same_groups (r r' : result DataFrame) : Prop :=
  match r, r' with
  | Ok g, Ok g' => columns g = columns g' /\ Permutation (rows g) (rows g')
  | Raise e, Raise e' => e = e'
  | _, _ => False
  end.

(** They have the same frequencies when they raise the same exception or
    are tables of the same columns with one row for each of the same keys. *)
Definition same_frequencies (r r' : result DataFrame) : Prop :=
  match r, r' with
  | Ok g, Ok g' =>
      columns g = columns g'
      /\ Permutation (map key_of (series "expected_frequency" g))
                     (map key_of (series "expected_frequency" g'))
  | Raise e, Raise e' => e = e'
  | _, _ => False
  end.

(** The order [idx] keeps the trials of every frequency in the order they
    have in [df]: the rows of one key come with increasing indices. *)
Definition keeps_order (df : DataFrame) (idx : list nat) : Prop :=
  forall k,
    In k (map key_of (series "expected_frequency" df)) ->
    StronglySorted lt
      (filter (fun i => decides (K_eq_dec (key_of (nth i (series "expected_frequency" df) null)) k))
              idx).

End Cells.

Arguments columns {V} df.
Arguments height {V} df.
Arguments wf {V} df.
Arguments get_column {V} name df.
Arguments cell_at {V} df name i.
Arguments take {V} null idx df.
Arguments rows {V} null df.
Arguments row {V} null df i.
Arguments series {V} c df.
Arguments others {V} df.
Arguments trials {V K} K_eq_dec key_of df c k.
Arguments group_values {V K} K_eq_dec key_of keys vals k.
Arguments grouped {V} null {K} K_eq_dec key_of mean_cells keys df.
Arguments aggregated {V} of_int div eq ef c0 md.
Arguments real_frequency_of {V} of_int div eq ef md.
Arguments core_energy_of {V} of_int div ef c0.
Arguments df_aggregate {V} of_int div eq df.
Arguments df_group_by_expected_frequency {V} null {K} K_eq_dec key_of mean_cells df.
Arguments same_groups {V} null r r'.
Arguments same_frequencies {V K} key_of r r'.
Arguments keeps_order {V} null {K} K_eq_dec key_of df idx.
Arguments choose {V} p a b.

End frames.

(** ** IEEE binary64

    The cells of a [Float64] column: the floats of the standard library's
    specification of IEEE 754 arithmetic at 53 bits of precision, with both
    zeros, both infinities and NaN, every operation rounded to nearest, ties
    to even. *)
Module ieee.

Definition float : Type := spec_float.

Definition prec : Z := 53.
Definition emax : Z := 1024.

Definition of_Z (z : Z) : float := binary_normalize prec emax z 0 false.

Definition add : float -> float -> float := SFadd prec emax.
Definition div : float -> float -> float := SFdiv prec emax.

Definition float_eq_dec (a b : float) : {a = b} + {a <> b}.
Proof. decide equality; try apply Z.eq_dec; try apply Pos.eq_dec; apply Bool.bool_dec. Defined.

Definition cell : Type := option float.

Definition cell_eq_dec (a b : cell) : {a = b} + {a <> b}.
Proof. decide equality. apply float_eq_dec. Defined.

Definition cell_of_Z (z : Z) : cell := Some (of_Z z).

(** A decimal literal [n / 10^d], rounded once. *)
Definition decimal (n : Z) (d : nat) : cell :=
  Some (div (of_Z n) (of_Z (10 ^ Z.of_nat d))).

Definition cell_div (a b : cell) : cell :=
  match a, b with
  | Some x, Some y => Some (div x y)
  | _, _ => None
  end.

(** [==]: the IEEE comparison, in which the two zeros are equal, but for
    NaN, which polars takes as equal to NaN. *)
Definition eqb (x y : float) : bool :=
  match x, y with
  | S754_nan, S754_nan => true
  | _, _ => SFeqb x y
  end.

Definition cell_eq (a b : cell) : option bool :=
  match a, b with
  | Some x, Some y => Some (eqb x y)
  | _, _ => None
  end.

(** The key of a cell in [group_by]: the two zeros are one group. *)
Definition key_of (c : cell) : cell :=
  match c with
  | Some (S754_zero _) => Some (S754_zero false)
  | _ => c
  end.

Fixpoint non_null (s : list cell) : list float :=
  match s with
  | [] => []
  | Some x :: s' => x :: non_null s'
  | None :: s' => non_null s'
  end.

(** [pl.mean] over the cells of a group: the non-null cells are added up
    in row order, each addition rounded, and the sum is divided by their
    number. *)
Definition mean_cells (s : list cell) : cell :=
  match non_null s with
  | [] => None
  | x :: xs => Some (div (fold_left add xs x) (of_Z (Z.of_nat (List.length (x :: xs)))))
  end.

Definition DataFrame : Type := frames.DataFrame cell.

Definition df_aggregate : DataFrame -> result DataFrame :=
  frames.df_aggregate cell_of_Z cell_div cell_eq.

Definition df_group_by_expected_frequency : DataFrame -> result DataFrame :=
  frames.df_group_by_expected_frequency None cell_eq_dec key_of mean_cells.

Definition take : list nat -> DataFrame -> DataFrame := frames.take None.

Definition same_groups : result DataFrame -> result DataFrame -> Prop :=
  frames.same_groups None.

End ieee.

(** A grouped table of [Float64] cells whose [measure_delta] holds, next
    to two positive deltas, a positive and a negative zero. *)
Definition zero_delta_grouped : ieee.DataFrame :=
  [ ("expected_frequency", map ieee.cell_of_Z [0; 1000; 2000; 3000]);
    ("CORE_0", map ieee.cell_of_Z [2500000; 3000000; 3500000; 4000000]);
    ("measure_count", map ieee.cell_of_Z [0; 400; 500; 600]);
    ("duration_ms", map ieee.cell_of_Z [1000; 1000; 1000; 1000]);
    ("measure_delta", [ ieee.cell_of_Z 7; ieee.cell_of_Z 2;
                        Some (S754_zero false); Some (S754_zero true) ]) ].

(** Three trials at 1000 Hz with deltas of 0.1, 0.2 and 0.3 ms, and what
    the grouping makes of them in this order and in the reverse order. *)
Definition float_trials : ieee.DataFrame :=
  [ ("CORE_0", map ieee.cell_of_Z [2000000; 2500000; 3500000]);
    ("measure_delta", [ieee.decimal 1 1; ieee.decimal 2 1; ieee.decimal 3 1]);
    ("expected_frequency", map ieee.cell_of_Z [1000; 1000; 1000]) ].

Definition float_grouped : ieee.DataFrame :=
  [ ("expected_frequency", [ieee.cell_of_Z 1000]);
    ("CORE_0", [Some (S754_finite false 5726623061333333 (-31))]);
    ("measure_delta", [Some (S754_finite false 7205759403792795 (-55))]) ].

Definition float_grouped_reversed : ieee.DataFrame :=
  [ ("expected_frequency", [ieee.cell_of_Z 1000]);
    ("CORE_0", [Some (S754_finite false 5726623061333333 (-31))]);
    ("measure_delta", [Some (S754_finite false 7205759403792793 (-55))]) ].

(** Three trials of [Float64] cells, two of them at 1000 Hz. *)
Definition float_sweep : ieee.DataFrame :=
  [ ("CORE_0", map ieee.cell_of_Z [2000000; 2500000; 3500000]);
    ("measure_delta", [ieee.decimal 1 1; ieee.decimal 2 1; ieee.decimal 3 1]);
    ("expected_frequency", map ieee.cell_of_Z [1000; 0; 1000]) ].

(** The traces that are a succession of sleeps and of invocations, each
    invocation being the creation of a directory, at most one process and
    the removal of that directory (the most recent event comes first). *)
Inductive tidy : World -> Prop :=
| tidy_nil : tidy []
| tidy_sleep (t : pyval) (w : World) : tidy w -> tidy (Sleep t :: w)
| tidy_spawn (tmp : string) (cmd : list string) (p : CompletedProcess) (w : World) :
    tidy w -> tidy (Rmtree tmp :: Spawn cmd p :: Mkdtemp tmp :: w)
| tidy_no_spawn (tmp : string) (w : World) :
    tidy w -> tidy (Rmtree tmp :: Mkdtemp tmp :: w).


(** * Properties *)

Lemma decides_true {P : Prop} (d : {P} + {~ P}) : decides d = true -> P.
Proof. unfold decides. destruct d; [trivial | discriminate]. Qed.

(** ** Rationals *)

Lemma Qc_of_Z_0 : Qc_of_Z 0 = 0%Qc.
Proof. reflexivity. Qed.

Lemma Qc_eq_bool_neq (p q : Qc) : p <> q -> Qc_eq_bool p q = false.
Proof. intros H. unfold Qc_eq_bool. destruct (Qc_eq_dec p q); congruence. Qed.

Lemma Qc_of_Z_pos (z : Z) : 0 < z -> (0 < Qc_of_Z z)%Qc.
Proof.
  intros H. change (0 < Qred (inject_Z z))%Q.
  rewrite (Qred_correct (inject_Z z)). unfold Qlt. simpl. lia.
Qed.

Lemma Qc_is_zero_pos (q : Qc) : (0 < q)%Qc -> Qc_is_zero q = false.
Proof.
  intros H. unfold Qc_is_zero. apply Qc_eq_bool_neq. rewrite Qc_of_Z_0.
  intros ->. exact (Qclt_not_eq _ _ H eq_refl).
Qed.

Lemma Qc_is_zero_neg (q : Qc) : (q < 0)%Qc -> Qc_is_zero q = false.
Proof.
  intros H. unfold Qc_is_zero. apply Qc_eq_bool_neq. rewrite Qc_of_Z_0.
  intros ->. exact (Qclt_not_eq _ _ H eq_refl).
Qed.

Lemma Qc_leb_pos (q : Qc) : (0 < q)%Qc -> Qc_leb q (Qc_of_Z 0) = false.
Proof.
  intros H. unfold Qc_leb. rewrite Qc_of_Z_0.
  assert (G : (q ?= 0)%Qc = Gt) by (apply Qcgt_alt; exact H).
  now rewrite G.
Qed.

Lemma Qc_leb_neg (q : Qc) : (q < 0)%Qc -> Qc_leb q (Qc_of_Z 0) = true.
Proof.
  intros H. unfold Qc_leb. rewrite Qc_of_Z_0.
  assert (G : (q ?= 0)%Qc = Lt) by (apply Qclt_alt; exact H).
  now rewrite G.
Qed.

Lemma num_div_finite (p q : Qc) :
  Qc_is_zero q = false -> num_div (Fin p) (Fin q) = Fin (p / q)%Qc.
Proof. intros H. simpl. now rewrite H. Qed.

(** ** The frequency sweep *)

Lemma range_length_multiples (step n : Z) :
  0 < step -> 0 <= n -> range_length 0 (n * step + 1) step = n + 1.
Proof.
  intros Hs Hn. unfold range_length.
  assert (L : (0 <? n * step + 1) = true) by (apply Z.ltb_lt; nia).
  rewrite L. replace (n * step + 1 - 0 - 1) with (n * step) by lia.
  rewrite Z.div_mul by lia. reflexivity.
Qed.

Lemma range1_is_range (n : Z) : range 0 n 1 = Ok (range1 n).
Proof.
  unfold range, range1, range_length. cbn [Z.eqb Z.ltb Z.compare].
  assert (L : Z.to_nat (if 0 <? n then (n - 0 - 1) / 1 + 1 else 0) = Z.to_nat n).
  { destruct (Z.ltb_spec 0 n); [rewrite Z.div_1_r | ]; lia. }
  rewrite L. f_equal. apply map_ext. intros i. lia.
Qed.

Lemma hz_to_s_int_pos (z : Z) :
  0 < z -> hz_to_s (PyInt z) = Ok (PyFloat (Fin (Qc_of_Z 1 / Qc_of_Z z)%Qc)).
Proof.
  intros H. unfold hz_to_s.
  assert (E : (z =? 0) = false) by (apply Z.eqb_neq; lia).
  assert (L : (z <=? 0) = false) by (apply Z.leb_gt; lia).
  cbn [truthy py_le_zero py_one_over bind negb]. rewrite E, L. cbn [negb].
  unfold num_of_Z.
  now rewrite (num_div_finite _ _ (Qc_is_zero_pos _ (Qc_of_Z_pos z H))).
Qed.

Lemma hz_to_s_float_pos (q : Qc) :
  (0 < q)%Qc -> hz_to_s (PyFloat (Fin q)) = Ok (PyFloat (Fin (Qc_of_Z 1 / q)%Qc)).
Proof.
  intros H. unfold hz_to_s.
  pose proof (Qc_is_zero_pos q H) as Z0. unfold Qc_is_zero in Z0.
  cbn [truthy py_le_zero py_one_over num_eqb num_leb num_of_Z bind negb].
  rewrite Z0. cbn [negb bind]. rewrite (Qc_leb_pos q H). unfold num_of_Z.
  now rewrite (num_div_finite _ _ (Qc_is_zero_pos q H)).
Qed.

Lemma hz_to_s_int_neg (z : Z) : z < 0 -> hz_to_s (PyInt z) = Ok (PyInt 0).
Proof.
  intros H. unfold hz_to_s. simpl.
  assert (E : (z =? 0) = false) by (apply Z.eqb_neq; lia).
  assert (L : (z <=? 0) = true) by (apply Z.leb_le; lia).
  now rewrite E, L.
Qed.

Lemma hz_to_s_float_neg (q : Qc) :
  (q < 0)%Qc -> hz_to_s (PyFloat (Fin q)) = Ok (PyInt 0).
Proof.
  intros H. unfold hz_to_s.
  pose proof (Qc_is_zero_neg q H) as Z0. unfold Qc_is_zero in Z0.
  cbn [truthy py_le_zero py_one_over num_eqb num_leb num_of_Z bind negb].
  rewrite Z0. cbn [negb bind]. now rewrite (Qc_leb_neg q H).
Qed.

Lemma hz_to_s_total (hz : pyval) : exists v, hz_to_s hz = Ok v.
Proof.
  destruct hz as [ | z | x ]; unfold hz_to_s;
    cbn [truthy py_le_zero py_one_over bind].
  - cbn [negb]. eauto.
  - destruct (z =? 0); cbn [negb]; [eauto | ].
    destruct (z <=? 0); eauto.
  - destruct (num_eqb x (num_of_Z 0)); cbn [negb]; [eauto | ].
    destruct (num_leb x (num_of_Z 0)); eauto.
Qed.

Example yield_every_sweep : yield_every 1000 2 = Ok [0; 1000; 2000].
Proof. reflexivity. Qed.

Example default_sweep :
  DEFAULT_POLLING_FUNCTION = Ok (multiples 1000 30)
  /\ List.length (multiples 1000 30) = 31%nat.
Proof. split; reflexivity. Qed.

Example hz_to_s_none : hz_to_s PyNone = Ok (PyInt 0).
Proof. reflexivity. Qed.

Example hz_to_s_nan : hz_to_s (PyFloat NaN) = Ok (PyFloat NaN).
Proof. reflexivity. Qed.

Example hz_to_s_inf : hz_to_s (PyFloat PInf) = Ok (PyFloat (num_of_Z 0)).
Proof. reflexivity. Qed.

(** C2.  [hz_to_s] returns [0] for [0], the reciprocal [1/f] for every
    [f > 0] ([int] or [float]) and [0] for every negative input; it never
    raises, so no division by zero is ever attempted. *)
Theorem hz_to_s_sentinel_policy :
  hz_to_s (PyInt 0) = Ok (PyInt 0)
  /\ hz_to_s (PyFloat (num_of_Z 0)) = Ok (PyInt 0)
  /\ (forall z : Z, 0 < z ->
        hz_to_s (PyInt z) = Ok (PyFloat (Fin (1 / Qc_of_Z z)%Qc)))
  /\ (forall q : Qc, (0 < q)%Qc ->
        hz_to_s (PyFloat (Fin q)) = Ok (PyFloat (Fin (1 / q)%Qc)))
  /\ (forall z : Z, z < 0 -> hz_to_s (PyInt z) = Ok (PyInt 0))
  /\ (forall q : Qc, (q < 0)%Qc -> hz_to_s (PyFloat (Fin q)) = Ok (PyInt 0))
  /\ hz_to_s (PyFloat NInf) = Ok (PyInt 0)
  /\ (forall hz : pyval, exists v, hz_to_s hz = Ok v).
Proof.
  repeat split.
  - exact hz_to_s_int_pos.
  - exact hz_to_s_float_pos.
  - exact hz_to_s_int_neg.
  - exact hz_to_s_float_neg.
  - exact hz_to_s_total.
Qed.

Lemma hz_to_s_sentinel_policy_witness :
  hz_to_s (PyInt 4) = Ok (PyFloat (Fin (1 / Qc_of_Z 4)%Qc))
  /\ hz_to_s (PyInt (-3)) = Ok (PyInt 0).
Proof.
  destruct hz_to_s_sentinel_policy as (_ & _ & Hpos & _ & Hneg & _).
  split; [apply Hpos | apply Hneg]; lia.
Defined.

Lemma multiples_length (step : Z) (n : nat) : List.length (multiples step n) = S n.
Proof. unfold multiples. now rewrite length_map, length_seq. Qed.

(** C6, as the code has it.  For every count [n >= 0] and every step
    [step >= 1], [yield_every step n] yields exactly the [n + 1] values
    [0, step, ..., n * step], in that order; a count of [0] yields the single
    value [0]. *)
Theorem yield_every_positive_step (step n : Z) :
  0 < step -> 0 <= n ->
  yield_every step n = Ok (multiples step (Z.to_nat n))
  /\ List.length (multiples step (Z.to_nat n)) = S (Z.to_nat n)
  /\ yield_every step 0 = Ok [0].
Proof.
  intros Hs Hn.
  assert (G : forall m, 0 <= m -> yield_every step m = Ok (multiples step (Z.to_nat m))).
  { intros m Hm. unfold yield_every, range.
    assert (E : (step =? 0) = false) by (apply Z.eqb_neq; lia).
    assert (L : (0 <? step) = true) by (apply Z.ltb_lt; lia).
    rewrite E, L, (range_length_multiples step m Hs Hm).
    replace (Z.to_nat (m + 1)) with (S (Z.to_nat m)) by lia.
    reflexivity. }
  repeat split.
  - apply G, Hn.
  - apply multiples_length.
  - rewrite (G 0) by lia. reflexivity.
Qed.

Lemma yield_every_positive_step_witness :
  yield_every 1000 2 = Ok [0; 1000; 2000].
Proof.
  destruct (yield_every_positive_step 1000 2) as (H & _); [lia | lia | exact H].
Defined.

(** C6, as the spec has it, fails for a step that is not positive: with
    [step = -1] and [n = 2] the generator yields the single value [0], not
    [0, -1, -2]. *)
Lemma yield_every_negative_step :
  yield_every (-1) 2 = Ok [0]
  /\ yield_every (-1) 2 <> Ok (multiples (-1) 2)
  /\ multiples (-1) 2 = [0; -1; -2].
Proof. repeat split. discriminate. Qed.

(** A step of [0] is refused by [range]. *)
Lemma yield_every_zero_step (n : Z) :
  yield_every 0 n = Raise (ValueError "range() arg 3 must not be zero").
Proof. reflexivity. Qed.

(** ** Columns and rows *)

Lemma nth_error_combine {A B : Type} (l1 : list A) (l2 : list B) (i : nat) a b :
  nth_error l1 i = Some a -> nth_error l2 i = Some b ->
  nth_error (combine l1 l2) i = Some (a, b).
Proof.
  revert l2 i. induction l1 as [ | x l1 IH ]; intros [ | y l2 ] [ | i ]; simpl;
    try discriminate.
  - congruence.
  - apply IH.
Qed.

Lemma nth_error_map2 {A B C : Type} (f : A -> B -> C) l1 l2 (i : nat) a b :
  nth_error l1 i = Some a -> nth_error l2 i = Some b ->
  nth_error (map2 f l1 l2) i = Some (f a b).
Proof.
  intros H1 H2. unfold map2.
  now rewrite nth_error_map, (nth_error_combine _ _ _ _ _ H1 H2).
Qed.

Lemma nth_error_repeat_lt {A : Type} (v : A) (n i : nat) :
  (i < n)%nat -> nth_error (repeat v n) i = Some v.
Proof.
  revert i. induction n as [ | n IH ]; intros [ | i ] H; simpl; try lia.
  - reflexivity.
  - apply IH. lia.
Qed.

Lemma nth_error_length {A : Type} (l : list A) (i : nat) a :
  nth_error l i = Some a -> (i < List.length l)%nat.
Proof. intros H. apply nth_error_Some. congruence. Qed.

Lemma get_column_In (name : string) (df : DataFrame) (s : Series) :
  get_column name df = Ok s -> In (name, s) df.
Proof.
  induction df as [ | [n t] df IH ]; simpl; [discriminate | ].
  destruct (String.eqb_spec n name) as [-> | _].
  - intros [= ->]. now left.
  - intros H. right. now apply IH.
Qed.

Lemma wf_length (df : DataFrame) (name : string) (s : Series) :
  wf df -> get_column name df = Ok s -> List.length s = height df.
Proof.
  intros [_ H] G. rewrite Forall_forall in H.
  exact (H _ (get_column_In _ _ _ G)).
Qed.

(** ** [df_aggregate] in closed form *)

Lemma df_aggregate_spec (df : DataFrame) (ef c0 mc dm md : Series) :
  get_column "expected_frequency" df = Ok ef ->
  get_column "CORE_0" df = Ok c0 ->
  get_column "measure_count" df = Ok mc ->
  get_column "duration_ms" df = Ok dm ->
  get_column "measure_delta" df = Ok md ->
  df_aggregate df = Ok (aggregated ef c0 md).
Proof.
  intros H1 H2 H3 H4 H5. unfold df_aggregate, pl.select.
  cbn [first_dup mem existsb String.eqb Ascii.eqb Bool.eqb orb mapM bind].
  rewrite H1, H2, H3, H4, H5. reflexivity.
Qed.

Lemma df_aggregate_inv (df out : DataFrame) :
  df_aggregate df = Ok out ->
  exists ef c0 mc dm md,
    get_column "expected_frequency" df = Ok ef
    /\ get_column "CORE_0" df = Ok c0
    /\ get_column "measure_count" df = Ok mc
    /\ get_column "duration_ms" df = Ok dm
    /\ get_column "measure_delta" df = Ok md
    /\ out = aggregated ef c0 md.
Proof.
  intros H. pose proof H as H0. unfold df_aggregate, pl.select in H.
  cbn [first_dup mem existsb String.eqb Ascii.eqb Bool.eqb orb mapM bind] in H.
  destruct (get_column "expected_frequency" df) as [ef | ] eqn:H1; [ | discriminate H].
  destruct (get_column "CORE_0" df) as [c0 | ] eqn:H2; [ | discriminate H].
  destruct (get_column "measure_count" df) as [mc | ] eqn:H3; [ | discriminate H].
  destruct (get_column "duration_ms" df) as [dm | ] eqn:H4; [ | discriminate H].
  destruct (get_column "measure_delta" df) as [md | ] eqn:H5; [ | discriminate H].
  exists ef, c0, mc, dm, md. repeat split.
  rewrite (df_aggregate_spec df ef c0 mc dm md H1 H2 H3 H4 H5) in H0. congruence.
Qed.

Lemma real_frequency_row (ef md : Series) (i : nat) (e m : cell) :
  nth_error ef i = Some e -> nth_error md i = Some m ->
  nth_error (real_frequency_of ef md) i
  = Some (pl.choose (pl.cell_eq e (cell_of_Z 0)) (cell_of_Z 0)
                    (pl.cell_div (cell_of_Z 1000) m)).
Proof.
  intros He Hm. unfold real_frequency_of.
  pose proof (nth_error_length _ _ _ He) as Hi.
  rewrite (nth_error_map2 _ _ _ i (pl.cell_eq e (cell_of_Z 0))
             (cell_of_Z 0, pl.cell_div (cell_of_Z 1000) m)); [reflexivity | | ].
  - apply nth_error_map2; [exact He | now apply nth_error_repeat_lt].
  - apply nth_error_combine; [now apply nth_error_repeat_lt | ].
    apply nth_error_map2; [now apply nth_error_repeat_lt | exact Hm].
Qed.

Lemma core_energy_row (ef c0 : Series) (i : nat) (e c : cell) :
  nth_error ef i = Some e -> nth_error c0 i = Some c ->
  nth_error (core_energy_of ef c0) i
  = Some (pl.cell_div c (cell_of_Z _MICRO_JOULE_TO_JOULE_RATIO)).
Proof.
  intros He Hc. unfold core_energy_of.
  pose proof (nth_error_length _ _ _ He) as Hi.
  apply nth_error_map2; [exact Hc | now apply nth_error_repeat_lt].
Qed.

Lemma nth_error_same_length {A : Type} (l1 l2 : list A) (i : nat) a :
  List.length l1 = List.length l2 -> nth_error l1 i = Some a ->
  exists b, nth_error l2 i = Some b.
Proof.
  intros HL H. apply nth_error_length in H. rewrite HL in H.
  destruct (nth_error l2 i) as [b | ] eqn:E; [eauto | ].
  apply nth_error_None in E. lia.
Qed.

Lemma cell_eq_zero : pl.cell_eq (cell_of_Z 0) (cell_of_Z 0) = Some true.
Proof. reflexivity. Qed.

(** C1.  In every table [df_aggregate] returns, a row whose
    [expected_frequency] is [0] has [real_frequency] exactly [0], whatever
    the row's [measure_delta] is. *)
Theorem zero_frequency_override (df out : DataFrame) (i : nat) :
  wf df ->
  df_aggregate df = Ok out ->
  cell_at out "expected_frequency" i = Some (cell_of_Z 0) ->
  cell_at out "real_frequency" i = Some (cell_of_Z 0).
Proof.
  intros W H He.
  destruct (df_aggregate_inv df out H) as (ef & c0 & mc & dm & md & H1 & _ & _ & _ & H5 & ->).
  change (nth_error ef i = Some (cell_of_Z 0)) in He.
  change (nth_error (real_frequency_of ef md) i = Some (cell_of_Z 0)).
  assert (L : List.length ef = List.length md).
  { now rewrite (wf_length df _ _ W H1), (wf_length df _ _ W H5). }
  destruct (nth_error_same_length ef md i _ L He) as [m Hm].
  rewrite (real_frequency_row ef md i _ m He Hm), cell_eq_zero. reflexivity.
Qed.

Lemma df_aggregate_sample : df_aggregate sample_grouped = Ok sample_aggregated.
Proof. apply (decides_true (result_eq_dec DataFrame_eq_dec _ _)). vm_compute. reflexivity. Qed.

Example scenario_sweep : group_then_aggregate scenario_trials = Ok scenario_aggregated.
Proof. apply (decides_true (result_eq_dec DataFrame_eq_dec _ _)). vm_compute. reflexivity. Qed.

Lemma sample_grouped_wf : wf sample_grouped.
Proof.
  split.
  - repeat constructor; simpl; intuition discriminate.
  - repeat constructor.
Qed.

Lemma zero_frequency_override_witness :
  cell_at sample_aggregated "expected_frequency" 0 = Some (cell_of_Z 0)
  /\ cell_at sample_aggregated "real_frequency" 0 = Some (cell_of_Z 0).
Proof.
  split; [reflexivity | ].
  apply (zero_frequency_override sample_grouped sample_aggregated 0
           sample_grouped_wf df_aggregate_sample).
  reflexivity.
Defined.

(** With a delta of [0] the quotient is [+inf]; at a requested frequency of
    [0] the override still gives [0]. *)
Example zero_override_of_infinity :
  df_aggregate [ ("expected_frequency", [cell_of_Z 0]); ("CORE_0", [cell_of_Z 1]);
                 ("measure_count", [cell_of_Z 0]); ("duration_ms", [cell_of_Z 5]);
                 ("measure_delta", [cell_of_Z 0]) ]
  = Ok (aggregated [cell_of_Z 0] [cell_of_Z 1] [cell_of_Z 0])
  /\ real_frequency_of [cell_of_Z 0] [cell_of_Z 0] = [cell_of_Z 0]
  /\ pl.cell_div (cell_of_Z 1000) (cell_of_Z 0) = Some PInf.
Proof. repeat split. Qed.

Lemma get_column_columns (df : DataFrame) (c : string) :
  In c (columns df) -> exists s, get_column c df = Ok s.
Proof.
  induction df as [ | [n t] df IH ]; simpl; [tauto | ].
  intros H. destruct (String.eqb_spec n c) as [E | N]; [eauto | ].
  destruct H as [H | H]; [contradiction | auto].
Qed.

Lemma cell_at_get_column (df : DataFrame) (c : string) (i : nat) (v : cell) :
  cell_at df c i = Some v -> exists s, get_column c df = Ok s /\ nth_error s i = Some v.
Proof.
  unfold cell_at. destruct (get_column c df) as [s | ]; [eauto | discriminate].
Qed.

(** C4, as the spec has it, fails: two trials at 1000 Hz with a
    [measure_delta] of [0] go through grouping and aggregation without any
    exception, and the table returned holds [real_frequency = +inf]. *)
Lemma zero_delta_is_not_refused :
  group_then_aggregate zero_delta_trials = Ok zero_delta_aggregated
  /\ cell_at zero_delta_aggregated "expected_frequency" 0 = Some (cell_of_Z 1000)
  /\ cell_at zero_delta_aggregated "measure_delta" 0 = Some (cell_of_Z 0)
  /\ cell_at zero_delta_aggregated "real_frequency" 0 = Some (Some PInf).
Proof.
  split; [ | repeat split].
  apply (decides_true (result_eq_dec DataFrame_eq_dec _ _)). vm_compute. reflexivity.
Qed.

(** ** Sums and means do not depend on the order *)

Lemma num_add_comm (a b : num) : num_add a b = num_add b a.
Proof. destruct a, b; simpl; try reflexivity. f_equal. apply Qcplus_comm. Qed.

Lemma num_add_assoc (a b c : num) : num_add a (num_add b c) = num_add (num_add a b) c.
Proof. destruct a, b, c; simpl; try reflexivity. f_equal. apply Qcplus_assoc. Qed.

Lemma sum_fold_right (xs : list num) :
  pl.sum xs = fold_right num_add (num_of_Z 0) xs.
Proof.
  unfold pl.sum. apply fold_symmetric.
  - intros x y z. apply num_add_assoc.
  - intros y. apply num_add_comm.
Qed.

Lemma sum_Permutation (xs ys : list num) :
  Permutation xs ys -> pl.sum xs = pl.sum ys.
Proof.
  intros P. rewrite !sum_fold_right.
  induction P as [ | x l l' _ IH | x y l | l l' l'' _ IH1 _ IH2 ]; simpl.
  - reflexivity.
  - now rewrite IH.
  - rewrite !num_add_assoc. f_equal. apply num_add_comm.
  - congruence.
Qed.

Lemma non_null_Permutation (s t : Series) :
  Permutation s t -> Permutation (pl.non_null s) (pl.non_null t).
Proof.
  induction 1 as [ | [x | ] l l' _ IH | [x | ] [y | ] l | l l' l'' _ IH1 _ IH2 ]; simpl;
    try (constructor; assumption); try apply Permutation_refl; try assumption.
  - etransitivity; eassumption.
Qed.

Lemma mean_cells_Permutation (s t : Series) :
  Permutation s t -> pl.mean_cells s = pl.mean_cells t.
Proof.
  intros P. apply non_null_Permutation in P. unfold pl.mean_cells.
  pose proof (Permutation_length P) as L. pose proof (sum_Permutation _ _ P) as E.
  destruct (pl.non_null s) as [ | x xs ], (pl.non_null t) as [ | y ys ];
    try discriminate L; [reflexivity | ].
  now rewrite E, L.
Qed.

Lemma filter_Permutation {A : Type} (f : A -> bool) (l l' : list A) :
  Permutation l l' -> Permutation (filter f l) (filter f l').
Proof.
  induction 1 as [ | x l l' _ IH | x y l | l l' l'' _ IH1 _ IH2 ]; simpl.
  - constructor.
  - destruct (f x); [now constructor | assumption].
  - destruct (f x), (f y); try apply Permutation_refl. constructor.
  - etransitivity; eassumption.
Qed.

Lemma group_values_Permutation (keys vals keys' vals' : Series) (k : cell) :
  Permutation (combine keys vals) (combine keys' vals') ->
  Permutation (pl.group_values keys vals k) (pl.group_values keys' vals' k).
Proof.
  intros P. unfold pl.group_values. now apply Permutation_map, filter_Permutation.
Qed.

Lemma nodup_Permutation (l l' : Series) :
  Permutation l l' -> Permutation (nodup cell_eq_dec l) (nodup cell_eq_dec l').
Proof.
  intros P. apply NoDup_Permutation; try apply NoDup_nodup.
  intros x. rewrite !nodup_In. split; apply Permutation_in; [ | symmetry ]; exact P.
Qed.

(** ** Grouping in closed form *)

Lemma mapM_ok {A B : Type} (f : A -> result B) (g : A -> B) (l : list A) :
  (forall a, In a l -> f a = Ok (g a)) -> mapM f l = Ok (map g l).
Proof.
  induction l as [ | a l IH ]; intros H; simpl; [reflexivity | ].
  rewrite (H a (or_introl eq_refl)), IH; [reflexivity | ].
  intros b Hb. apply H. now right.
Qed.

Lemma others_columns (df : DataFrame) (c : string) :
  In c (others df) -> In c (columns df).
Proof. unfold others. rewrite filter_In. tauto. Qed.

Lemma series_get_column (df : DataFrame) (c : string) :
  In c (columns df) -> get_column c df = Ok (series c df).
Proof.
  intros H. unfold series. destruct (get_column_columns df c H) as [s ->]. reflexivity.
Qed.

Lemma group_by_spec (df : DataFrame) (keys : Series) :
  get_column "expected_frequency" df = Ok keys ->
  df_group_by_expected_frequency df = Ok (grouped keys df).
Proof.
  intros H. unfold df_group_by_expected_frequency, pl.agg, pl.group_by.
  cbn [pl.gb_df pl.gb_key]. rewrite H. cbn [bind]. fold (others df).
  rewrite (mapM_ok _
             (fun a => match a with
                       | pl.mean c =>
                           (c, map (fun k => pl.mean_cells (pl.group_values keys (series c df) k))
                                   (nodup cell_eq_dec keys))
                       end)).
  - unfold grouped. now rewrite map_map.
  - intros a Ha. apply in_map_iff in Ha. destruct Ha as (c & <- & Hc).
    now rewrite (series_get_column df c (others_columns df c Hc)).
Qed.

Lemma group_by_missing (df : DataFrame) (e : PyErr) :
  get_column "expected_frequency" df = Raise e ->
  df_group_by_expected_frequency df = Raise e.
Proof.
  intros H. unfold df_group_by_expected_frequency, pl.agg, pl.group_by.
  cbn [pl.gb_df pl.gb_key]. now rewrite H.
Qed.

Lemma map_nth_seq {A : Type} (l : list A) (d : A) :
  map (fun i => nth i l d) (seq 0 (List.length l)) = l.
Proof.
  induction l as [ | a l IH ]; simpl; [reflexivity | ].
  f_equal. rewrite <- seq_shift, map_map. exact IH.
Qed.

Lemma nth_map_lt {A B : Type} (f : A -> B) (l : list A) (i : nat) (d : B) (d' : A) :
  (i < List.length l)%nat -> nth i (map f l) d = f (nth i l d').
Proof.
  intros H. rewrite (nth_indep (map f l) d (f d')) by now rewrite length_map.
  apply map_nth.
Qed.

Lemma combine_map_same {A B C : Type} (f : A -> B) (g : A -> C) (l : list A) :
  combine (map f l) (map g l) = map (fun x => (f x, g x)) l.
Proof. induction l as [ | a l IH ]; simpl; [reflexivity | now rewrite IH]. Qed.

Lemma rows_grouped (keys : Series) (df : DataFrame) :
  rows (grouped keys df)
  = map (fun k => k :: group_means keys df k) (nodup cell_eq_dec keys).
Proof.
  unfold rows. cbn [grouped height].
  rewrite <- (map_nth_seq (nodup cell_eq_dec keys) None) at 2.
  rewrite map_map. apply map_ext_in. intros i Hi. apply in_seq in Hi.
  unfold row, grouped, group_means. cbn [map snd]. rewrite map_map.
  apply f_equal, map_ext. intros c. cbn [snd].
  apply (nth_map_lt (fun k => pl.mean_cells (pl.group_values keys (series c df) k))). lia.
Qed.

Lemma columns_grouped (keys : Series) (df : DataFrame) :
  columns (grouped keys df) = "expected_frequency" :: others df.
Proof.
  unfold columns, grouped. cbn [map fst]. f_equal.
  rewrite map_map. cbn [fst]. apply map_id.
Qed.

(** ** Reordering the rows *)

Lemma columns_take (idx : list nat) (df : DataFrame) :
  columns (take idx df) = columns df.
Proof. unfold columns, take. rewrite map_map. reflexivity. Qed.

Lemma get_column_take (idx : list nat) (df : DataFrame) (c : string) :
  get_column c (take idx df)
  = match get_column c df with
    | Ok s => Ok (map (fun i => nth i s None) idx)
    | Raise e => Raise e
    end.
Proof.
  induction df as [ | [n t] df IH ]; simpl; [reflexivity | ].
  destruct (String.eqb n c); [reflexivity | exact IH].
Qed.

Lemma take_Permutation (idx : list nat) (s : Series) :
  Permutation idx (seq 0 (List.length s)) ->
  Permutation (map (fun i => nth i s None) idx) s.
Proof.
  intros P. apply (Permutation_map (fun i => nth i s None)) in P.
  now rewrite map_nth_seq in P.
Qed.

Lemma combine_take_Permutation (idx : list nat) (keys vals : Series) :
  List.length vals = List.length keys ->
  Permutation idx (seq 0 (List.length keys)) ->
  Permutation (combine (map (fun i => nth i keys None) idx)
                       (map (fun i => nth i vals None) idx))
              (combine keys vals).
Proof.
  intros L P. rewrite combine_map_same.
  assert (E : combine keys vals
              = map (fun i => (nth i keys None, nth i vals None))
                    (seq 0 (List.length keys))).
  { rewrite <- combine_map_same, map_nth_seq, <- L, map_nth_seq. reflexivity. }
  rewrite E. now apply Permutation_map.
Qed.

Lemma group_means_take (idx : list nat) (df : DataFrame) (keys : Series) (k : cell) :
  wf df ->
  get_column "expected_frequency" df = Ok keys ->
  Permutation idx (seq 0 (height df)) ->
  group_means (map (fun i => nth i keys None) idx) (take idx df) k
  = group_means keys df k.
Proof.
  intros W Hk P. unfold group_means, others. rewrite columns_take. fold (others df).
  apply map_ext_in. intros c Hc. apply others_columns in Hc.
  pose proof (series_get_column df c Hc) as Hs.
  apply mean_cells_Permutation, group_values_Permutation.
  replace (series c (take idx df)) with (map (fun i => nth i (series c df) None) idx).
  - rewrite <- (wf_length df _ _ W Hk) in P.
    apply combine_take_Permutation; [ | exact P].
    now rewrite (wf_length df _ _ W Hk), (wf_length df _ _ W Hs).
  - unfold series at 2. now rewrite get_column_take, Hs.
Qed.

Lemma rows_take (idx : list nat) (df : DataFrame) :
  rows (take idx df) = match df with [] => [] | _ => map (row df) idx end.
Proof.
  destruct df as [ | [n s] df ]; [reflexivity | ].
  unfold rows. cbn [take map height fst snd]. rewrite length_map.
  rewrite <- (map_nth_seq idx 0%nat) at 3. rewrite map_map.
  apply map_ext_in. intros j Hj. apply in_seq in Hj.
  unfold row. cbn [map snd]. rewrite map_map.
  apply f_equal2.
  - apply (nth_map_lt (fun i => nth i s None)). lia.
  - apply map_ext. intros c. cbn [snd].
    apply (nth_map_lt (fun i => nth i (snd c) None)). lia.
Qed.

Lemma rows_take_Permutation (idx : list nat) (df : DataFrame) :
  Permutation idx (seq 0 (height df)) -> Permutation (rows (take idx df)) (rows df).
Proof.
  intros P. rewrite rows_take. destruct df as [ | c df ]; [constructor | ].
  unfold rows. now apply Permutation_map.
Qed.

(** With the exact sums of [num], reordering the rows of a table of trials
    by any permutation [idx] of its row indices does not change what
    [df_group_by_expected_frequency] yields: the same columns and, for
    every requested frequency, the same row of means.  The sums of a
    [Float64] column are rounded at every addition: their means can change
    with the order of the trials of a frequency. *)
Lemma exact_means_order_independent (df : DataFrame) (idx : list nat) :
  wf df ->
  Permutation idx (seq 0 (height df)) ->
  Permutation (rows (take idx df)) (rows df)
  /\ same_groups (df_group_by_expected_frequency df)
                 (df_group_by_expected_frequency (take idx df)).
Proof.
  intros W P. split; [now apply rows_take_Permutation | ].
  destruct (get_column "expected_frequency" df) as [keys | e] eqn:Hk.
  - assert (Hk' : get_column "expected_frequency" (take idx df)
                  = Ok (map (fun i => nth i keys None) idx))
      by now rewrite get_column_take, Hk.
    rewrite (group_by_spec df keys Hk), (group_by_spec _ _ Hk').
    split.
    + rewrite !columns_grouped. unfold others. now rewrite columns_take.
    + rewrite !rows_grouped.
      assert (Pk : Permutation (map (fun i => nth i keys None) idx) keys).
      { apply take_Permutation. now rewrite (wf_length df _ _ W Hk). }
      rewrite (map_ext
                 (fun k => k :: group_means (map (fun i => nth i keys None) idx)
                                            (take idx df) k)
                 (fun k => k :: group_means keys df k)).
      * symmetry. apply Permutation_map, nodup_Permutation, Pk.
      * intros k. f_equal. now apply group_means_take.
  - assert (Hk' : get_column "expected_frequency" (take idx df) = Raise e)
      by now rewrite get_column_take, Hk.
    rewrite (group_by_missing df e Hk), (group_by_missing _ e Hk'). reflexivity.
Qed.

Lemma sample_trials_wf : wf sample_trials.
Proof.
  split.
  - repeat constructor; simpl; intuition discriminate.
  - repeat constructor.
Qed.

Lemma take_example_Permutation : Permutation [2; 0; 1]%nat (seq 0 3).
Proof.
  apply perm_trans with [0; 2; 1]%nat; [apply perm_swap | apply perm_skip, perm_swap].
Qed.

(** ** Derived metrics *)

Lemma derived_metrics_row (df out : DataFrame) (i : nat) (e m c : cell) :
  df_aggregate df = Ok out ->
  cell_at df "expected_frequency" i = Some e ->
  cell_at df "measure_delta" i = Some m ->
  cell_at df "CORE_0" i = Some c ->
  cell_at out "core_energy" i
  = Some (pl.cell_div c (cell_of_Z _MICRO_JOULE_TO_JOULE_RATIO))
  /\ (pl.cell_eq e (cell_of_Z 0) <> Some true ->
      cell_at out "real_frequency" i = Some (pl.cell_div (cell_of_Z 1000) m)).
Proof.
  intros H He Hm Hc.
  destruct (df_aggregate_inv df out H) as (ef & c0 & mc & dm & md & H1 & H2 & _ & _ & H5 & ->).
  unfold cell_at in He, Hm, Hc. rewrite H1 in He. rewrite H5 in Hm. rewrite H2 in Hc.
  split.
  - exact (core_energy_row ef c0 i e c He Hc).
  - intros Hz. change (nth_error (real_frequency_of ef md) i
                       = Some (pl.cell_div (cell_of_Z 1000) m)).
    rewrite (real_frequency_row ef md i e m He Hm).
    destruct (pl.cell_eq e (cell_of_Z 0)) as [[ | ] | ]; [congruence | | ]; reflexivity.
Qed.

Lemma num_mean_single (x : num) :
  num_div (num_add (num_of_Z 0) x) (num_of_Z (Z.of_nat 1)) = x.
Proof.
  destruct x as [q | | | ]; try reflexivity.
  unfold num_of_Z. cbn [num_add]. rewrite num_div_finite by reflexivity.
  f_equal. change (Qc_of_Z 0) with 0%Qc. change (Qc_of_Z (Z.of_nat 1)) with 1%Qc.
  field. discriminate.
Qed.

Lemma mean_cells_single (v : cell) : pl.mean_cells [v] = v.
Proof.
  destruct v as [x | ]; [ | reflexivity].
  unfold pl.mean_cells, pl.sum. cbn [pl.non_null fold_left List.length].
  now rewrite num_mean_single.
Qed.

Lemma cell_eqb_refl (k : cell) : cell_eqb k k = true.
Proof. unfold cell_eqb. destruct (cell_eq_dec k k); congruence. Qed.

Lemma length_one {A : Type} (l : list A) : List.length l = 1%nat -> exists a, l = [a].
Proof. destruct l as [ | a [ | b l ] ]; try discriminate. eauto. Qed.

Lemma get_column_map (G : string -> Series) (l : list string) (c : string) :
  In c l -> get_column c (map (fun n => (n, G n)) l) = Ok (G c).
Proof.
  induction l as [ | n l IH ]; simpl; [tauto | ].
  intros H. destruct (String.eqb_spec n c) as [-> | N]; [reflexivity | ].
  destruct H as [H | H]; [contradiction | auto].
Qed.

Lemma get_column_grouped (keys : Series) (df : DataFrame) (c : string) :
  In c (others df) ->
  get_column c (grouped keys df)
  = Ok (map (fun k => pl.mean_cells (pl.group_values keys (series c df) k))
            (nodup cell_eq_dec keys)).
Proof.
  intros H. unfold grouped. cbn [get_column].
  assert (N : String.eqb "expected_frequency" c = false).
  { unfold others in H. apply filter_In in H. destruct H as [_ H].
    apply negb_true_iff in H. now rewrite String.eqb_sym. }
  rewrite N.
  exact (get_column_map
           (fun n => map (fun k => pl.mean_cells (pl.group_values keys (series n df) k))
                         (nodup cell_eq_dec keys))
           (others df) c H).
Qed.

(** Grouping a table of a single trial leaves every column as it is. *)
Lemma single_trial_group (df : DataFrame) (keys : Series) (c : string) :
  wf df -> height df = 1%nat ->
  get_column "expected_frequency" df = Ok keys ->
  In c (columns df) ->
  get_column c (grouped keys df) = get_column c df.
Proof.
  intros W H1 Hk Hc.
  destruct (length_one keys) as [k ->]; [now rewrite (wf_length df _ _ W Hk) | ].
  destruct (String.eqb_spec c "expected_frequency") as [-> | N].
  - now rewrite Hk.
  - assert (Ho : In c (others df)).
    { unfold others. apply filter_In. split; [exact Hc | ].
      apply negb_true_iff. now apply String.eqb_neq. }
    rewrite (get_column_grouped _ df c Ho).
    pose proof (series_get_column df c Hc) as Hs. rewrite Hs.
    destruct (length_one (series c df)) as [v Hv];
      [now rewrite (wf_length df _ _ W Hs) | ].
    rewrite Hv. change (nodup cell_eq_dec [k]) with [k]. cbn [map].
    unfold pl.group_values.
    cbn [combine filter fst]. rewrite cell_eqb_refl. cbn [map snd].
    now rewrite mean_cells_single.
Qed.

Lemma single_trial_round_trip (df : DataFrame) (e m : cell) :
  wf df -> height df = 1%nat ->
  In "CORE_0" (columns df) ->
  In "measure_count" (columns df) ->
  In "duration_ms" (columns df) ->
  cell_at df "expected_frequency" 0 = Some e ->
  cell_at df "measure_delta" 0 = Some m ->
  pl.cell_eq e (cell_of_Z 0) <> Some true ->
  exists out,
    group_then_aggregate df = Ok out
    /\ height out = 1%nat
    /\ cell_at out "real_frequency" 0 = Some (pl.cell_div (cell_of_Z 1000) m).
Proof.
  intros W H1 I2 I3 I4 He Hm Hz.
  destruct (cell_at_get_column df _ _ _ He) as (ef & Hef & He0).
  destruct (cell_at_get_column df _ _ _ Hm) as (md & Hmd & Hm0).
  destruct (get_column_columns df _ I2) as [c0 H2].
  destruct (get_column_columns df _ I3) as [mc H3].
  destruct (get_column_columns df _ I4) as [dm H4].
  assert (Iin : forall c s, get_column c df = Ok s -> In c (columns df)).
  { intros c s G. apply get_column_In in G. apply in_map_iff. now exists (c, s). }
  unfold group_then_aggregate. rewrite (group_by_spec df ef Hef). cbn [bind].
  exists (aggregated ef c0 md). split; [ | split].
  - apply (df_aggregate_spec _ ef c0 mc dm md);
      rewrite (single_trial_group df ef _ W H1 Hef); eauto.
  - cbn [aggregated height]. unfold real_frequency_of, map2.
    rewrite length_map, !length_combine, !length_map, !length_combine, !repeat_length.
    rewrite (wf_length df _ _ W Hef), (wf_length df _ _ W Hmd), H1. reflexivity.
  - change (nth_error (real_frequency_of ef md) 0 = Some (pl.cell_div (cell_of_Z 1000) m)).
    rewrite (real_frequency_row ef md 0 e m He0 Hm0).
    destruct (pl.cell_eq e (cell_of_Z 0)) as [[ | ] | ]; [congruence | | ]; reflexivity.
Qed.

(** C5.  [df_aggregate] derives, row by row, [core_energy = CORE_0 /
    1_000_000] and, where [expected_frequency] is not [0], [real_frequency =
    1000 / measure_delta], both as exact quotients; a table of one trial at
    one non-zero frequency goes through grouping and aggregation to a single
    row with [real_frequency = 1000 / measure_delta] of that trial; and
    2_500_000 microjoules are 2.5 joules. *)
Theorem derived_metrics :
  (forall (df out : DataFrame) (i : nat) (e m c : cell),
      df_aggregate df = Ok out ->
      cell_at df "expected_frequency" i = Some e ->
      cell_at df "measure_delta" i = Some m ->
      cell_at df "CORE_0" i = Some c ->
      cell_at out "core_energy" i = Some (pl.cell_div c (cell_of_Z 1000000))
      /\ (pl.cell_eq e (cell_of_Z 0) <> Some true ->
          cell_at out "real_frequency" i = Some (pl.cell_div (cell_of_Z 1000) m)))
  /\ (forall (df : DataFrame) (e m : cell),
      wf df -> height df = 1%nat ->
      In "CORE_0" (columns df) ->
      In "measure_count" (columns df) ->
      In "duration_ms" (columns df) ->
      cell_at df "expected_frequency" 0 = Some e ->
      cell_at df "measure_delta" 0 = Some m ->
      pl.cell_eq e (cell_of_Z 0) <> Some true ->
      exists out,
        group_then_aggregate df = Ok out
        /\ height out = 1%nat
        /\ cell_at out "real_frequency" 0 = Some (pl.cell_div (cell_of_Z 1000) m))
  /\ (forall q : Qc, q <> 0%Qc ->
      pl.cell_div (cell_of_Z 1000) (Some (Fin q)) = Some (Fin (Qc_of_Z 1000 / q)%Qc))
  /\ (forall q : Qc,
      pl.cell_div (Some (Fin q)) (cell_of_Z 1000000)
      = Some (Fin (q / Qc_of_Z 1000000)%Qc))
  /\ pl.cell_div (cell_of_Z 2500000) (cell_of_Z 1000000) = qcell 5 2.
Proof.
  split; [exact derived_metrics_row | ].
  split; [exact single_trial_round_trip | ].
  split; [ | split].
  - intros q Hq. unfold pl.cell_div, cell_of_Z, num_of_Z.
    rewrite num_div_finite; [reflexivity | ].
    unfold Qc_is_zero. now apply Qc_eq_bool_neq.
  - intros q. unfold pl.cell_div, cell_of_Z, num_of_Z.
    now rewrite num_div_finite.
  - apply (decides_true (cell_eq_dec _ _)). vm_compute. reflexivity.
Qed.

Lemma single_trial_wf : wf (take [1%nat] sample_grouped).
Proof.
  split.
  - repeat constructor; simpl; intuition discriminate.
  - repeat constructor.
Qed.

Lemma derived_metrics_witness :
  (cell_at sample_aggregated "core_energy" 1
   = Some (pl.cell_div (cell_of_Z 3000000) (cell_of_Z 1000000))
   /\ cell_at sample_aggregated "real_frequency" 1
      = Some (pl.cell_div (cell_of_Z 1000) (cell_of_Z 2)))
  /\ (exists out,
        group_then_aggregate (take [1%nat] sample_grouped) = Ok out
        /\ height out = 1%nat
        /\ cell_at out "real_frequency" 0
           = Some (pl.cell_div (cell_of_Z 1000) (cell_of_Z 2))).
Proof.
  destruct derived_metrics as (Hrow & Hone & _).
  split.
  - destruct (Hrow sample_grouped sample_aggregated 1%nat
                (cell_of_Z 1000) (cell_of_Z 2) (cell_of_Z 3000000)
                df_aggregate_sample eq_refl eq_refl eq_refl) as [He Hf].
    split; [exact He | apply Hf; vm_compute; discriminate].
  - apply (Hone (take [1%nat] sample_grouped) (cell_of_Z 1000) (cell_of_Z 2)
             single_trial_wf eq_refl).
    + simpl. tauto.
    + simpl. tauto.
    + simpl. tauto.
    + reflexivity.
    + reflexivity.
    + vm_compute. discriminate.
Defined.

(** ** One invocation of the profiler *)

Section Invocation.

Variable mkdtemp : World -> string.
Variable os : World -> list string -> CompletedProcess.
Variable fs : World -> string -> Artifact.
Variable float_repr : num -> string.

Local Abbreviation run := (run_joule_profiler mkdtemp os fs float_repr).
Local Abbreviation str := (str float_repr).

(** What one call does, given the interval [s] that [hz_to_s] returns for
    the frequency once [0] has been replaced by [None]. *)
Lemma run_joule_profiler_spec (command : list string) (f : pyval)
    (extra : option (list string)) (w : World) (s : pyval) :
  let f' := if py_eq_zero f then PyNone else f in
  let tmp := mkdtemp w in
  let csv := (tmp ++ "/results.csv")%string in
  let flag := match f' with PyNone => [] | _ => ["--rapl-polling"; str s] end in
  let cmd := profiler_cmd csv flag (or_empty extra) command in
  let p := os (Mkdtemp tmp :: w) cmd in
  hz_to_s f' = Ok s ->
  run command f extra w
  = (if returncode p =? 0
     then match fs (Spawn cmd p :: Mkdtemp tmp :: w) csv with
          | Missing => Raise (FileNotFoundError csv)
          | Empty => Raise (NoDataError "empty CSV")
          | Malformed msg => Raise (ComputeError msg)
          | Table df => Ok df
          end
     else Raise (CalledProcessError (returncode p) cmd (stdout p) (stderr p)),
     Rmtree tmp :: Spawn cmd p :: Mkdtemp tmp :: w).
Proof.
  intros f' tmp csv flag cmd p Hs.
  unfold run_joule_profiler, TemporaryDirectory, bindM, lift.
  fold f'. fold tmp. fold csv. rewrite Hs.
  assert (E : (["sudo"; "-S"; JOULE_PROFILER; "simple"; "--csv"; "--jouleit-file"; csv]
                 ++ flag ++ or_empty extra ++ "--" :: command) = cmd) by reflexivity.
  assert (C : ((match f' with
                | PyNone => ["sudo"; "-S"; JOULE_PROFILER; "simple"; "--csv";
                             "--jouleit-file"; csv]
                | _ => ["sudo"; "-S"; JOULE_PROFILER; "simple"; "--csv";
                        "--jouleit-file"; csv] ++ ["--rapl-polling"; str s]
                end ++ match extra with Some l => l | None => [] end)
                 ++ "--" :: command) = cmd).
  { rewrite <- E. unfold flag, or_empty. destruct f'; reflexivity. }
  rewrite C. unfold subprocess_run, read_csv. fold p.
  destruct (returncode p =? 0); [ | reflexivity].
  destruct (fs (Spawn cmd p :: Mkdtemp tmp :: w) csv); reflexivity.
Qed.

Lemma py_negative_hz_to_s (f : pyval) :
  py_negative f = true ->
  f <> PyNone /\ py_eq_zero f = false /\ hz_to_s f = Ok (PyInt 0).
Proof.
  destruct f as [ | z | [q | | | ] ]; cbn [py_negative num_ltb num_of_Z];
    try discriminate; intros H.
  - apply Z.ltb_lt in H. repeat split; [discriminate | | now apply hz_to_s_int_neg].
    cbn [py_eq_zero]. apply Z.eqb_neq. lia.
  - assert (L : (q < 0)%Qc).
    { unfold Qc_ltb in H. rewrite Qc_of_Z_0 in H. apply Qclt_alt.
      destruct (q ?= 0)%Qc; congruence. }
    repeat split; [discriminate | | now apply hz_to_s_float_neg].
    exact (Qc_is_zero_neg q L).
  - repeat split. discriminate.
Qed.

Lemma string_length_append (a b : string) :
  String.length (a ++ b) = (String.length a + String.length b)%nat.
Proof. induction a as [ | c a IH ]; simpl; [reflexivity | now rewrite IH]. Qed.

Lemma csv_path_is_not_the_flag (tmp : string) :
  (tmp ++ "/results.csv")%string <> "--rapl-polling".
Proof.
  intros H. pose proof (f_equal String.length H) as L.
  rewrite string_length_append in L. cbn [String.length] in L.
  destruct tmp as [ | a [ | b [ | c t ] ] ]; cbn [String.length] in L; try lia.
  discriminate H.
Qed.

Lemma fixed_part_has_no_flag (csv : string) (extra_args command : list string) :
  csv <> "--rapl-polling" ->
  ~ In "--rapl-polling" extra_args ->
  ~ In "--rapl-polling" command ->
  ~ In "--rapl-polling" (profiler_cmd csv [] extra_args command).
Proof.
  intros Hc He Hw H. unfold profiler_cmd in H. cbn [app In] in H.
  repeat (destruct H as [H | H]; [try discriminate H; now apply Hc | ]).
  apply in_app_or in H. destruct H as [H | [H | H]]; [tauto | discriminate H | tauto].
Qed.

(** C3.  When the requested frequency is [None] or [0], the command
    [run_joule_profiler] spawns has no [--rapl-polling] flag at all: it is
    the fixed part, the extra arguments and the workload.  When it is
    neither, the flag is there, followed by [str] of the interval
    [hz_to_s] gives, and that interval is the reciprocal [1/f] for every
    frequency [f > 0]. *)
Theorem polling_flag (command : list string) (f : pyval)
    (extra : option (list string)) (w : World) :
  let tmp := mkdtemp w in
  let csv := (tmp ++ "/results.csv")%string in
  let spawned_with flag :=
    exists p, snd (run command f extra w)
              = Rmtree tmp
                  :: Spawn (profiler_cmd csv flag (or_empty extra) command) p
                  :: Mkdtemp tmp :: w in
  (f = PyNone \/ py_eq_zero f = true -> spawned_with [])
  /\ (f <> PyNone -> py_eq_zero f = false ->
      exists s, hz_to_s f = Ok s /\ spawned_with ["--rapl-polling"; str s])
  /\ (forall z : Z, f = PyInt z -> 0 < z ->
      spawned_with ["--rapl-polling"; float_repr (Fin (1 / Qc_of_Z z)%Qc)])
  /\ (forall q : Qc, f = PyFloat (Fin q) -> (0 < q)%Qc ->
      spawned_with ["--rapl-polling"; float_repr (Fin (1 / q)%Qc)])
  /\ (~ In "--rapl-polling" (or_empty extra) -> ~ In "--rapl-polling" command ->
      ~ In "--rapl-polling" (profiler_cmd csv [] (or_empty extra) command)).
Proof.
  intros tmp csv spawned_with.
  assert (On : forall s, f <> PyNone -> py_eq_zero f = false -> hz_to_s f = Ok s ->
               spawned_with ["--rapl-polling"; str s]).
  { intros s Hn Hz Hs. unfold spawned_with.
    pose proof (run_joule_profiler_spec command f extra w s) as R.
    cbv zeta in R. rewrite Hz in R. rewrite (R Hs). cbn [snd].
    destruct f; [congruence | eauto | eauto]. }
  split; [ | split; [ | split; [ | split]]].
  - intros H. unfold spawned_with.
    pose proof (run_joule_profiler_spec command f extra w
                  (PyInt 0)) as R.
    cbv zeta in R.
    assert (E : (if py_eq_zero f then PyNone else f) = PyNone).
    { destruct H as [-> | ->]; reflexivity. }
    rewrite E in R. rewrite (R eq_refl). cbn [snd]. eauto.
  - intros Hn Hz. destruct (hz_to_s_total f) as [s Hs]. eauto.
  - intros z -> Hz.
    apply (On (PyFloat (Fin (1 / Qc_of_Z z)%Qc))).
    + discriminate.
    + cbn [py_eq_zero]. apply Z.eqb_neq. lia.
    + now apply hz_to_s_int_pos.
  - intros q -> Hq.
    apply (On (PyFloat (Fin (1 / q)%Qc))).
    + discriminate.
    + exact (Qc_is_zero_pos q Hq).
    + now apply hz_to_s_float_pos.
  - intros He Hc. apply fixed_part_has_no_flag; auto. apply csv_path_is_not_the_flag.
Qed.

(** C10.  For a requested frequency below zero the command has the flag
    [--rapl-polling] with the value ["0"]: [hz_to_s] maps it to the
    [int] [0], and only a frequency equal to [0] is turned into [None]. *)
Theorem negative_frequency_flag (command : list string) (f : pyval)
    (extra : option (list string)) (w : World) :
  py_negative f = true ->
  let tmp := mkdtemp w in
  let csv := (tmp ++ "/results.csv")%string in
  exists p,
    snd (run command f extra w)
    = Rmtree tmp
        :: Spawn (profiler_cmd csv ["--rapl-polling"; "0"] (or_empty extra) command) p
        :: Mkdtemp tmp :: w.
Proof.
  intros H tmp csv. destruct (py_negative_hz_to_s f H) as (Hn & Hz & Hs).
  pose proof (run_joule_profiler_spec command f extra w
                (PyInt 0)) as R.
  cbv zeta in R. rewrite Hz in R. rewrite (R Hs). cbn [snd].
  destruct f; [congruence | eauto | eauto].
Qed.


End Invocation.

(** ** Failing fast *)

Lemma clean_nil : clean [].
Proof. intros cmd p []. Qed.

Lemma clean_app (a b : World) : clean a -> clean b -> clean (a ++ b).
Proof.
  intros Ha Hb cmd p H. apply in_app_or in H. destruct H; [eapply Ha | eapply Hb]; eauto.
Qed.

Lemma clean_cons (e : Event) (a : World) :
  (forall cmd p, e = Spawn cmd p -> returncode p = 0) -> clean a -> clean (e :: a).
Proof. intros He Ha cmd p [H | H]; [eapply He | eapply Ha]; eauto. Qed.

Lemma aborted_by_app {A : Type} (r : result A) (new old : World) :
  aborted_by r new -> clean old -> aborted_by r (new ++ old).
Proof.
  intros (tmp & cmd & p & older & -> & Hc & Hp & Hr) Ho.
  exists tmp, cmd, p, (older ++ old). repeat split; auto using clean_app.
Qed.

Lemma fail_fast_ret {A : Type} (a : A) : fail_fast (ret a).
Proof. intros w. exists []. split; [reflexivity | left; apply clean_nil]. Qed.

Lemma fail_fast_lift {A : Type} (r : result A) : fail_fast (lift r).
Proof. intros w. exists []. split; [reflexivity | left; apply clean_nil]. Qed.

Lemma fail_fast_bind {A B : Type} (m : M A) (k : A -> M B) :
  fail_fast m -> (forall a, fail_fast (k a)) -> fail_fast (bindM m k).
Proof.
  intros Hm Hk w. destruct (Hm w) as (new1 & E1 & P1). unfold bindM.
  destruct (m w) as [[a | e] w1]; cbn [fst snd] in *.
  - assert (C1 : clean new1).
    { destruct P1 as [C | (? & ? & ? & ? & _ & _ & _ & D)]; [exact C | discriminate D]. }
    destruct (Hk a w1) as (new2 & E2 & P2). exists (new2 ++ new1). split.
    + now rewrite E2, E1, app_assoc.
    + destruct P2 as [C2 | Ab]; [left | right].
      * now apply clean_app.
      * now apply aborted_by_app.
  - exists new1. split; [exact E1 | ].
    destruct P1 as [C | (tmp & cmd & p & older & En & Hc & Hp & D)]; [now left | right].
    exists tmp, cmd, p, older. repeat split; auto. congruence.
Qed.

Lemma fail_fast_forM {A S : Type} (body : A -> S -> M S) (l : list A) :
  (forall a acc, fail_fast (body a acc)) ->
  forall acc, fail_fast (forM l body acc).
Proof.
  intros Hb. induction l as [ | a l IH ]; intros acc; cbn [forM].
  - apply fail_fast_ret.
  - apply fail_fast_bind; [apply Hb | exact IH].
Qed.

(** What [fail_fast] gives for a process that exited with a non-zero
    status. *)
Lemma fail_fast_abort {A : Type} (m : M A) (w : World) :
  fail_fast m ->
  exists new,
    snd (m w) = new ++ w
    /\ forall cmd p,
         In (Spawn cmd p) new -> returncode p <> 0 ->
         fst (m w) = Raise (CalledProcessError (returncode p) cmd (stdout p) (stderr p))
         /\ exists tmp older, new = Rmtree tmp :: Spawn cmd p :: older /\ clean older.
Proof.
  intros H. destruct (H w) as (new & E & P). exists new. split; [exact E | ].
  intros cmd p Hin Hp.
  destruct P as [C | (tmp & cmd' & p' & older & -> & Hc & Hp' & Hr)].
  - elim Hp. exact (C cmd p Hin).
  - destruct Hin as [D | [D | D]].
    + discriminate D.
    + injection D as -> ->. split; [exact Hr | eauto].
    + elim Hp. exact (Hc cmd p D).
Qed.

Section Collection.

Variable mkdtemp : World -> string.
Variable os : World -> list string -> CompletedProcess.
Variable fs : World -> string -> Artifact.
Variable float_repr : num -> string.

Lemma fail_fast_sleep (t : pyval) : fail_fast (sleep t).
Proof.
  intros w. unfold sleep.
  destruct t as [ | z | x ].
  - exists []. split; [reflexivity | left; apply clean_nil].
  - destruct (z <? 0).
    + exists []. split; [reflexivity | left; apply clean_nil].
    + exists [Sleep (PyInt z)]. split; [reflexivity | left].
      apply clean_cons; [discriminate | apply clean_nil].
  - destruct x as [q | | | ];
      try (exists []; split; [reflexivity | left; apply clean_nil]).
    destruct (num_leb (num_of_Z 0) (Fin q)).
    + exists [Sleep (PyFloat (Fin q))]. split; [reflexivity | left].
      apply clean_cons; [discriminate | apply clean_nil].
    + exists []. split; [reflexivity | left; apply clean_nil].
Qed.

Lemma fail_fast_run (command : list string) (f : pyval) (extra : option (list string)) :
  fail_fast (run_joule_profiler mkdtemp os fs float_repr command f extra).
Proof.
  intros w.
  destruct (hz_to_s_total (if py_eq_zero f then PyNone else f)) as [s Hs].
  pose proof (run_joule_profiler_spec mkdtemp os fs float_repr command f extra w s) as R.
  cbv zeta in R. specialize (R Hs). rewrite R. cbn [fst snd].
  eexists [Rmtree _; Spawn _ _; Mkdtemp _]. split; [reflexivity | ].
  destruct (Z.eqb_spec (returncode (os (Mkdtemp (mkdtemp w) :: w)
              (profiler_cmd (mkdtemp w ++ "/results.csv")
                 match (if py_eq_zero f then PyNone else f) with
                 | PyNone => []
                 | _ => ["--rapl-polling"; str float_repr s]
                 end (or_empty extra) command))) 0) as [E | N].
  - left. apply clean_cons; [discriminate | ].
    apply clean_cons; [intros c q [= <- <-]; exact E | ].
    apply clean_cons; [discriminate | apply clean_nil].
  - right. eexists _, _, _, _. split; [reflexivity | ].
    split; [ | split; [exact N | reflexivity]].
    apply clean_cons; [discriminate | apply clean_nil].
Qed.

Lemma fail_fast_generate_iters (nb_iterations : Z) (sleep_time : pyval)
    (polling_function : list pyval) (nbody_value : Z) :
  fail_fast (generate_iters mkdtemp os fs float_repr nb_iterations sleep_time
               polling_function nbody_value).
Proof.
  unfold generate_iters.
  apply fail_fast_bind; [ | intros dfs; apply fail_fast_lift].
  apply fail_fast_forM. intros polling dfs.
  apply fail_fast_bind.
  - apply fail_fast_forM. intros i iter_dfs.
    apply fail_fast_bind; [apply fail_fast_run | intros res].
    apply fail_fast_bind; [apply fail_fast_sleep | intros u; apply fail_fast_ret].
  - intros iter_dfs.
    apply fail_fast_bind; [apply fail_fast_lift | intros d1].
    apply fail_fast_bind; [apply fail_fast_lift | intros d2].
    apply fail_fast_bind; [apply fail_fast_lift | intros d3; apply fail_fast_ret].
Qed.


End Collection.

(** ** Runs on the scripted machine *)

Lemma polling_flag_witness :
  (exists p,
      snd (scripted_run [] (PyInt 0) [])
      = [ Rmtree "/tmp/tmp0";
          Spawn (profiler_cmd "/tmp/tmp0/results.csv" [] [] ["python3"; "nbody.py"; "500"]) p;
          Mkdtemp "/tmp/tmp0" ])
  /\ (exists p,
      snd (scripted_run [] (PyInt 1000) [])
      = [ Rmtree "/tmp/tmp0";
          Spawn (profiler_cmd "/tmp/tmp0/results.csv"
                   ["--rapl-polling"; script_repr (Fin (1 / Qc_of_Z 1000)%Qc)] []
                   ["python3"; "nbody.py"; "500"]) p;
          Mkdtemp "/tmp/tmp0" ]).
Proof.
  split.
  - pose proof (polling_flag script_mkdtemp (script_os []) (script_fs []) script_repr
                  ["python3"; "nbody.py"; "500"] (PyInt 0) None []) as H.
    cbv zeta in H. destruct H as (H & _). apply H. right. reflexivity.
  - pose proof (polling_flag script_mkdtemp (script_os []) (script_fs []) script_repr
                  ["python3"; "nbody.py"; "500"] (PyInt 1000) None []) as H.
    cbv zeta in H. destruct H as (_ & _ & H & _). apply (H 1000 eq_refl). reflexivity.
Defined.

Lemma negative_frequency_flag_witness :
  exists p,
    snd (scripted_run [] (PyInt (-5)) [])
    = [ Rmtree "/tmp/tmp0";
        Spawn (profiler_cmd "/tmp/tmp0/results.csv" ["--rapl-polling"; "0"] []
                 ["python3"; "nbody.py"; "500"]) p;
        Mkdtemp "/tmp/tmp0" ].
Proof.
  apply (negative_frequency_flag script_mkdtemp (script_os []) (script_fs []) script_repr
           ["python3"; "nbody.py"; "500"] (PyInt (-5)) None []).
  reflexivity.
Defined.




(** * Further properties of the notebook *)

(** ** The sweeps *)

Lemma fibo_loop_fib (k i : nat) :
  fibo_loop k (fib (S i)) (fib (S (S i))) = map (fun j => fib (S (S j))) (seq i k).
Proof.
  revert i. induction k as [ | k IH ]; intros i; [reflexivity | ].
  cbn [fibo_loop seq map]. f_equal.
  replace (fib (S i) + fib (S (S i))) with (fib (S (S (S i)))).
  - apply IH.
  - change (fib (S (S (S i)))) with (fib (S (S i)) + fib (S i)). lia.
Qed.

Lemma length_range1 (n : Z) : List.length (range1 n) = Z.to_nat n.
Proof. unfold range1. now rewrite length_map, length_seq. Qed.

(** X1.  [fibo n] yields [0] and then the [n] Fibonacci numbers
    [F(2), F(3), ..., F(n+1)], that is [1, 2, 3, 5, ...]: [n + 1] values for
    [n >= 0], the single value [0] for [n <= 0]. *)
Theorem fibo_values (n : Z) :
  fibo n = 0 :: map (fun j => fib (S (S j))) (seq 0 (Z.to_nat n))
  /\ List.length (fibo n) = S (Z.to_nat n)
  /\ (n <= 0 -> fibo n = [0]).
Proof.
  assert (E : fibo n = 0 :: map (fun j => fib (S (S j))) (seq 0 (Z.to_nat n))).
  { unfold fibo. rewrite length_range1. f_equal. exact (fibo_loop_fib (Z.to_nat n) 0). }
  split; [exact E | split].
  - rewrite E. cbn [List.length]. now rewrite length_map, length_seq.
  - intros H. rewrite E. replace (Z.to_nat n) with 0%nat by lia. reflexivity.
Qed.

Lemma fibo_values_witness : fibo (-3) = [0].
Proof. apply fibo_values. lia. Defined.

Lemma fibo_loop_lower (k : nat) (a b : Z) :
  0 < a -> 0 < b -> Forall (fun v => b <= v) (fibo_loop k a b).
Proof.
  revert a b. induction k as [ | k IH ]; intros a b Ha Hb; cbn [fibo_loop]; constructor.
  - lia.
  - eapply Forall_impl; [ | apply (IH b (a + b)); lia].
    intros v Hv. cbv beta in Hv. lia.
Qed.

Lemma fibo_loop_sorted (k : nat) (a b : Z) :
  0 < a -> 0 < b -> StronglySorted Z.lt (fibo_loop k a b).
Proof.
  revert a b. induction k as [ | k IH ]; intros a b Ha Hb; cbn [fibo_loop]; constructor.
  - apply IH; lia.
  - eapply Forall_impl; [ | apply (fibo_loop_lower k b (a + b)); lia].
    intros v Hv. cbv beta in Hv. lia.
Qed.

(** X2.  The values [fibo] yields are strictly increasing: the value [1]
    comes once, not twice as in the Fibonacci sequence. *)
Theorem fibo_strictly_increasing (n : Z) : StronglySorted Z.lt (fibo n).
Proof.
  unfold fibo. constructor.
  - apply fibo_loop_sorted; lia.
  - eapply Forall_impl; [ | apply (fibo_loop_lower _ 1 1); lia].
    intros v Hv. cbv beta in Hv. lia.
Qed.

Lemma yield_every_closed (step n : Z) :
  0 < step -> 0 <= n -> yield_every step n = Ok (multiples step (Z.to_nat n)).
Proof.
  intros Hs Hn. unfold yield_every, range.
  assert (E : (step =? 0) = false) by (apply Z.eqb_neq; lia).
  assert (L : (0 <? step) = true) by (apply Z.ltb_lt; lia).
  rewrite E, L, (range_length_multiples step n Hs Hn).
  replace (Z.to_nat (n + 1)) with (S (Z.to_nat n)) by lia. reflexivity.
Qed.

(** X3.  With a positive step and a count [n >= 0] the sweep starts at [0]
    (polling disabled), never holds a negative frequency, stays within
    [n * step], holds only multiples of the step and is strictly
    increasing. *)
Theorem yield_every_sweep_shape (step n : Z) :
  0 < step -> 0 <= n ->
  exists l,
    yield_every step n = Ok l
    /\ hd_error l = Some 0
    /\ Forall (fun v => 0 <= v <= n * step /\ (step | v)) l
    /\ StronglySorted Z.lt l.
Proof.
  intros Hs Hn. exists (multiples step (Z.to_nat n)).
  split; [now apply yield_every_closed | ]. unfold multiples.
  split; [reflexivity | split].
  - apply Forall_forall. intros v Hv. apply in_map_iff in Hv.
    destruct Hv as (i & <- & Hi). apply in_seq in Hi. split; [nia | ].
    exists (Z.of_nat i). reflexivity.
  - generalize 0%nat as start. induction (S (Z.to_nat n)) as [ | k IH ]; intros start;
      cbn [seq map]; constructor.
    + apply IH.
    + apply Forall_forall. intros v Hv. apply in_map_iff in Hv.
      destruct Hv as (i & <- & Hi). apply in_seq in Hi. nia.
Qed.

Lemma yield_every_sweep_shape_witness :
  exists l,
    yield_every 10 3 = Ok l
    /\ hd_error l = Some 0
    /\ Forall (fun v => 0 <= v <= 3 * 10 /\ (10 | v)) l
    /\ StronglySorted Z.lt l.
Proof. apply yield_every_sweep_shape; lia. Defined.

(** X4.  With a positive step and a negative count the sweep is empty; no
    exception is raised. *)
Theorem yield_every_negative_count (step n : Z) :
  0 < step -> n < 0 -> yield_every step n = Ok [].
Proof.
  intros Hs Hn. unfold yield_every, range, range_length.
  assert (E : (step =? 0) = false) by (apply Z.eqb_neq; lia).
  assert (L : (0 <? step) = true) by (apply Z.ltb_lt; lia).
  assert (G : (0 <? n * step + 1) = false) by (apply Z.ltb_ge; nia).
  now rewrite E, L, G.
Qed.

Lemma yield_every_negative_count_witness : yield_every 1000 (-2) = Ok [].
Proof. apply yield_every_negative_count; lia. Defined.

(** X5.  With a negative step and a count [n >= 0] the sweep raises
    nothing, holds at most [n] values, all of them in [(n * step, 0]]: the
    end point [n * step] is never reached. *)
Theorem yield_every_negative_step_stops_short (step n : Z) :
  step < 0 -> 0 <= n ->
  exists l,
    yield_every step n = Ok l
    /\ (List.length l <= Z.to_nat n)%nat
    /\ Forall (fun v => n * step < v <= 0) l
    /\ ~ In (n * step) l.
Proof.
  intros Hs Hn. unfold yield_every, range.
  assert (E : (step =? 0) = false) by (apply Z.eqb_neq; lia).
  assert (L : (0 <? step) = false) by (apply Z.ltb_ge; lia).
  rewrite E, L.
  set (len := range_length (n * step + 1) 0 (- step)).
  assert (B : len <= n).
  { unfold len, range_length. destruct (Z.ltb_spec (n * step + 1) 0) as [H | H]; [ | lia].
    assert ((0 - (n * step + 1) - 1) / - step < n); [ | lia].
    apply Z.div_lt_upper_bound; lia. }
  assert (F : Forall (fun v => n * step < v <= 0)
                (map (fun i => 0 + Z.of_nat i * step) (seq 0 (Z.to_nat len)))).
  { apply Forall_forall. intros v Hv. apply in_map_iff in Hv.
    destruct Hv as (i & <- & Hi). apply in_seq in Hi. nia. }
  eexists. split; [reflexivity | ]. split; [ | split].
  - rewrite length_map, length_seq. lia.
  - exact F.
  - intros H. rewrite Forall_forall in F. specialize (F _ H). lia.
Qed.

Lemma yield_every_negative_step_stops_short_witness :
  exists l,
    yield_every (-5) 3 = Ok l
    /\ (List.length l <= Z.to_nat 3)%nat
    /\ Forall (fun v => 3 * -5 < v <= 0) l
    /\ ~ In (3 * -5) l.
Proof. apply yield_every_negative_step_stops_short; lia. Defined.

Lemma Qc_one_over_pos (q : Qc) : (0 < q)%Qc -> (0 < 1 / q)%Qc.
Proof.
  intros H. unfold Qcdiv. rewrite Qcmult_1_l.
  change (0 < Qred (/ q))%Q. rewrite Qred_correct. now apply Qinv_lt_0_compat.
Qed.

Lemma Qc_leb_zero_pos (q : Qc) : (0 < q)%Qc -> Qc_leb (Qc_of_Z 0) q = true.
Proof.
  intros H. unfold Qc_leb. rewrite Qc_of_Z_0.
  assert (G : (0 ?= q)%Qc = Lt) by (apply Qclt_alt; exact H).
  now rewrite G.
Qed.

(** X6.  Whatever frequency it is given, bar a [NaN], [hz_to_s] returns an
    interval that is not negative. *)
Theorem hz_to_s_never_negative (hz v : pyval) :
  hz <> PyFloat NaN -> hz_to_s hz = Ok v -> py_nonneg v = true.
Proof.
  intros Hn H. destruct hz as [ | z | [q | | | ] ].
  - injection H as <-. reflexivity.
  - destruct (Z.lt_trichotomy z 0) as [L | [-> | G]].
    + rewrite (hz_to_s_int_neg z L) in H. injection H as <-. reflexivity.
    + injection H as <-. reflexivity.
    + rewrite (hz_to_s_int_pos z G) in H. injection H as <-.
      cbn [py_nonneg num_leb num_of_Z].
      apply Qc_leb_zero_pos, Qc_one_over_pos, Qc_of_Z_pos, G.
  - destruct (Qclt_le_dec q 0) as [L | G].
    + rewrite (hz_to_s_float_neg q L) in H. injection H as <-. reflexivity.
    + destruct (Qcle_lt_or_eq _ _ G) as [P | <-].
      * rewrite (hz_to_s_float_pos q P) in H. injection H as <-.
        cbn [py_nonneg num_leb num_of_Z].
        apply Qc_leb_zero_pos, Qc_one_over_pos, P.
      * injection H as <-. reflexivity.
  - injection H as <-. reflexivity.
  - injection H as <-. reflexivity.
  - congruence.
Qed.

Lemma hz_to_s_never_negative_witness : py_nonneg (PyInt 0) = true.
Proof.
  apply (hz_to_s_never_negative (PyInt (-7)) (PyInt 0)); [discriminate | reflexivity].
Defined.

(** ** Traces *)

Lemma spawned_app (a b : World) : spawned (a ++ b) = (spawned a + spawned b)%nat.
Proof. unfold spawned. now rewrite filter_app, length_app. Qed.

Lemma tr_ret {A : Type} (a : A) (T : World -> World -> result A -> Prop) :
  (forall w, T w [] (Ok a)) -> tr (ret a) T.
Proof. intros H w. exists []. split; [reflexivity | apply H]. Qed.

Lemma tr_lift {A : Type} (r : result A) (T : World -> World -> result A -> Prop) :
  (forall w, T w [] r) -> tr (lift r) T.
Proof. intros H w. exists []. split; [reflexivity | apply H]. Qed.

Lemma tr_bind {A B : Type} (m : M A) (k : A -> M B)
    (T1 : World -> World -> result A -> Prop)
    (T2 : A -> World -> World -> result B -> Prop)
    (T3 : World -> World -> result B -> Prop) :
  tr m T1 ->
  (forall a, tr (k a) (T2 a)) ->
  (forall w n e, T1 w n (Raise e) -> T3 w n (Raise e)) ->
  (forall w n1 a n2 r, T1 w n1 (Ok a) -> T2 a (n1 ++ w) n2 r -> T3 w (n2 ++ n1) r) ->
  tr (bindM m k) T3.
Proof.
  intros Hm Hk Hr Hs w. destruct (Hm w) as (n1 & E1 & P1). unfold bindM.
  destruct (m w) as [[a | e] w1]; cbn [fst snd] in *.
  - destruct (Hk a w1) as (n2 & E2 & P2). exists (n2 ++ n1). split.
    + now rewrite E2, E1, app_assoc.
    + apply (Hs w n1 a n2); [exact P1 | now rewrite <- E1].
  - exists n1. split; [exact E1 | now apply Hr].
Qed.

Section Sequential.

Variable T : forall A : Type, World -> World -> result A -> Prop.
Hypothesis T_sequential : sequential T.

Lemma tr_seq_bind {A B : Type} (m : M A) (k : A -> M B) :
  tr m (T A) -> (forall a, tr (k a) (T B)) -> tr (bindM m k) (T B).
Proof.
  intros Hm Hk. apply (tr_bind m k (T A) (fun _ => T B) (T B) Hm Hk).
  - intros w n e. apply (seq_raise T T_sequential).
  - intros w n1 a n2 r. apply (seq_app T T_sequential).
Qed.

Lemma tr_seq_forM {A S : Type} (body : A -> S -> M S) (l : list A) :
  (forall a acc, tr (body a acc) (T S)) ->
  forall acc, tr (forM l body acc) (T S).
Proof.
  intros Hb. induction l as [ | a l IH ]; intros acc; cbn [forM].
  - apply tr_ret. intros w. apply (seq_nil T T_sequential).
  - apply tr_seq_bind; [apply Hb | exact IH].
Qed.

Variable mkdtemp : World -> string.
Variable os : World -> list string -> CompletedProcess.
Variable fs : World -> string -> Artifact.
Variable float_repr : num -> string.

Hypothesis T_run :
  forall command f extra,
    tr (run_joule_profiler mkdtemp os fs float_repr command f extra) (T DataFrame).
Hypothesis T_sleep : forall t, tr (sleep t) (T unit).

(** A sequential property of one invocation and of one sleep is a property
    of the whole collection. *)
Lemma generate_iters_sequential (nb_iterations : Z) (sleep_time : pyval)
    (polling_function : list pyval) (nbody_value : Z) :
  tr (generate_iters mkdtemp os fs float_repr nb_iterations sleep_time
        polling_function nbody_value) (T DataFrame).
Proof.
  pose proof (seq_nil T T_sequential) as Hnil.
  unfold generate_iters.
  apply tr_seq_bind; [ | intros dfs; apply tr_lift; intros w; apply Hnil].
  apply tr_seq_forM. intros polling dfs.
  apply tr_seq_bind.
  - apply tr_seq_forM. intros i iter_dfs.
    apply tr_seq_bind; [apply T_run | intros res].
    apply tr_seq_bind; [apply T_sleep | intros u].
    apply tr_ret. intros w. apply Hnil.
  - intros iter_dfs.
    apply tr_seq_bind; [apply tr_lift; intros w; apply Hnil | intros d1].
    apply tr_seq_bind; [apply tr_lift; intros w; apply Hnil | intros d2].
    apply tr_seq_bind; [apply tr_lift; intros w; apply Hnil | intros d3].
    apply tr_ret. intros w. apply Hnil.
Qed.

End Sequential.

(** ** The collection, invocation by invocation *)

Lemma tidy_app (a b : World) : tidy a -> tidy b -> tidy (a ++ b).
Proof.
  intros Ha Hb. induction Ha as [ | t w _ IH | tmp cmd p w _ IH | tmp w _ IH ];
    cbn [app]; [exact Hb | | | ]; constructor; exact IH.
Qed.

Lemma tidy_sequential : sequential (fun (A : Type) (w new : World) (r : result A) => tidy new).
Proof.
  split.
  - intros A w r. constructor.
  - intros A B w n e H. exact H.
  - intros A B w n1 a n2 r H1 H2. now apply tidy_app.
Qed.

Lemma all_succeeded_sequential (fs : World -> string -> Artifact) :
  sequential (all_succeeded fs).
Proof.
  split.
  - intros A w r _ pre cmd p older E. destruct pre; discriminate E.
  - intros A B w n e _ [a E]. discriminate E.
  - intros A B w n1 a n2 r H1 H2 Hr pre cmd p older E.
    apply app_eq_app in E. destruct E as (l & [[E2 E1] | [Ep E1]]).
    + destruct l as [ | x l ].
      * cbn [app] in E1. rewrite app_nil_r in E2. subst n2.
        apply (H1 (ex_intro _ a eq_refl) [] cmd p older). now rewrite <- E1.
      * cbn [app] in E1. injection E1 as <- ->. rewrite <- app_assoc.
        apply (H2 Hr pre cmd p l). exact E2.
    + apply (H1 (ex_intro _ a eq_refl) l cmd p older). exact E1.
Qed.

Lemma spawns_bind {A B : Type} (m : M A) (k : A -> M B) (b1 b2 : nat) :
  tr m (spawns_exactly b1) ->
  (forall a, tr (k a) (spawns_exactly b2)) ->
  tr (bindM m k) (spawns_exactly (b1 + b2)).
Proof.
  intros Hm Hk.
  apply (tr_bind m k (spawns_exactly b1) (fun _ => spawns_exactly b2) _ Hm Hk).
  - intros w n e [L _]. split; [lia | ]. intros [a E]. discriminate E.
  - intros w n1 a n2 r [L1 E1] [L2 E2].
    specialize (E1 (ex_intro _ a eq_refl)). unfold spawns_exactly.
    rewrite spawned_app. split; [lia | ].
    intros Hr. specialize (E2 Hr). lia.
Qed.

Lemma spawns_forM {A S : Type} (body : A -> S -> M S) (l : list A) (b : nat) :
  (forall a acc, tr (body a acc) (spawns_exactly b)) ->
  forall acc, tr (forM l body acc) (spawns_exactly (List.length l * b)).
Proof.
  intros Hb. induction l as [ | a l IH ]; intros acc; cbn [forM List.length Nat.mul].
  - apply tr_ret. intros w. split; [reflexivity | reflexivity].
  - apply spawns_bind; [apply Hb | exact IH].
Qed.

Lemma spawns_nothing {A : Type} (r : result A) : tr (lift r) (spawns_exactly 0).
Proof. apply tr_lift. intros w. split; reflexivity. Qed.

Lemma returns_ret {A : Type} (Q : A -> Prop) (a : A) : Q a -> returns Q (ret a).
Proof. intros H w b w' [= <- _]. exact H. Qed.

Lemma returns_lift {A : Type} (Q : A -> Prop) (r : result A) :
  (forall a, r = Ok a -> Q a) -> returns Q (lift r).
Proof. intros H w a w' [= E _]. now apply H. Qed.

Lemma returns_bind {A B : Type} (Q : B -> Prop) (m : M A) (k : A -> M B) :
  (forall a, returns Q (k a)) -> returns Q (bindM m k).
Proof.
  intros Hk w b w' E. unfold bindM in E.
  destruct (m w) as [[a | e] w1]; [exact (Hk a w1 b w' E) | discriminate E].
Qed.

Lemma returns_forM {A S : Type} (Inv : S -> Prop) (body : A -> S -> M S) (l : list A) :
  (forall a acc, In a l -> Inv acc -> returns Inv (body a acc)) ->
  forall acc, Inv acc -> returns Inv (forM l body acc).
Proof.
  induction l as [ | a l IH ]; intros Hb acc Hacc; cbn [forM].
  - now apply returns_ret.
  - intros w s w' E. unfold bindM in E.
    destruct (body a acc w) as [[acc' | e] w1] eqn:Eb; [ | discriminate E].
    apply (IH (fun x y Hx => Hb x y (or_intror Hx)) acc') in E; [exact E | ].
    exact (Hb a acc (or_introl eq_refl) Hacc w acc' w1 Eb).
Qed.

(** *** Columns through [with_columns] and [pl.concat] *)

Lemma get_column_app_miss (df : DataFrame) (n : string) (s : Series) :
  mem n (columns df) = false -> get_column n (df ++ [(n, s)]) = Ok s.
Proof.
  induction df as [ | [m t] df IH ]; cbn [app get_column columns map mem existsb fst].
  - now rewrite String.eqb_refl.
  - intros H. apply orb_false_iff in H. destruct H as [H1 H2].
    rewrite String.eqb_sym, H1. now apply IH.
Qed.

Lemma get_column_app_other (df : DataFrame) (n m : string) (s : Series) :
  n <> m -> get_column m (df ++ [(n, s)]) = get_column m df.
Proof.
  intros N. induction df as [ | [k t] df IH ]; cbn [app get_column].
  - apply String.eqb_neq in N. now rewrite N.
  - destruct (String.eqb k m); [reflexivity | exact IH].
Qed.

Lemma get_column_replace_same (df : DataFrame) (n : string) (s : Series) :
  mem n (columns df) = true ->
  get_column n (map (fun d => if String.eqb (fst d) n then (n, s) else d) df) = Ok s.
Proof.
  induction df as [ | [m t] df IH ]; cbn [map get_column columns mem existsb fst];
    [discriminate | ].
  intros H. destruct (String.eqb m n) eqn:E.
  - cbn [get_column]. now rewrite String.eqb_refl.
  - cbn [get_column]. rewrite E. apply IH.
    rewrite String.eqb_sym, E in H. exact H.
Qed.

Lemma get_column_replace_other (df : DataFrame) (n m : string) (s : Series) :
  n <> m ->
  get_column m (map (fun d => if String.eqb (fst d) n then (n, s) else d) df)
  = get_column m df.
Proof.
  intros N. induction df as [ | [k t] df IH ]; cbn [map get_column fst]; [reflexivity | ].
  destruct (String.eqb k n) eqn:E.
  - apply String.eqb_eq in E. subst k. cbn [get_column].
    apply String.eqb_neq in N. rewrite N. exact IH.
  - cbn [get_column]. destruct (String.eqb k m); [reflexivity | exact IH].
Qed.

Lemma get_column_upsert_same (df : DataFrame) (n : string) (s : Series) :
  get_column n (pl.upsert df (n, s)) = Ok s.
Proof.
  unfold pl.upsert. cbn [fst]. destruct (mem n (columns df)) eqn:E.
  - now apply get_column_replace_same.
  - now apply get_column_app_miss.
Qed.

Lemma get_column_upsert_other (df : DataFrame) (n m : string) (s : Series) :
  n <> m -> get_column m (pl.upsert df (n, s)) = get_column m df.
Proof.
  intros N. unfold pl.upsert. cbn [fst]. destruct (mem n (columns df)).
  - now apply get_column_replace_other.
  - now apply get_column_app_other.
Qed.

Lemma with_columns_single (e : pl.Expr) (n : string) (df out : DataFrame) :
  pl.with_columns [pl.alias e n] df = Ok out ->
  exists s, pl.eval e df = Ok s /\ out = pl.upsert df (n, s).
Proof.
  unfold pl.with_columns.
  cbn [map pl.output_name first_dup mem existsb mapM pl.eval bind].
  destruct (pl.eval e df) as [s | err]; [ | discriminate].
  cbn [bind fold_left]. intros [= <-]. eauto.
Qed.

Lemma get_column_vstack (a b r : DataFrame) (c : string) (s : Series) :
  pl.vstack a b = Ok r -> get_column c a = Ok s ->
  exists t, get_column c b = Ok t /\ get_column c r = Ok (s ++ t).
Proof.
  revert b r. induction a as [ | [n x] a IH ]; intros [ | [m y] b ] r; cbn [pl.vstack];
    try discriminate.
  destruct (String.eqb_spec n m) as [<- | N]; [ | discriminate].
  destruct (pl.vstack a b) as [r' | e] eqn:E; [ | discriminate].
  cbn [bind]. intros [= <-]. cbn [get_column].
  destruct (String.eqb n c).
  - intros [= <-]. eauto.
  - intros H. exact (IH b r' E H).
Qed.

Lemma tagged_vstack (vals : list cell) (a b r : DataFrame) :
  tagged vals a -> tagged vals b -> pl.vstack a b = Ok r -> tagged vals r.
Proof.
  intros (s & Hs & Fs) (t & Ht & Ft) E.
  destruct (get_column_vstack a b r _ s E Hs) as (t' & Ht' & Hr).
  exists (s ++ t'). split; [exact Hr | ].
  apply Forall_app. split; [exact Fs | congruence].
Qed.

Lemma tagged_concat (vals : list cell) (dfs : list DataFrame) (df : DataFrame) :
  Forall (tagged vals) dfs -> pl.concat dfs = Ok df -> tagged vals df.
Proof.
  destruct dfs as [ | d ds ]; cbn [pl.concat]; [discriminate | ].
  intros F. apply Forall_cons_iff in F. destruct F as [Hd F].
  revert d Hd. induction ds as [ | x ds IH ]; intros d Hd; cbn [fold_left].
  - now intros [= <-].
  - apply Forall_cons_iff in F. destruct F as [Hx F]. cbn [bind].
    destruct (pl.vstack d x) as [r | e] eqn:E.
    + apply (IH F r). exact (tagged_vstack vals d x r Hd Hx E).
    + intros H. exfalso. clear - H.
      induction ds as [ | y ds IHd ]; cbn [fold_left bind] in H; [discriminate | auto].
Qed.

Section Sweep.

Variable mkdtemp : World -> string.
Variable os : World -> list string -> CompletedProcess.
Variable fs : World -> string -> Artifact.
Variable float_repr : num -> string.

Local Abbreviation run := (run_joule_profiler mkdtemp os fs float_repr).
Local Abbreviation collect := (generate_iters mkdtemp os fs float_repr).

Lemma run_trace (command : list string) (f : pyval) (extra : option (list string))
    (w : World) :
  exists cmd,
    run command f extra w
    = (if returncode (os (Mkdtemp (mkdtemp w) :: w) cmd) =? 0
       then match fs (Spawn cmd (os (Mkdtemp (mkdtemp w) :: w) cmd)
                        :: Mkdtemp (mkdtemp w) :: w)
                     (mkdtemp w ++ "/results.csv")%string with
            | Missing => Raise (FileNotFoundError (mkdtemp w ++ "/results.csv")%string)
            | Empty => Raise (NoDataError "empty CSV")
            | Malformed msg => Raise (ComputeError msg)
            | Table df => Ok df
            end
       else Raise (CalledProcessError
                     (returncode (os (Mkdtemp (mkdtemp w) :: w) cmd)) cmd
                     (stdout (os (Mkdtemp (mkdtemp w) :: w) cmd))
                     (stderr (os (Mkdtemp (mkdtemp w) :: w) cmd))),
       Rmtree (mkdtemp w) :: Spawn cmd (os (Mkdtemp (mkdtemp w) :: w) cmd)
         :: Mkdtemp (mkdtemp w) :: w).
Proof.
  destruct (hz_to_s_total (if py_eq_zero f then PyNone else f)) as [s Hs].
  pose proof (run_joule_profiler_spec mkdtemp os fs float_repr command f extra w s) as R.
  cbv zeta in R. eexists. exact (R Hs).
Qed.

Lemma sleep_trace (t : pyval) (w : World) :
  sleep t w = (Ok tt, Sleep t :: w) \/ exists e, sleep t w = (Raise e, w).
Proof.
  unfold sleep. destruct t as [ | z | [q | | | ] ];
    try (right; eexists; reflexivity).
  - destruct (z <? 0); [right; eexists; reflexivity | left; reflexivity].
  - destruct (num_leb (num_of_Z 0) (Fin q)); [left; reflexivity | right; eexists; reflexivity].
Qed.

Lemma tr_sleep (T : World -> World -> result unit -> Prop) (t : pyval) :
  (forall w, T w [Sleep t] (Ok tt)) -> (forall w e, T w [] (Raise e)) -> tr (sleep t) T.
Proof.
  intros Hok Herr w. destruct (sleep_trace t w) as [E | [e E]]; rewrite E.
  - exists [Sleep t]. split; [reflexivity | apply Hok].
  - exists []. split; [reflexivity | apply Herr].
Qed.


(** X8.  Whether the collection ends with a table or with an exception,
    what it did is a succession of sleeps and of invocations, and every
    invocation is the creation of a temporary directory, at most one
    process and the removal of that directory: a directory is removed
    before the next one is created, none outlives the collection, and no
    process is spawned outside the directory made for it. *)
Theorem collection_removes_its_directories (nb_iterations : Z) (sleep_time : pyval)
    (polling_function : list pyval) (nbody_value : Z) (w : World) :
  exists new,
    snd (collect nb_iterations sleep_time polling_function nbody_value w) = new ++ w
    /\ tidy new.
Proof.
  apply (generate_iters_sequential _ tidy_sequential mkdtemp os fs float_repr).
  - intros command f extra w0. destruct (run_trace command f extra w0) as [cmd R].
    rewrite R. eexists [Rmtree _; Spawn _ _; Mkdtemp _].
    split; [reflexivity | ]. repeat constructor.
  - intros t. apply tr_sleep; intros; repeat constructor.
Qed.

(** X9.  The collection returns a table only if every process it spawned
    exited with status 0 and left a table at [results.csv] in the directory
    created just before it. *)
Theorem collection_needs_every_invocation (nb_iterations : Z) (sleep_time : pyval)
    (polling_function : list pyval) (nbody_value : Z) (w : World) :
  is_ok (fst (collect nb_iterations sleep_time polling_function nbody_value w)) ->
  exists new,
    snd (collect nb_iterations sleep_time polling_function nbody_value w) = new ++ w
    /\ forall pre cmd p older,
         new = pre ++ Spawn cmd p :: older ->
         returncode p = 0
         /\ exists tmp rest df,
              older ++ w = Mkdtemp tmp :: rest
              /\ fs (Spawn cmd p :: older ++ w) (tmp ++ "/results.csv")%string = Table df.
Proof.
  intros Hok.
  destruct (generate_iters_sequential (all_succeeded fs) (all_succeeded_sequential fs)
              mkdtemp os fs float_repr) with
    (nb_iterations := nb_iterations) (sleep_time := sleep_time)
    (polling_function := polling_function) (nbody_value := nbody_value) (w := w)
    as (new & E & H).
  - intros command f extra w0. destruct (run_trace command f extra w0) as [cmd R].
    rewrite R. eexists [Rmtree _; Spawn _ _; Mkdtemp _]. split; [reflexivity | ].
    cbn [fst]. intros [d Hd] pre c p older Hn.
    destruct pre as [ | x [ | y [ | z pre ] ] ]; try discriminate Hn.
    + injection Hn as _ <- <- <-.
      destruct (Z.eqb_spec (returncode (os (Mkdtemp (mkdtemp w0) :: w0) cmd)) 0)
        as [E0 | N]; [ | discriminate Hd].
      split; [exact E0 | ]. exists (mkdtemp w0), w0. cbn [app].
      destruct (fs _ _) as [ | | msg | d' ]; try discriminate Hd. eauto.
    + injection Hn as _ _ _ Hn. destruct pre; discriminate Hn.
  - intros t. apply tr_sleep.
    + intros w0 _ pre c p older Hn. destruct pre as [ | x pre ]; [discriminate Hn | ].
      injection Hn as _ Hn. destruct pre; discriminate Hn.
    + intros w0 e [a Ha]. discriminate Ha.
  - exists new. split; [exact E | exact (H Hok)].
Qed.

(** X10.  The collection spawns at most one process per requested
    frequency and iteration, and exactly that many when it returns a
    table. *)
Theorem collection_spawn_count (nb_iterations : Z) (sleep_time : pyval)
    (polling_function : list pyval) (nbody_value : Z) (w : World) :
  exists new,
    snd (collect nb_iterations sleep_time polling_function nbody_value w) = new ++ w
    /\ (spawned new <= List.length polling_function * Z.to_nat nb_iterations)%nat
    /\ (is_ok (fst (collect nb_iterations sleep_time polling_function nbody_value w)) ->
        spawned new = (List.length polling_function * Z.to_nat nb_iterations)%nat).
Proof.
  assert (H : tr (collect nb_iterations sleep_time polling_function nbody_value)
                 (spawns_exactly
                    (List.length polling_function
                     * (List.length (range1 nb_iterations) * (1 + (0 + 0))
                        + (0 + (0 + (0 + 0)))) + 0))).
  { unfold generate_iters.
    apply spawns_bind; [ | intros dfs; apply spawns_nothing].
    apply spawns_forM. intros polling dfs.
    apply spawns_bind.
    - apply spawns_forM. intros i iter_dfs.
      apply spawns_bind; [ | intros res; apply spawns_bind].
      + intros w0.
        destruct (run_trace [ "python3"; "nbody.py"; str float_repr (PyInt nbody_value) ]
                    polling None w0) as [cmd R].
        rewrite R. eexists [Rmtree _; Spawn _ _; Mkdtemp _].
        split; [reflexivity | split; reflexivity].
      + apply tr_sleep; intros; split; reflexivity.
      + intros u. apply tr_ret. intros w0. split; reflexivity.
    - intros iter_dfs.
      apply spawns_bind; [apply spawns_nothing | intros d1].
      apply spawns_bind; [apply spawns_nothing | intros d2].
      apply spawns_bind; [apply spawns_nothing | intros d3].
      apply tr_ret. intros w0. split; reflexivity. }
  rewrite length_range1 in H.
  replace (List.length polling_function * (Z.to_nat nb_iterations * (1 + (0 + 0))
             + (0 + (0 + (0 + 0)))) + 0)%nat
    with (List.length polling_function * Z.to_nat nb_iterations)%nat in H by lia.
  exact (H w).
Qed.

(** X11.  With no frequency to sweep, or with a number of iterations that
    is not positive, the collection raises [ValueError] from [pl.concat] of
    an empty list; it spawns no process and leaves the world as it was. *)
Theorem collection_of_nothing (nb_iterations : Z) (sleep_time : pyval)
    (polling_function : list pyval) (nbody_value : Z) (w : World) :
  polling_function = [] \/ nb_iterations <= 0 ->
  collect nb_iterations sleep_time polling_function nbody_value w
  = (Raise (ValueError "cannot concat empty list"), w).
Proof.
  intros [-> | Hn]; [reflexivity | ].
  unfold generate_iters.
  assert (E : range1 nb_iterations = []).
  { unfold range1. now replace (Z.to_nat nb_iterations) with 0%nat by lia. }
  rewrite E. destruct polling_function as [ | polling rest ]; reflexivity.
Qed.

(** X12.  In a table the collection returns, the column
    [expected_frequency] exists and each of its cells is one of the
    requested frequencies. *)
Theorem collection_is_tagged (nb_iterations : Z) (sleep_time : pyval)
    (polling_function : list pyval) (nbody_value : Z) (w w' : World) (df : DataFrame) :
  collect nb_iterations sleep_time polling_function nbody_value w = (Ok df, w') ->
  tagged (map cell_of_pyval polling_function) df.
Proof.
  set (vals := map cell_of_pyval polling_function).
  revert w df w'. change (returns (tagged vals)
    (collect nb_iterations sleep_time polling_function nbody_value)).
  unfold generate_iters.
  intros w df w' E. unfold bindM at 1 in E.
  match type of E with
  | context [forM ?l ?b ?acc w] =>
      destruct (forM l b acc w) as [[dfs | e] w1] eqn:Ef; [ | discriminate E];
      assert (F : Forall (tagged vals) dfs);
      [ revert Ef; apply (returns_forM (Forall (tagged vals)) b l); [ | constructor] | ]
  end.
  - intros polling acc Hin Hacc.
    apply returns_bind. intros iter_dfs.
    apply returns_bind. intros d1.
    intros w0 r w2 E2. unfold bindM, lift, ret in E2.
    destruct (pl.with_columns _ d1) as [d2 | e2] eqn:W1; [ | discriminate E2].
    destruct (pl.with_columns _ d2) as [d3 | e3] eqn:W2; [ | discriminate E2].
    injection E2 as <- _.
    apply Forall_app. split; [exact Hacc | ]. constructor; [ | constructor].
    destruct (with_columns_single _ _ _ _ W1) as (s1 & Hs1 & ->).
    destruct (with_columns_single _ _ _ _ W2) as (s2 & Hs2 & ->).
    exists s1. split.
    + rewrite get_column_upsert_other by discriminate.
      apply get_column_upsert_same.
    + cbn [pl.eval] in Hs1. injection Hs1 as <-.
      apply Forall_forall. intros v Hv. apply repeat_spec in Hv. subst v.
      unfold vals. now apply in_map.
  - unfold lift in E. injection E as E _. exact (tagged_concat vals dfs df F E).
Qed.

End Sweep.

Lemma collection_of_nothing_witness :
  generate_iters script_mkdtemp (script_os passing_script) (script_fs passing_script)
    script_repr 0 (PyInt 0) [PyInt 0; PyInt 1000] 500 []
  = (Raise (ValueError "cannot concat empty list"), []).
Proof.
  apply (collection_of_nothing script_mkdtemp (script_os passing_script)
           (script_fs passing_script) script_repr).
  right. lia.
Defined.


Lemma collection_needs_every_invocation_witness :
  exists new,
    snd (scripted_collect passing_script []) = new ++ []
    /\ forall pre cmd p older,
         new = pre ++ Spawn cmd p :: older ->
         returncode p = 0
         /\ exists tmp rest df,
              older ++ [] = Mkdtemp tmp :: rest
              /\ script_fs passing_script (Spawn cmd p :: older ++ [])
                   (tmp ++ "/results.csv")%string = Table df.
Proof.
  apply (collection_needs_every_invocation script_mkdtemp (script_os passing_script)
           (script_fs passing_script) script_repr 2 (PyInt 0) [PyInt 0; PyInt 1000] 500 []).
  vm_compute. eexists. reflexivity.
Defined.

Lemma collection_is_tagged_witness :
  exists df,
    fst (scripted_collect passing_script []) = Ok df
    /\ tagged (map cell_of_pyval [PyInt 0; PyInt 1000]) df.
Proof.
  destruct (scripted_collect passing_script []) as [[df | e] w'] eqn:E.
  - exists df. split; [reflexivity | ].
    exact (collection_is_tagged script_mkdtemp (script_os passing_script)
             (script_fs passing_script) script_repr 2 (PyInt 0) [PyInt 0; PyInt 1000] 500
             [] w' df E).
  - vm_compute in E. discriminate E.
Defined.

(** ** Columns that are there and columns that are not *)

Lemma get_column_missing (df : DataFrame) (n : string) :
  ~ In n (columns df) -> get_column n df = Raise (ColumnNotFoundError n).
Proof.
  induction df as [ | [m t] df IH ]; cbn [get_column columns map fst In]; [reflexivity | ].
  intros H. destruct (String.eqb_spec m n) as [E | N]; [tauto | ]. apply IH. tauto.
Qed.

Lemma get_column_Ok_In (df : DataFrame) (n : string) (s : Series) :
  get_column n df = Ok s -> In n (columns df).
Proof.
  intros H. apply get_column_In in H. apply in_map_iff. now exists (n, s).
Qed.

Lemma columns_dec (df : DataFrame) (n : string) :
  {In n (columns df)} + {~ In n (columns df)}.
Proof. apply in_dec, string_dec. Qed.

Lemma mem_In (n : string) (l : list string) : mem n l = true <-> In n l.
Proof.
  unfold mem. rewrite existsb_exists. split.
  - intros (x & Hx & E). apply String.eqb_eq in E. now subst.
  - intros H. exists n. split; [exact H | apply String.eqb_refl].
Qed.

Lemma columns_filter (Q : string -> bool) (df : DataFrame) :
  columns (filter (fun c => Q (fst c)) df) = filter Q (columns df).
Proof.
  induction df as [ | [m t] df IH ]; cbn [filter columns map fst]; [reflexivity | ].
  destruct (Q m); cbn [map fst]; [f_equal | ]; exact IH.
Qed.

Lemma get_column_filter_keep (Q : string -> bool) (df : DataFrame) (n : string) :
  Q n = true -> get_column n (filter (fun c => Q (fst c)) df) = get_column n df.
Proof.
  intros H. induction df as [ | [m t] df IH ]; cbn [filter get_column fst]; [reflexivity | ].
  destruct (Q m) eqn:E; cbn [get_column].
  - destruct (String.eqb m n); [reflexivity | exact IH].
  - destruct (String.eqb_spec m n) as [-> | _]; [congruence | exact IH].
Qed.

Lemma wf_filter (Q : string -> bool) (df : DataFrame) :
  wf df -> wf (filter (fun c => Q (fst c)) df).
Proof.
  intros [N F]. split.
  - rewrite columns_filter. now apply NoDup_filter.
  - rewrite Forall_forall in F.
    destruct (filter (fun c => Q (fst c)) df) as [ | [m t] rest ] eqn:E; [constructor | ].
    assert (Hin : forall c, In c ((m, t) :: rest) -> In c df).
    { intros c Hc. rewrite <- E in Hc. apply filter_In in Hc. tauto. }
    apply Forall_forall. intros c Hc. cbn [height].
    rewrite (F c (Hin c Hc)). symmetry. exact (F (m, t) (Hin _ (or_introl eq_refl))).
Qed.

Lemma drop_spec (names : list string) (df : DataFrame) :
  (forall n, In n names -> In n (columns df)) ->
  pl.drop names df = Ok (filter (fun c => negb (mem (fst c) names)) df).
Proof.
  intros H. unfold pl.drop.
  rewrite (mapM_ok _ (fun n => series n df)); [reflexivity | ].
  intros n Hn. apply series_get_column, H, Hn.
Qed.

Lemma mapM_raise {A B : Type} (f : A -> result B) (l : list A) (e : PyErr) :
  mapM f l = Raise e -> exists a, In a l /\ f a = Raise e.
Proof.
  induction l as [ | a l IH ]; cbn [mapM]; [discriminate | ].
  destruct (f a) as [b | e'] eqn:E.
  - destruct (mapM f l) as [bs | e''] eqn:El; [discriminate | ].
    intros [= ->]. destruct (IH eq_refl) as (x & Hx & Ex). exists x. split; [now right | exact Ex].
  - intros [= ->]. exists a. split; [now left | exact E].
Qed.

Lemma drop_raise (names : list string) (df : DataFrame) (e : PyErr) :
  pl.drop names df = Raise e ->
  exists n, In n names /\ ~ In n (columns df) /\ e = ColumnNotFoundError n.
Proof.
  unfold pl.drop. destruct (mapM (fun n => get_column n df) names) as [ss | e'] eqn:E;
    [discriminate | ].
  cbn [bind]. intros [= ->]. destruct (mapM_raise _ _ _ E) as (n & Hn & Hr).
  exists n. split; [exact Hn | ].
  destruct (columns_dec df n) as [I | N].
  - destruct (get_column_columns df n I) as [s Hs]. congruence.
  - split; [exact N | ]. rewrite (get_column_missing df n N) in Hr. congruence.
Qed.

Lemma removed_unused_columns_needs_both_aux (df out : DataFrame) :
  df_removed_unused_columns df = Ok out ->
  In "command" (columns df) /\ In "exit_code" (columns df).
Proof.
  unfold df_removed_unused_columns, pl.drop. cbn [mapM].
  destruct (get_column "command" df) as [s1 | e1] eqn:E1; [ | discriminate].
  destruct (get_column "exit_code" df) as [s2 | e2] eqn:E2; [ | discriminate].
  intros _. split; eapply get_column_Ok_In; eassumption.
Qed.

(** X13.  [df_removed_unused_columns] returns a table exactly when the
    frame has both columns [command] and [exit_code]; otherwise it raises
    [ColumnNotFoundError] for one of the two that is missing. *)
Theorem removed_unused_columns_needs_both (df : DataFrame) :
  ((exists out, df_removed_unused_columns df = Ok out)
   <-> In "command" (columns df) /\ In "exit_code" (columns df))
  /\ (forall e, df_removed_unused_columns df = Raise e ->
      exists n, In n unused_columns /\ ~ In n (columns df) /\ e = ColumnNotFoundError n).
Proof.
  unfold df_removed_unused_columns. split; [split | ].
  - intros [out H]. exact (removed_unused_columns_needs_both_aux df out H).
  - intros [I1 I2]. eexists. apply drop_spec.
    intros n [<- | [<- | []]]; assumption.
  - intros e H. exact (drop_raise _ df e H).
Qed.

Lemma removed_unused_columns_closed (df out : DataFrame) :
  df_removed_unused_columns df = Ok out ->
  out = filter (fun c => negb (mem (fst c) unused_columns)) df.
Proof.
  intros H. destruct (removed_unused_columns_needs_both_aux df out H) as [I1 I2].
  unfold df_removed_unused_columns in H.
  rewrite drop_spec in H; [unfold unused_columns; congruence | ].
  intros n [<- | [<- | []]]; assumption.
Qed.

(** X14.  The table [df_removed_unused_columns] returns has neither
    [command] nor [exit_code]; every other column is unchanged, and a
    well-formed frame stays well-formed. *)
Theorem removed_unused_columns_keeps_the_rest (df out : DataFrame) :
  df_removed_unused_columns df = Ok out ->
  ~ In "command" (columns out)
  /\ ~ In "exit_code" (columns out)
  /\ (forall c, c <> "command" -> c <> "exit_code" -> get_column c out = get_column c df)
  /\ (wf df -> wf out).
Proof.
  intros H. apply removed_unused_columns_closed in H.
  subst out. rewrite (columns_filter (fun n => negb (mem n unused_columns))).
  split; [ | split; [ | split]].
  - intros Hc. apply filter_In in Hc. destruct Hc as [_ Hc]. discriminate Hc.
  - intros Hc. apply filter_In in Hc. destruct Hc as [_ Hc]. discriminate Hc.
  - intros c N1 N2. apply (get_column_filter_keep (fun n => negb (mem n unused_columns))).
    unfold mem, unused_columns. cbn [existsb].
    apply String.eqb_neq in N1. apply String.eqb_neq in N2. now rewrite N1, N2.
  - apply (wf_filter (fun n => negb (mem n unused_columns))).
Qed.

Lemma removed_unused_columns_keeps_the_rest_witness :
  exists out,
    df_removed_unused_columns raw_trials = Ok out
    /\ ~ In "command" (columns out)
    /\ get_column "measure_delta" out = get_column "measure_delta" raw_trials.
Proof.
  exists sample_trials.
  assert (H : df_removed_unused_columns raw_trials = Ok sample_trials) by reflexivity.
  destruct (removed_unused_columns_keeps_the_rest raw_trials sample_trials H)
    as (N1 & _ & K & _).
  split; [exact H | split; [exact N1 | apply K; discriminate]].
Defined.

(** X15.  [df_removed_unused_columns] cannot be applied to its own result:
    the second call raises [ColumnNotFoundError] for [command]. *)
Theorem removed_unused_columns_twice (df out : DataFrame) :
  df_removed_unused_columns df = Ok out ->
  df_removed_unused_columns out = Raise (ColumnNotFoundError "command").
Proof.
  intros H. apply removed_unused_columns_closed in H.
  assert (N : ~ In "command" (columns out)).
  { subst out. rewrite (columns_filter (fun n => negb (mem n unused_columns))).
    intros Hc. apply filter_In in Hc. destruct Hc as [_ Hc]. discriminate Hc. }
  unfold df_removed_unused_columns, pl.drop. cbn [mapM].
  now rewrite (get_column_missing out _ N).
Qed.

Lemma removed_unused_columns_twice_witness :
  df_removed_unused_columns sample_trials = Raise (ColumnNotFoundError "command").
Proof. apply (removed_unused_columns_twice raw_trials sample_trials). reflexivity. Defined.

(** ** Grouping *)

Lemma get_column_Raise (df : DataFrame) (n : string) (e : PyErr) :
  get_column n df = Raise e -> e = ColumnNotFoundError n /\ ~ In n (columns df).
Proof.
  intros H. destruct (columns_dec df n) as [I | N].
  - destruct (get_column_columns df n I) as [s Hs]. congruence.
  - rewrite (get_column_missing df n N) in H. split; [congruence | exact N].
Qed.

(** X16.  [df_group_by_expected_frequency] returns a table exactly when the
    frame has the column [expected_frequency]; otherwise it raises
    [ColumnNotFoundError] for that column. *)
Theorem group_by_needs_the_key (df : DataFrame) :
  ((exists g, df_group_by_expected_frequency df = Ok g)
   <-> In "expected_frequency" (columns df))
  /\ (forall e, df_group_by_expected_frequency df = Raise e ->
      e = ColumnNotFoundError "expected_frequency").
Proof.
  destruct (get_column "expected_frequency" df) as [keys | e0] eqn:Hk.
  - rewrite (group_by_spec df keys Hk). split; [split | ].
    + intros _. exact (get_column_Ok_In df _ keys Hk).
    + intros _. eauto.
    + intros e H. discriminate H.
  - rewrite (group_by_missing df e0 Hk).
    destruct (get_column_Raise df _ e0 Hk) as [-> N]. split; [split | ].
    + intros [g H]. discriminate H.
    + intros I. contradiction.
    + intros e H. congruence.
Qed.

Lemma In_nth_error_iff {A : Type} (l : list A) (a : A) :
  In a l <-> exists i, nth_error l i = Some a.
Proof. split; [apply In_nth_error | intros [i H]; exact (nth_error_In l i H)]. Qed.

Lemma others_NoDup (df : DataFrame) : NoDup (columns df) -> NoDup ("expected_frequency" :: others df).
Proof.
  intros N. constructor.
  - unfold others. intros H. apply filter_In in H. destruct H as [_ H].
    rewrite String.eqb_refl in H. discriminate H.
  - unfold others. now apply NoDup_filter.
Qed.

Lemma grouped_wf (keys : Series) (df : DataFrame) :
  NoDup (columns df) -> wf (grouped keys df).
Proof.
  intros N. split.
  - rewrite columns_grouped. now apply others_NoDup.
  - unfold grouped. cbn [height]. constructor; [reflexivity | ].
    apply Forall_forall. intros c Hc. apply in_map_iff in Hc.
    destruct Hc as (n & <- & _). cbn [snd]. now rewrite length_map.
Qed.

(** X17.  The table [df_group_by_expected_frequency] returns has exactly
    one row per distinct requested frequency of the frame: its key column
    has no duplicate and holds the same cells as the frame's; the other
    columns follow in the frame's order, and the table is well-formed. *)
Theorem group_by_one_row_per_frequency (df g : DataFrame) :
  NoDup (columns df) ->
  df_group_by_expected_frequency df = Ok g ->
  exists ks,
    get_column "expected_frequency" g = Ok ks
    /\ NoDup ks
    /\ (forall k, In k ks <-> exists i, cell_at df "expected_frequency" i = Some k)
    /\ height g = List.length ks
    /\ columns g = "expected_frequency" :: others df
    /\ wf g.
Proof.
  intros N H.
  destruct (get_column "expected_frequency" df) as [keys | e0] eqn:Hk;
    [ | rewrite (group_by_missing df e0 Hk) in H; discriminate H].
  rewrite (group_by_spec df keys Hk) in H. injection H as <-.
  exists (nodup cell_eq_dec keys). split; [reflexivity | ].
  split; [apply NoDup_nodup | ]. split; [ | split; [reflexivity | split]].
  - intros k. rewrite nodup_In, In_nth_error_iff. unfold cell_at. rewrite Hk. reflexivity.
  - apply columns_grouped.
  - now apply grouped_wf.
Qed.

Lemma group_by_one_row_per_frequency_witness :
  exists g ks,
    df_group_by_expected_frequency sample_trials = Ok g
    /\ get_column "expected_frequency" g = Ok ks
    /\ NoDup ks
    /\ height g = List.length ks.
Proof.
  destruct (df_group_by_expected_frequency sample_trials) as [g | e] eqn:E.
  - destruct (group_by_one_row_per_frequency sample_trials g (proj1 sample_trials_wf) E)
      as (ks & Hk & Hn & _ & Hh & _).
    exists g, ks. repeat split; assumption.
  - vm_compute in E. discriminate E.
Defined.

(** ** Aggregation *)

Lemma length_map2 {A B C : Type} (f : A -> B -> C) (l1 : list A) (l2 : list B) :
  List.length (map2 f l1 l2) = Nat.min (List.length l1) (List.length l2).
Proof. unfold map2. now rewrite length_map, length_combine. Qed.

Lemma real_frequency_length (ef md : Series) :
  List.length md = List.length ef ->
  List.length (real_frequency_of ef md) = List.length ef.
Proof.
  intros L. unfold real_frequency_of.
  rewrite !length_map2, length_combine, !length_map2, !repeat_length, L. lia.
Qed.

Lemma core_energy_length (ef c0 : Series) :
  List.length c0 = List.length ef ->
  List.length (core_energy_of ef c0) = List.length ef.
Proof.
  intros L. unfold core_energy_of. rewrite length_map2, repeat_length, L. lia.
Qed.

(** X18.  [df_aggregate] returns a table exactly when the frame has the
    five columns it selects; otherwise it raises [ColumnNotFoundError] for
    one of the five that is missing. *)
Theorem aggregate_needs_its_columns (df : DataFrame) :
  ((exists out, df_aggregate df = Ok out)
   <-> forall c, In c selected_columns -> In c (columns df))
  /\ (forall e, df_aggregate df = Raise e ->
      exists c, In c selected_columns /\ ~ In c (columns df) /\ e = ColumnNotFoundError c).
Proof.
  split; [split | ].
  - intros [out H].
    destruct (df_aggregate_inv df out H) as (ef & c0 & mc & dm & md & H1 & H2 & H3 & H4 & H5 & _).
    intros c [<- | [<- | [<- | [<- | [<- | []]]]]]; eapply get_column_Ok_In; eassumption.
  - intros H.
    destruct (get_column_columns df "expected_frequency") as [ef H1]; [apply H; simpl; tauto | ].
    destruct (get_column_columns df "CORE_0") as [c0 H2]; [apply H; simpl; tauto | ].
    destruct (get_column_columns df "measure_count") as [mc H3]; [apply H; simpl; tauto | ].
    destruct (get_column_columns df "duration_ms") as [dm H4]; [apply H; simpl; tauto | ].
    destruct (get_column_columns df "measure_delta") as [md H5]; [apply H; simpl; tauto | ].
    eexists. exact (df_aggregate_spec df ef c0 mc dm md H1 H2 H3 H4 H5).
  - intros e H. unfold df_aggregate, pl.select in H.
    cbn [first_dup mem existsb String.eqb Ascii.eqb Bool.eqb orb mapM bind] in H.
    destruct (get_column "expected_frequency" df) as [ef | e1] eqn:H1.
    2:{ injection H as <-. destruct (get_column_Raise df _ e1 H1) as [-> N].
        eexists. split; [ | split; [exact N | reflexivity]]. simpl. tauto. }
    destruct (get_column "CORE_0" df) as [c0 | e2] eqn:H2.
    2:{ injection H as <-. destruct (get_column_Raise df _ e2 H2) as [-> N].
        eexists. split; [ | split; [exact N | reflexivity]]. simpl. tauto. }
    destruct (get_column "measure_count" df) as [mc | e3] eqn:H3.
    2:{ injection H as <-. destruct (get_column_Raise df _ e3 H3) as [-> N].
        eexists. split; [ | split; [exact N | reflexivity]]. simpl. tauto. }
    destruct (get_column "duration_ms" df) as [dm | e4] eqn:H4.
    2:{ injection H as <-. destruct (get_column_Raise df _ e4 H4) as [-> N].
        eexists. split; [ | split; [exact N | reflexivity]]. simpl. tauto. }
    destruct (get_column "measure_delta" df) as [md | e5] eqn:H5.
    2:{ injection H as <-. destruct (get_column_Raise df _ e5 H5) as [-> N].
        eexists. split; [ | split; [exact N | reflexivity]]. simpl. tauto. }
    discriminate H.
Qed.

(** X19.  Whatever other columns the frame has, the table [df_aggregate]
    returns has the five columns [real_frequency], [expected_frequency],
    [CORE_0], [measure_delta] and [core_energy], in that order
    ([measure_count] and [duration_ms] are gone); for a well-formed frame it
    is well-formed and has as many rows as the frame. *)
Theorem aggregate_shape (df out : DataFrame) :
  df_aggregate df = Ok out ->
  columns out = aggregated_columns
  /\ (wf df -> wf out /\ height out = height df).
Proof.
  intros H.
  destruct (df_aggregate_inv df out H) as (ef & c0 & mc & dm & md & H1 & H2 & _ & _ & H5 & ->).
  split; [reflexivity | ]. intros W.
  pose proof (wf_length df _ _ W H1) as L1.
  pose proof (wf_length df _ _ W H2) as L2.
  pose proof (wf_length df _ _ W H5) as L5.
  assert (Lr : List.length (real_frequency_of ef md) = height df).
  { rewrite real_frequency_length; congruence. }
  assert (Le : List.length (core_energy_of ef c0) = height df).
  { rewrite core_energy_length; congruence. }
  split; [split | exact Lr].
  - repeat constructor; simpl; intuition discriminate.
  - cbn [aggregated height]. repeat constructor; cbn [snd]; congruence.
Qed.

Lemma aggregate_shape_witness :
  columns sample_aggregated = aggregated_columns
  /\ wf sample_aggregated /\ height sample_aggregated = height sample_grouped.
Proof.
  destruct (aggregate_shape sample_grouped sample_aggregated df_aggregate_sample) as [C W].
  destruct (W sample_grouped_wf) as [W1 W2].
  split; [exact C | split; [exact W1 | exact W2]].
Defined.

(** X20.  [df_aggregate] cannot be applied to its own result, which has no
    [measure_count] any more: the second call raises [ColumnNotFoundError]
    for that column. *)
Theorem aggregate_twice (df out : DataFrame) :
  df_aggregate df = Ok out ->
  df_aggregate out = Raise (ColumnNotFoundError "measure_count").
Proof.
  intros H.
  destruct (df_aggregate_inv df out H) as (ef & c0 & mc & dm & md & _ & _ & _ & _ & _ & ->).
  reflexivity.
Qed.

Lemma aggregate_twice_witness :
  df_aggregate sample_aggregated = Raise (ColumnNotFoundError "measure_count").
Proof. exact (aggregate_twice sample_grouped sample_aggregated df_aggregate_sample). Defined.

(** X21.  [df_aggregate] reads the five columns it selects and nothing
    else: two frames that agree on them give the same result, table or
    exception. *)
Theorem aggregate_reads_five_columns (df df' : DataFrame) :
  (forall c, In c selected_columns -> get_column c df' = get_column c df) ->
  df_aggregate df' = df_aggregate df.
Proof.
  intros H. unfold df_aggregate, pl.select.
  cbn [first_dup mem existsb String.eqb Ascii.eqb Bool.eqb orb mapM bind].
  rewrite (H "expected_frequency"), (H "CORE_0"), (H "measure_count"),
    (H "duration_ms"), (H "measure_delta") by (simpl; tauto).
  reflexivity.
Qed.

Lemma aggregate_reads_five_columns_witness :
  df_aggregate (("PKG_0", [cell_of_Z 1; cell_of_Z 2; cell_of_Z 3]) :: sample_grouped)
  = df_aggregate sample_grouped.
Proof.
  apply aggregate_reads_five_columns.
  intros c [<- | [<- | [<- | [<- | [<- | []]]]]]; reflexivity.
Defined.

(** ** From the collected trials to the aggregated table *)

Lemma removed_unused_columns_get (df out : DataFrame) (c : string) :
  df_removed_unused_columns df = Ok out ->
  c <> "command" -> c <> "exit_code" ->
  get_column c out = get_column c df.
Proof.
  intros H N1 N2. apply removed_unused_columns_closed in H. subst out.
  apply (get_column_filter_keep (fun n => negb (mem n unused_columns))).
  unfold mem, unused_columns. cbn [existsb].
  apply String.eqb_neq in N1. apply String.eqb_neq in N2. now rewrite N1, N2.
Qed.

Lemma grouped_column_In (keys : Series) (df : DataFrame) (c : string) (s : Series) :
  get_column c (grouped keys df) = Ok s -> c <> "expected_frequency" ->
  In c (others df).
Proof.
  intros H N. apply get_column_Ok_In in H. rewrite columns_grouped in H.
  destruct H as [H | H]; [congruence | exact H].
Qed.

(** X22.  When the cells that follow a collection succeed (unused columns
    removed, trials grouped, groups aggregated), the final table has the
    five aggregated columns and exactly one row per distinct requested
    frequency of the trials, and in the row of frequency [0] the
    [real_frequency] is [0]. *)
Theorem pipeline_one_row_per_frequency (iters out : DataFrame) :
  high_frequency_df_agg iters = Ok out ->
  exists ks,
    get_column "expected_frequency" out = Ok ks
    /\ NoDup ks
    /\ (forall k, In k ks <-> exists i, cell_at iters "expected_frequency" i = Some k)
    /\ columns out = aggregated_columns
    /\ height out = List.length ks
    /\ (forall i, nth_error ks i = Some (cell_of_Z 0) ->
        cell_at out "real_frequency" i = Some (cell_of_Z 0)).
Proof.
  intros H. unfold high_frequency_df_agg in H.
  destruct (df_removed_unused_columns iters) as [d | e1] eqn:Hd; [ | discriminate H].
  cbn [bind] in H.
  destruct (df_group_by_expected_frequency d) as [g | e2] eqn:Hg; [ | discriminate H].
  cbn [bind] in H.
  pose proof (removed_unused_columns_get iters d "expected_frequency" Hd) as Hkeys.
  destruct (get_column "expected_frequency" d) as [keys | e0] eqn:Hk;
    [ | rewrite (group_by_missing d e0 Hk) in Hg; discriminate Hg].
  rewrite (group_by_spec d keys Hk) in Hg. injection Hg as <-.
  destruct (df_aggregate_inv _ out H) as (ef & c0 & mc & dm & md & H1 & _ & _ & _ & H5 & ->).
  injection H1 as <-.
  rewrite (get_column_grouped keys d "measure_delta") in H5
    by (apply (grouped_column_In keys d _ md H5); discriminate).
  injection H5 as <-.
  set (ks := nodup cell_eq_dec keys).
  set (md := map (fun k => pl.mean_cells (pl.group_values keys (series "measure_delta" d) k)) ks).
  assert (L : List.length md = List.length ks) by (unfold md; now rewrite length_map).
  exists ks. split; [reflexivity | ]. split; [apply NoDup_nodup | ].
  split; [ | split; [reflexivity | split]].
  - intros k. unfold ks. rewrite nodup_In, In_nth_error_iff. unfold cell_at.
    rewrite <- Hkeys by discriminate. reflexivity.
  - cbn [aggregated height]. now apply real_frequency_length.
  - intros i Hi.
    change (nth_error (real_frequency_of ks md) i = Some (cell_of_Z 0)).
    destruct (nth_error_same_length ks md i _ (eq_sym L) Hi) as [m Hm].
    rewrite (real_frequency_row ks md i _ m Hi Hm), cell_eq_zero. reflexivity.
Qed.

Lemma pipeline_one_row_per_frequency_witness :
  exists out ks,
    high_frequency_df_agg raw_trials = Ok out
    /\ get_column "expected_frequency" out = Ok ks
    /\ NoDup ks
    /\ height out = List.length ks.
Proof.
  destruct (high_frequency_df_agg raw_trials) as [out | e] eqn:E.
  - destruct (pipeline_one_row_per_frequency raw_trials out E)
      as (ks & Hk & Hn & _ & _ & Hh & _).
    exists out, ks. split; [reflexivity | split; [exact Hk | split; [exact Hn | exact Hh]]].
  - vm_compute in E. discriminate E.
Defined.

(** X23.  The cells that follow a collection succeed exactly when the
    collected frame has the seven columns they name: [command] and
    [exit_code] to remove, [expected_frequency] to group by, and [CORE_0],
    [measure_count], [duration_ms] and [measure_delta] to aggregate. *)
Theorem pipeline_needs_seven_columns (iters : DataFrame) :
  (exists out, high_frequency_df_agg iters = Ok out)
  <-> forall c, In c (unused_columns ++ selected_columns) -> In c (columns iters).
Proof.
  unfold high_frequency_df_agg. split.
  - intros [out H].
    destruct (df_removed_unused_columns iters) as [d | e1] eqn:Hd; [ | discriminate H].
    cbn [bind] in H.
    destruct (df_group_by_expected_frequency d) as [g | e2] eqn:Hg; [ | discriminate H].
    cbn [bind] in H.
    destruct (removed_unused_columns_needs_both_aux iters d Hd) as [I1 I2].
    destruct (get_column "expected_frequency" d) as [keys | e0] eqn:Hk;
      [ | rewrite (group_by_missing d e0 Hk) in Hg; discriminate Hg].
    rewrite (group_by_spec d keys Hk) in Hg. injection Hg as <-.
    destruct (df_aggregate_inv _ out H) as (ef & c0 & mc & dm & md & _ & H2 & H3 & H4 & H5 & _).
    assert (G : forall c s, get_column c (grouped keys d) = Ok s ->
                c <> "expected_frequency" -> c <> "command" -> c <> "exit_code" ->
                In c (columns iters)).
    { intros c s Hc N0 N1 N2. apply grouped_column_In in Hc; [ | exact N0].
      apply others_columns in Hc.
      destruct (get_column_columns d c Hc) as [t Ht].
      rewrite (removed_unused_columns_get iters d c Hd N1 N2) in Ht.
      exact (get_column_Ok_In iters c t Ht). }
    intros c [<- | [<- | [<- | [<- | [<- | [<- | [<- | []]]]]]]]; try assumption.
    + rewrite (removed_unused_columns_get iters d _ Hd) in Hk by discriminate.
      exact (get_column_Ok_In iters _ keys Hk).
    + apply (G _ c0 H2); discriminate.
    + apply (G _ mc H3); discriminate.
    + apply (G _ dm H4); discriminate.
    + apply (G _ md H5); discriminate.
  - intros H.
    assert (Hd : df_removed_unused_columns iters
                 = Ok (filter (fun c => negb (mem (fst c) unused_columns)) iters)).
    { unfold df_removed_unused_columns. apply drop_spec.
      intros n Hn. apply H. apply in_or_app. now left. }
    rewrite Hd. cbn [bind].
    set (d := filter (fun c => negb (mem (fst c) unused_columns)) iters) in *.
    assert (K : forall c, In c selected_columns ->
                exists s, get_column c d = Ok s).
    { intros c Hc.
      destruct (get_column_columns iters c) as [s Hs];
        [apply H, in_or_app; now right | ].
      exists s. rewrite (removed_unused_columns_get iters d c Hd); [exact Hs | | ];
        destruct Hc as [<- | [<- | [<- | [<- | [<- | []]]]]]; discriminate. }
    destruct (K "expected_frequency") as [keys Hk]; [simpl; tauto | ].
    rewrite (group_by_spec d keys Hk). cbn [bind].
    assert (G : forall c, In c selected_columns -> c <> "expected_frequency" ->
                exists s, get_column c (grouped keys d) = Ok s).
    { intros c Hc N. destruct (K c Hc) as [s Hs]. eexists.
      apply get_column_grouped. unfold others. apply filter_In. split.
      - exact (get_column_Ok_In d c s Hs).
      - apply negb_true_iff. now apply String.eqb_neq. }
    destruct (G "CORE_0") as [c0 H2]; [simpl; tauto | discriminate | ].
    destruct (G "measure_count") as [mc H3]; [simpl; tauto | discriminate | ].
    destruct (G "duration_ms") as [dm H4]; [simpl; tauto | discriminate | ].
    destruct (G "measure_delta") as [md H5]; [simpl; tauto | discriminate | ].
    eexists.
    exact (df_aggregate_spec (grouped keys d) _ c0 mc dm md eq_refl H2 H3 H4 H5).
Qed.

(** * Tables over any kind of cell *)

Lemma StronglySorted_seq (a n : nat) : StronglySorted lt (seq a n).
Proof.
  revert a. induction n as [ | n IH ]; intros a; cbn [seq]; constructor.
  - apply IH.
  - apply Forall_forall. intros x Hx. apply in_seq in Hx. lia.
Qed.

Lemma StronglySorted_filter {A : Type} (R : A -> A -> Prop) (f : A -> bool) (l : list A) :
  StronglySorted R l -> StronglySorted R (filter f l).
Proof.
  induction 1 as [ | a l S IH F ]; cbn [filter]; [constructor | ].
  destruct (f a); [ | exact IH].
  constructor; [exact IH | ].
  apply Forall_forall. intros x Hx. apply filter_In in Hx.
  rewrite Forall_forall in F. apply F. tauto.
Qed.

(** A list of indices has one increasing arrangement. *)
Lemma sorted_Permutation_eq (l1 l2 : list nat) :
  StronglySorted lt l1 -> StronglySorted lt l2 -> Permutation l1 l2 -> l1 = l2.
Proof.
  intros S1. revert l2. induction S1 as [ | a l1 S1 IH F1 ]; intros l2 S2 P.
  - apply Permutation_nil in P. now subst.
  - destruct S2 as [ | b l2 S2 F2 ].
    + apply Permutation_sym, Permutation_nil in P. discriminate P.
    + rewrite Forall_forall in F1, F2.
      assert (E : a = b).
      { assert (Ha : In a (b :: l2)) by (apply (Permutation_in a P); now left).
        assert (Hb : In b (a :: l1))
          by (apply (Permutation_in b (Permutation_sym P)); now left).
        destruct Ha as [Ha | Ha]; [now symmetry | ].
        destruct Hb as [Hb | Hb]; [exact Hb | ].
        specialize (F1 b Hb). specialize (F2 a Ha). lia. }
      subst b. f_equal. apply IH; [exact S2 | ].
      exact (Permutation_cons_inv P).
Qed.

Lemma map_seq_nth_error {A B : Type} (H : A -> B) (g : nat -> B) (l : list A) :
  (forall i a, nth_error l i = Some a -> g i = H a) ->
  map g (seq 0 (List.length l)) = map H l.
Proof.
  revert g. induction l as [ | x l IH ]; intros g Hg; cbn [List.length seq map];
    [reflexivity | ].
  f_equal; [exact (Hg 0%nat x eq_refl) | ].
  rewrite <- seq_shift, map_map. apply IH.
  intros i a Hi. exact (Hg (S i) a Hi).
Qed.

Lemma nodup_Permutation_dec {A : Type} (dec : forall a b : A, {a = b} + {a <> b})
    (l l' : list A) :
  Permutation l l' -> Permutation (nodup dec l) (nodup dec l').
Proof.
  intros P. apply NoDup_Permutation; try apply NoDup_nodup.
  intros x. rewrite !nodup_In. split; apply Permutation_in; [ | symmetry ]; exact P.
Qed.

Section AnyCells.

Variable V : Type.

Local Set Default Proof Using "Type".

Local Abbreviation Frame := (frames.DataFrame V).
Local Abbreviation Column := (frames.Series V).

(** ** Columns *)

Lemma frames_get_column_In (name : string) (df : Frame) (s : Column) :
  frames.get_column name df = Ok s -> In (name, s) df.
Proof.
  induction df as [ | [n t] df IH ]; simpl; [discriminate | ].
  destruct (String.eqb_spec n name) as [-> | _].
  - intros [= ->]. now left.
  - intros H. right. now apply IH.
Qed.

Lemma frames_wf_length (df : Frame) (name : string) (s : Column) :
  frames.wf df -> frames.get_column name df = Ok s -> List.length s = frames.height df.
Proof.
  intros [_ H] G. rewrite Forall_forall in H.
  exact (H _ (frames_get_column_In _ _ _ G)).
Qed.

Lemma frames_get_column_columns (df : Frame) (c : string) :
  In c (frames.columns df) -> exists s, frames.get_column c df = Ok s.
Proof.
  induction df as [ | [n t] df IH ]; simpl; [tauto | ].
  intros H. destruct (String.eqb_spec n c) as [E | N]; [eauto | ].
  destruct H as [H | H]; [contradiction | auto].
Qed.

Lemma frames_cell_at_get_column (df : Frame) (c : string) (i : nat) (v : V) :
  frames.cell_at df c i = Some v ->
  exists s, frames.get_column c df = Ok s /\ nth_error s i = Some v.
Proof.
  unfold frames.cell_at. destruct (frames.get_column c df) as [s | ]; [eauto | discriminate].
Qed.

Lemma frames_series_get_column (df : Frame) (c : string) :
  In c (frames.columns df) -> frames.get_column c df = Ok (frames.series c df).
Proof.
  intros H. unfold frames.series.
  destruct (frames_get_column_columns df c H) as [s ->]. reflexivity.
Qed.

Lemma frames_others_columns (df : Frame) (c : string) :
  In c (frames.others df) -> In c (frames.columns df).
Proof. unfold frames.others. rewrite filter_In. tauto. Qed.

(** ** [df_aggregate] in closed form *)

Section Aggregation.

Variable of_int : Z -> V.
Variable div : V -> V -> V.
Variable eq : V -> V -> option bool.

Lemma frames_df_aggregate_spec (df : Frame) (ef c0 mc dm md : Column) :
  frames.get_column "expected_frequency" df = Ok ef ->
  frames.get_column "CORE_0" df = Ok c0 ->
  frames.get_column "measure_count" df = Ok mc ->
  frames.get_column "duration_ms" df = Ok dm ->
  frames.get_column "measure_delta" df = Ok md ->
  frames.df_aggregate of_int div eq df = Ok (frames.aggregated of_int div eq ef c0 md).
Proof.
  intros H1 H2 H3 H4 H5. unfold frames.df_aggregate, frames.select.
  cbn [first_dup mem existsb String.eqb Ascii.eqb Bool.eqb orb mapM bind].
  rewrite H1, H2, H3, H4, H5. reflexivity.
Qed.

Lemma frames_real_frequency_row (ef md : Column) (i : nat) (e m : V) :
  nth_error ef i = Some e -> nth_error md i = Some m ->
  nth_error (frames.real_frequency_of of_int div eq ef md) i
  = Some (frames.choose (eq e (of_int 0)) (of_int 0) (div (of_int 1000) m)).
Proof.
  intros He Hm. unfold frames.real_frequency_of.
  pose proof (nth_error_length _ _ _ He) as Hi.
  rewrite (nth_error_map2 _ _ _ i (eq e (of_int 0))
             (of_int 0, div (of_int 1000) m)); [reflexivity | | ].
  - apply nth_error_map2; [exact He | now apply nth_error_repeat_lt].
  - apply nth_error_combine; [now apply nth_error_repeat_lt | ].
    apply nth_error_map2; [now apply nth_error_repeat_lt | exact Hm].
Qed.

End Aggregation.

(** ** Grouping in closed form *)

Section Grouping.

Variable null : V.
Variable K : Type.
Variable K_eq_dec : forall a b : K, {a = b} + {a <> b}.
Variable key_of : V -> K.
Variable mean_cells : list V -> V.

Local Abbreviation group :=
  (frames.df_group_by_expected_frequency null K_eq_dec key_of mean_cells).
Local Abbreviation values := (frames.group_values K_eq_dec key_of).
Local Abbreviation in_group keys k :=
  (fun i : nat => decides (K_eq_dec (key_of (nth i keys null)) k)).

Lemma frames_group_by_spec (df : Frame) (keys : Column) :
  frames.get_column "expected_frequency" df = Ok keys ->
  group df = Ok (frames.grouped null K_eq_dec key_of mean_cells keys df).
Proof.
  intros H. unfold frames.df_group_by_expected_frequency, frames.agg, frames.group_by.
  cbn [frames.gb_df frames.gb_key]. rewrite H. cbn [bind]. fold (frames.others df).
  rewrite (mapM_ok _
             (fun a => match a with
                       | pl.mean c =>
                           (c, map (fun k => mean_cells (values keys (frames.series c df) k))
                                   (nodup K_eq_dec (map key_of keys)))
                       end)).
  - unfold frames.grouped. now rewrite map_map.
  - intros a Ha. apply in_map_iff in Ha. destruct Ha as (c & <- & Hc).
    now rewrite (frames_series_get_column df c (frames_others_columns df c Hc)).
Qed.

Lemma frames_group_by_missing (df : Frame) (e : PyErr) :
  frames.get_column "expected_frequency" df = Raise e -> group df = Raise e.
Proof.
  intros H. unfold frames.df_group_by_expected_frequency, frames.agg, frames.group_by.
  cbn [frames.gb_df frames.gb_key]. now rewrite H.
Qed.

Lemma frames_columns_grouped (keys : Column) (df : Frame) :
  frames.columns (frames.grouped null K_eq_dec key_of mean_cells keys df)
  = "expected_frequency" :: frames.others df.
Proof.
  unfold frames.columns, frames.grouped. cbn [map fst]. f_equal.
  rewrite map_map. cbn [fst]. apply map_id.
Qed.

Lemma frames_rows_grouped (keys : Column) (df : Frame) :
  frames.rows null (frames.grouped null K_eq_dec key_of mean_cells keys df)
  = map (fun k => hd null (values keys keys k)
                  :: map (fun c => mean_cells (values keys (frames.series c df) k))
                         (frames.others df))
        (nodup K_eq_dec (map key_of keys)).
Proof.
  unfold frames.rows. cbn [frames.grouped frames.height]. rewrite length_map.
  apply map_seq_nth_error. intros i k Hk.
  unfold frames.row, frames.grouped. cbn [map snd]. rewrite map_map. apply f_equal2.
  - apply nth_error_nth.
    exact (map_nth_error (fun k => hd null (values keys keys k)) _ _ Hk).
  - apply map_ext. intros c. cbn [snd]. apply nth_error_nth.
    exact (map_nth_error (fun k => mean_cells (values keys (frames.series c df) k)) _ _ Hk).
Qed.

(** The first key cell of a group has the key of the group. *)
Lemma group_key (keys : Column) (k : K) :
  In k (map key_of keys) -> key_of (hd null (values keys keys k)) = k.
Proof.
  induction keys as [ | x keys IH ]; cbn [map In]; [tauto | ].
  unfold frames.group_values. cbn [combine filter fst].
  destruct (K_eq_dec (key_of x) k) as [E | N]; cbn [decides map hd snd].
  - intros _. exact E.
  - intros [H | H]; [contradiction | ]. now apply IH.
Qed.

Lemma frames_key_column_grouped (keys : Column) (df : Frame) :
  map key_of (frames.series "expected_frequency"
                (frames.grouped null K_eq_dec key_of mean_cells keys df))
  = nodup K_eq_dec (map key_of keys).
Proof.
  unfold frames.series, frames.grouped. cbn [frames.get_column String.eqb Ascii.eqb Bool.eqb].
  rewrite map_map. rewrite <- (map_id (nodup K_eq_dec (map key_of keys))) at 2.
  apply map_ext_in. intros k Hk. apply nodup_In in Hk. now apply group_key.
Qed.

(** ** Reordering the rows *)

Lemma frames_columns_take (idx : list nat) (df : Frame) :
  frames.columns (frames.take null idx df) = frames.columns df.
Proof. unfold frames.columns, frames.take. rewrite map_map. reflexivity. Qed.

Lemma frames_get_column_take (idx : list nat) (df : Frame) (c : string) :
  frames.get_column c (frames.take null idx df)
  = match frames.get_column c df with
    | Ok s => Ok (map (fun i => nth i s null) idx)
    | Raise e => Raise e
    end.
Proof.
  induction df as [ | [n t] df IH ]; simpl; [reflexivity | ].
  destruct (String.eqb n c); [reflexivity | exact IH].
Qed.

Lemma frames_others_take (idx : list nat) (df : Frame) :
  frames.others (frames.take null idx df) = frames.others df.
Proof. unfold frames.others. now rewrite frames_columns_take. Qed.

(** The cells of a group, from the indices of its rows. *)
Lemma values_of_indices (keys vals : Column) (idx : list nat) (k : K) :
  values (map (fun i => nth i keys null) idx) (map (fun i => nth i vals null) idx) k
  = map (fun i => nth i vals null) (filter (in_group keys k) idx).
Proof.
  unfold frames.group_values. rewrite combine_map_same.
  induction idx as [ | i idx IH ]; cbn [map filter fst]; [reflexivity | ].
  destruct (decides (K_eq_dec (key_of (nth i keys null)) k)); cbn [map snd]; now rewrite IH.
Qed.

Lemma values_of_rows (keys vals : Column) (k : K) :
  List.length vals = List.length keys ->
  values keys vals k
  = map (fun i => nth i vals null) (filter (in_group keys k) (seq 0 (List.length keys))).
Proof.
  intros L. rewrite <- values_of_indices.
  now rewrite map_nth_seq, <- L, map_nth_seq.
Qed.

Lemma values_nil_r (keys : Column) (k : K) : values keys [] k = [].
Proof. unfold frames.group_values. now rewrite combine_nil. Qed.

(** Whatever the order, a group is made of the same cells. *)
Lemma values_take_Permutation (keys vals : Column) (idx : list nat) (k : K) :
  List.length vals = List.length keys ->
  Permutation idx (seq 0 (List.length keys)) ->
  Permutation
    (values (map (fun i => nth i keys null) idx) (map (fun i => nth i vals null) idx) k)
    (values keys vals k).
Proof.
  intros L P. rewrite values_of_indices, (values_of_rows keys vals k L).
  now apply Permutation_map, filter_Permutation.
Qed.

(** In an order that keeps the rows of the group in place, a group is made
    of the same cells in the same order. *)
Lemma values_take_sorted (keys vals : Column) (idx : list nat) (k : K) :
  List.length vals = List.length keys ->
  Permutation idx (seq 0 (List.length keys)) ->
  StronglySorted lt (filter (in_group keys k) idx) ->
  values (map (fun i => nth i keys null) idx) (map (fun i => nth i vals null) idx) k
  = values keys vals k.
Proof.
  intros L P S. rewrite values_of_indices, (values_of_rows keys vals k L).
  f_equal. apply sorted_Permutation_eq; [exact S | | now apply filter_Permutation].
  apply StronglySorted_filter, StronglySorted_seq.
Qed.

Lemma frames_series_take (idx : list nat) (df : Frame) (c : string) :
  In c (frames.columns df) ->
  frames.series c (frames.take null idx df)
  = map (fun i => nth i (frames.series c df) null) idx.
Proof.
  intros H. unfold frames.series at 1.
  now rewrite frames_get_column_take, (frames_series_get_column df c H).
Qed.

Lemma frames_series_missing (df : Frame) (c : string) :
  ~ In c (frames.columns df) -> frames.series c df = [].
Proof.
  intros H. unfold frames.series.
  destruct (frames.get_column c df) as [s | e] eqn:E; [ | reflexivity].
  exfalso. apply H. apply frames_get_column_In in E.
  unfold frames.columns. apply in_map_iff. now exists (c, s).
Qed.

Lemma frames_series_length (df : Frame) (c : string) :
  frames.wf df -> In c (frames.columns df) ->
  List.length (frames.series c df) = frames.height df.
Proof.
  intros W H. apply (frames_wf_length df c); [exact W | ].
  now apply frames_series_get_column.
Qed.

Lemma trials_take_Permutation (df : Frame) (idx : list nat) (c : string) (k : K) :
  frames.wf df ->
  Permutation idx (seq 0 (frames.height df)) ->
  Permutation (frames.trials K_eq_dec key_of (frames.take null idx df) c k)
              (frames.trials K_eq_dec key_of df c k).
Proof.
  intros W P. unfold frames.trials.
  destruct (in_dec string_dec "expected_frequency" (frames.columns df)) as [Hk | Hk].
  - destruct (in_dec string_dec c (frames.columns df)) as [Hc | Hc].
    + rewrite (frames_series_take idx df _ Hk), (frames_series_take idx df _ Hc).
      apply values_take_Permutation.
      * now rewrite !frames_series_length.
      * now rewrite frames_series_length.
    + rewrite (frames_series_missing df c Hc), (frames_series_missing (frames.take null idx df) c).
      * rewrite !values_nil_r. constructor.
      * now rewrite frames_columns_take.
  - rewrite (frames_series_missing df _ Hk), (frames_series_missing (frames.take null idx df) _).
    + constructor.
    + now rewrite frames_columns_take.
Qed.

Lemma key_column_take_Permutation (df : Frame) (idx : list nat) (keys : Column) :
  frames.wf df ->
  frames.get_column "expected_frequency" df = Ok keys ->
  Permutation idx (seq 0 (frames.height df)) ->
  Permutation (nodup K_eq_dec (map key_of keys))
              (nodup K_eq_dec (map key_of (map (fun i => nth i keys null) idx))).
Proof.
  intros W Hk P. apply nodup_Permutation_dec, Permutation_map.
  rewrite <- (frames_wf_length df _ _ W Hk) in P.
  apply (Permutation_map (fun i => nth i keys null)) in P.
  rewrite map_nth_seq in P. now symmetry.
Qed.

Lemma group_by_same_frequencies (df : Frame) (idx : list nat) :
  frames.wf df ->
  Permutation idx (seq 0 (frames.height df)) ->
  frames.same_frequencies key_of (group df) (group (frames.take null idx df)).
Proof.
  intros W P.
  destruct (frames.get_column "expected_frequency" df) as [keys | e] eqn:Hk.
  - assert (Hk' : frames.get_column "expected_frequency" (frames.take null idx df)
                  = Ok (map (fun i => nth i keys null) idx))
      by now rewrite frames_get_column_take, Hk.
    rewrite (frames_group_by_spec df keys Hk), (frames_group_by_spec _ _ Hk').
    split.
    + now rewrite !frames_columns_grouped, frames_others_take.
    + rewrite !frames_key_column_grouped.
      exact (key_column_take_Permutation df idx keys W Hk P).
  - assert (Hk' : frames.get_column "expected_frequency" (frames.take null idx df) = Raise e)
      by now rewrite frames_get_column_take, Hk.
    rewrite (frames_group_by_missing df e Hk), (frames_group_by_missing _ e Hk'). reflexivity.
Qed.

Lemma get_column_columns_In (df : Frame) (c : string) (s : Column) :
  frames.get_column c df = Ok s -> In c (frames.columns df).
Proof.
  intros H. apply frames_get_column_In in H.
  unfold frames.columns. apply in_map_iff. now exists (c, s).
Qed.

Lemma group_by_keeps_order (df : Frame) (idx : list nat) :
  frames.wf df ->
  Permutation idx (seq 0 (frames.height df)) ->
  frames.keeps_order null K_eq_dec key_of df idx ->
  frames.same_groups null (group df) (group (frames.take null idx df)).
Proof.
  intros W P S.
  destruct (frames.get_column "expected_frequency" df) as [keys | e] eqn:Hk.
  - assert (Hk' : frames.get_column "expected_frequency" (frames.take null idx df)
                  = Ok (map (fun i => nth i keys null) idx))
      by now rewrite frames_get_column_take, Hk.
    pose proof (get_column_columns_In df _ _ Hk) as Ik.
    assert (Es : frames.series "expected_frequency" df = keys)
      by (unfold frames.series; now rewrite Hk).
    pose proof (frames_wf_length df _ _ W Hk) as Lk.
    rewrite (frames_group_by_spec df keys Hk), (frames_group_by_spec _ _ Hk').
    split.
    + now rewrite !frames_columns_grouped, frames_others_take.
    + rewrite !frames_rows_grouped, frames_others_take.
      pose proof (key_column_take_Permutation df idx keys W Hk P) as Pk.
      set (keys' := map (fun i => nth i keys null) idx) in *.
      rewrite (map_ext_in
                 (fun k => hd null (values keys' keys' k)
                           :: map (fun c => mean_cells
                                              (values keys' (frames.series c (frames.take null idx df)) k))
                                  (frames.others df))
                 (fun k => hd null (values keys keys k)
                           :: map (fun c => mean_cells (values keys (frames.series c df) k))
                                  (frames.others df))).
      * now apply Permutation_map.
      * intros k Hin.
        apply (Permutation_in k (Permutation_sym Pk)), nodup_In in Hin.
        assert (Sk : StronglySorted lt (filter (in_group keys k) idx)).
        { specialize (S k). rewrite Es in S. now apply S. }
        rewrite <- Lk in P.
        f_equal.
        -- unfold keys'. now rewrite (values_take_sorted keys keys idx k eq_refl P Sk).
        -- apply map_ext_in. intros c Hc. apply frames_others_columns in Hc.
           rewrite (frames_series_take idx df c Hc). unfold keys'.
           rewrite (values_take_sorted keys (frames.series c df) idx k); [reflexivity | | exact P | exact Sk].
           now rewrite frames_series_length.
  - assert (Hk' : frames.get_column "expected_frequency" (frames.take null idx df) = Raise e)
      by now rewrite frames_get_column_take, Hk.
    rewrite (frames_group_by_missing df e Hk), (frames_group_by_missing _ e Hk'). reflexivity.
Qed.


End Grouping.

End AnyCells.

(** ** Exact cells

    On the cells of [num], [frames] is the notebook's functions as written
    above. *)

Lemma frames_exact_get_column (c : string) (df : DataFrame) :
  frames.get_column c df = get_column c df.
Proof. reflexivity. Qed.

Lemma frames_exact_aggregate (df : DataFrame) :
  frames.df_aggregate cell_of_Z pl.cell_div pl.cell_eq df = df_aggregate df.
Proof.
  unfold frames.df_aggregate, frames.select, df_aggregate, pl.select.
  cbn [first_dup mem existsb String.eqb Ascii.eqb Bool.eqb orb mapM bind].
  change (@frames.get_column cell) with get_column.
  destruct (get_column "expected_frequency" df) as [ef | ]; cbn [bind]; [ | reflexivity].
  destruct (get_column "CORE_0" df) as [c0 | ]; cbn [bind]; [ | reflexivity].
  destruct (get_column "measure_count" df) as [mc | ]; cbn [bind]; [ | reflexivity].
  destruct (get_column "duration_ms" df) as [dm | ]; cbn [bind]; [ | reflexivity].
  destruct (get_column "measure_delta" df) as [md | ]; reflexivity.
Qed.

Lemma exact_group_key (keys : Series) (k : cell) :
  In k keys ->
  hd None (frames.group_values cell_eq_dec (fun c => c) keys keys k) = k.
Proof.
  intros H. apply (group_key cell None cell cell_eq_dec (fun c => c)).
  now rewrite map_id.
Qed.

Lemma frames_exact_group_by (df : DataFrame) :
  frames.df_group_by_expected_frequency None cell_eq_dec (fun c => c) pl.mean_cells df
  = df_group_by_expected_frequency df.
Proof.
  destruct (get_column "expected_frequency" df) as [keys | e] eqn:Hk.
  - rewrite (group_by_spec df keys Hk).
    etransitivity;
      [exact (frames_group_by_spec cell None cell cell_eq_dec (fun c => c) pl.mean_cells
                df keys Hk) | ].
    unfold frames.grouped, grouped. rewrite map_id.
    apply f_equal, f_equal2; [ | reflexivity]. apply f_equal.
    rewrite <- (map_id (nodup cell_eq_dec keys)) at 2.
    apply map_ext_in. intros k Hin. apply nodup_In in Hin. now apply exact_group_key.
  - rewrite (group_by_missing df e Hk).
    exact (frames_group_by_missing cell None cell cell_eq_dec (fun c => c) pl.mean_cells df e Hk).
Qed.

(** ** [Float64] cells *)

Lemma float_sweep_wf : frames.wf float_sweep.
Proof.
  split.
  - repeat constructor; simpl; intuition discriminate.
  - repeat constructor.
Qed.

Lemma float_sweep_order : Permutation [1; 0; 2]%nat (seq 0 (frames.height float_sweep)).
Proof. apply perm_swap. Qed.

(** The order [1, 0, 2] keeps the two trials at 1000 Hz of [float_sweep]
    in their order. *)
Lemma float_sweep_keeps_order :
  frames.keeps_order None ieee.cell_eq_dec ieee.key_of float_sweep [1; 0; 2]%nat.
Proof.
  intros k Hk. cbn in Hk.
  destruct Hk as [<- | [<- | [<- | []]]]; vm_compute; repeat constructor.
Qed.


Lemma float_trials_wf : frames.wf float_trials.
Proof.
  split.
  - repeat constructor; simpl; intuition discriminate.
  - repeat constructor.
Qed.

Lemma float_trials_reversed : Permutation [2; 1; 0]%nat (seq 0 (frames.height float_trials)).
Proof.
  apply perm_trans with [1; 2; 0]%nat; [apply perm_swap | ].
  apply perm_trans with [1; 0; 2]%nat; [apply perm_skip, perm_swap | apply perm_swap].
Qed.


(** C4, as the code has it.  [df_aggregate] has no check of the deltas and
    raises nothing on a table that has the five columns it selects: in a
    row whose [measure_delta] is a zero and whose [expected_frequency] is
    not [0], [real_frequency] is the quotient [1000 / measure_delta] of
    IEEE arithmetic, the infinity that has the sign of the zero. *)
Theorem zero_delta_gives_signed_infinity (df : ieee.DataFrame) (i : nat) (e : ieee.cell)
    (s : bool) :
  In "CORE_0" (frames.columns df) ->
  In "measure_count" (frames.columns df) ->
  In "duration_ms" (frames.columns df) ->
  frames.cell_at df "measure_delta" i = Some (Some (S754_zero s)) ->
  frames.cell_at df "expected_frequency" i = Some e ->
  ieee.cell_eq e (ieee.cell_of_Z 0) <> Some true ->
  exists out,
    ieee.df_aggregate df = Ok out
    /\ frames.cell_at out "real_frequency" i = Some (Some (S754_infinity s)).
Proof.
  intros I2 I3 I4 Hm He Hz.
  destruct (frames_get_column_columns _ df _ I2) as [c0 H2].
  destruct (frames_get_column_columns _ df _ I3) as [mc H3].
  destruct (frames_get_column_columns _ df _ I4) as [dm H4].
  destruct (frames_cell_at_get_column _ df _ i _ Hm) as (md & H5 & Hmi).
  destruct (frames_cell_at_get_column _ df _ i _ He) as (ef & H1 & Hei).
  exists (frames.aggregated ieee.cell_of_Z ieee.cell_div ieee.cell_eq ef c0 md). split.
  - exact (frames_df_aggregate_spec _ ieee.cell_of_Z ieee.cell_div ieee.cell_eq
             df ef c0 mc dm md H1 H2 H3 H4 H5).
  - change (nth_error (frames.real_frequency_of ieee.cell_of_Z ieee.cell_div ieee.cell_eq ef md) i
            = Some (Some (S754_infinity s))).
    rewrite (frames_real_frequency_row _ ieee.cell_of_Z ieee.cell_div ieee.cell_eq
               ef md i e _ Hei Hmi).
    destruct (ieee.cell_eq e (ieee.cell_of_Z 0)) as [[ | ] | ]; [congruence | | ];
      destruct s; reflexivity.
Qed.

Lemma zero_delta_gives_signed_infinity_witness :
  exists out,
    ieee.df_aggregate zero_delta_grouped = Ok out
    /\ frames.cell_at out "real_frequency" 3 = Some (Some (S754_infinity true)).
Proof.
  apply (zero_delta_gives_signed_infinity zero_delta_grouped 3 (ieee.cell_of_Z 3000) true).
  - simpl. tauto.
  - simpl. tauto.
  - simpl. tauto.
  - reflexivity.
  - reflexivity.
  - vm_compute. discriminate.
Defined.

(** The two zeros on [zero_delta_grouped]: the rows at 2000 Hz and at
    3000 Hz get [+inf] and [-inf], the row at 0 Hz gets [0]. *)
Example zero_delta_both_signs :
  exists out,
    ieee.df_aggregate zero_delta_grouped = Ok out
    /\ frames.get_column "real_frequency" out
       = Ok [ ieee.cell_of_Z 0; ieee.cell_of_Z 500;
              Some (S754_infinity false); Some (S754_infinity true) ].
Proof. eexists. split; vm_compute; reflexivity. Qed.
